(** * Tiles-of-interest pipeline: a shallow embedding and its properties

    The development follows three scripts of the repository:

    - [projects/shared/scripts/yanroy/build_tiles_of_interest.py]
      (module [Grid]: the analytical MODIS grid),
    - [scripts/yanroy/build_tiles_of_interest_from_facts.py]
      (module [Facts]: footprints read from raster metadata),
    - [projects/shared/scripts/yanroy/build_vector_tiles_with_tippecanoe.py]
      (module [Tippecanoe]),

    and the two scripts that read the table the first two write:

    - [scripts/yanroy/build_field_polygons_ndjson.py] (module [Polygons]),
    - [projects/shared/scripts/yanroy/build_google_maps_field_keys.py]
      (module [Keys]).

    Python [str] values are lists of characters.  The character type is
    [ascii]: the model covers ASCII text, and a character above 127 belongs
    to no character class here.  Exceptions are values of [exn] carrying the
    class and the message; a function that may raise returns a [result]. *)

From Stdlib Require Import Ascii String.
From Stdlib Require Import List NArith ZArith Lia Bool Arith.
From Stdlib Require Import Sorting.Sorted Permutation.
From Stdlib Require Import Floats.PrimFloat Floats.SpecFloat Floats.FloatOps Floats.FloatAxioms.
From Stdlib Require Import Numbers.Cyclic.Int63.Uint63.
From Stdlib Require Import DecimalString DecimalZ DecimalPos.

Set Warnings "-inexact-float".
Import ListNotations.

Set Implicit Arguments.

(* ================================================================== *)
(** * Python values                                                     *)
(* ================================================================== *)

Definition str := list ascii.

(** A literal: [lit "ab"] is the Python string ['ab']. *)
Definition lit (s : string) : str := list_ascii_of_string s.

Inductive exn : Type :=
| ValueError (msg : str)
| RuntimeError (msg : str)
| FileNotFoundError (msg : str).

Inductive result (A : Type) : Type :=
| Ok (a : A)
| Raise (e : exn).

Arguments Ok {A} a.
Arguments Raise {A} e.

Module Py.

Definition code (c : ascii) : N := N_of_ascii c.

Definition between (lo hi : N) (c : ascii) : bool :=
  (lo <=? code c)%N && (code c <=? hi)%N.

(** [str.isdigit], [str.isalpha], [str.isspace] on one character. *)
Definition isdigit (c : ascii) : bool := between 48 57 c.
Definition isupper (c : ascii) : bool := between 65 90 c.
Definition islower (c : ascii) : bool := between 97 122 c.
Definition isalpha (c : ascii) : bool := isupper c || islower c.
Definition isspace (c : ascii) : bool := between 9 13 c || between 28 32 c.

Definition upper_char (c : ascii) : ascii :=
  if islower c then ascii_of_N (code c - 32) else c.
Definition lower_char (c : ascii) : ascii :=
  if isupper c then ascii_of_N (code c + 32) else c.

Definition upper (s : str) : str := map upper_char s.
Definition lower (s : str) : str := map lower_char s.

Fixpoint lstrip (s : str) : str :=
  match s with
  | c :: s' => if isspace c then lstrip s' else s
  | [] => []
  end.
Definition rstrip (s : str) : str := rev (lstrip (rev s)).
Definition strip (s : str) : str := rstrip (lstrip s).

Fixpoint eqb (a b : str) : bool :=
  match a, b with
  | [], [] => true
  | x :: a', y :: b' => Ascii.eqb x y && eqb a' b'
  | _, _ => false
  end.

(** [x in {a, b, ...}] and [x in some_list]. *)
Definition mem (x : str) (l : list str) : bool := existsb (eqb x) l.

(** [str.__lt__] / [str.__le__]: code point by code point, a proper prefix
    is smaller. *)
Fixpoint leb (a b : str) : bool :=
  match a, b with
  | [], _ => true
  | _ :: _, [] => false
  | x :: a', y :: b' =>
      if (code x <? code y)%N then true
      else if (code y <? code x)%N then false
      else leb a' b'
  end.

Definition is_sign (c : ascii) : bool :=
  Ascii.eqb c "+"%char || Ascii.eqb c "-"%char.

(** [s.zfill(width)]: pad on the left with ['0'], after a leading sign. *)
Definition zfill (width : nat) (s : str) : str :=
  if width <=? length s then s
  else
    let pad := repeat "0"%char (width - length s) in
    match s with
    | c :: rest => if is_sign c then c :: pad ++ rest else pad ++ s
    | [] => pad
    end.

(** [s.split(sep)] for a one-character separator. *)
Fixpoint split (sep : ascii) (s : str) : list str :=
  match s with
  | [] => [[]]
  | c :: s' =>
      if Ascii.eqb c sep then [] :: split sep s'
      else
        match split sep s' with
        | p :: ps => (c :: p) :: ps
        | [] => [[c]]
        end
  end.

(** [sep.join(parts)]. *)
Fixpoint join (sep : str) (parts : list str) : str :=
  match parts with
  | [] => []
  | [p] => p
  | p :: ps => p ++ sep ++ join sep ps
  end.

(** Truth value of a list, a set or a string: non-empty. *)
Definition nonempty (A : Type) (l : list A) : bool :=
  match l with [] => false | _ => true end.

(** [x or ""] for an optional string. *)
Definition or_empty (x : option str) : str :=
  match x with Some s => s | None => [] end.

(** [str(n)] for an integer. *)
Definition str_of_Z (z : Z) : str :=
  list_ascii_of_string (NilZero.string_of_int (Z.to_int z)).

(** A Python [set] of strings that is only grown and tested for
    membership: kept duplicate-free. *)
Definition set_add (x : str) (s : list str) : list str :=
  if mem x s then s else s ++ [x].

(** Insertion-ordered [dict] with string keys. *)
Section Dict.
Variable V : Type.
Definition dict := list (str * V).

Fixpoint dict_get (k : str) (d : dict) : option V :=
  match d with
  | [] => None
  | (k', v) :: d' => if eqb k k' then Some v else dict_get k d'
  end.

(** [d[k] = v]: an existing key keeps its position. *)
Fixpoint dict_set (k : str) (v : V) (d : dict) : dict :=
  match d with
  | [] => [(k, v)]
  | (k', v') :: d' =>
      if eqb k k' then (k', v) :: d' else (k', v') :: dict_set k v d'
  end.

Definition values (d : dict) : list V := map snd d.
End Dict.

(** Stable insertion sort by a preorder on keys: [list.sort(key=...)] and
    [sorted(...)] are stable, so on a total preorder their result is the
    one computed here. *)
Section Sort.
Variables (A : Type) (le : A -> A -> bool).

Fixpoint insert (x : A) (l : list A) : list A :=
  match l with
  | [] => [x]
  | y :: l' => if le y x then y :: insert x l' else x :: l
  end.

Definition sort (l : list A) : list A :=
  fold_left (fun acc x => insert x acc) l [].
End Sort.

End Py.

(* ================================================================== *)
(** * The [csv] module                                                  *)
(* ================================================================== *)

(** A CSV file is the list of records [csv.reader] yields from it; a blank
    line is the empty record. *)
Definition csv_file := list (list str).

Module Csv.

Definition row := Py.dict (option str).

(** The dictionary [csv.DictReader] builds for one record: fields are
    stored under the field names in order (a repeated name keeps the last
    value), names beyond the record get [None].  Fields beyond the names
    go under the key [None], which none of the readers below can look up,
    so that entry is left out. *)
Fixpoint zip_row (names : list str) (fields : list str) (d : row) : row :=
  match names, fields with
  | k :: names', v :: fields' => zip_row names' fields' (Py.dict_set k (Some v) d)
  | k :: names', [] => zip_row names' [] (Py.dict_set k None d)
  | [], _ => d
  end.

(** [csv.DictReader(f)]: the field names are the first record, if any;
    later blank records are skipped. *)
Definition DictReader (f : csv_file) : option (list str) * list row :=
  match f with
  | [] => (None, [])
  | names :: rest =>
      (Some names, map (fun r => zip_row names r []) (filter (@Py.nonempty str) rest))
  end.

(** [not rdr.fieldnames]. *)
Definition no_fieldnames (names : option (list str)) : bool :=
  match names with None | Some [] => true | Some _ => false end.

(** [row.get(k) or ""]. *)
Definition get_or_empty (k : str) (r : row) : str :=
  match Py.dict_get k r with Some (Some v) => v | _ => [] end.

End Csv.

(* ================================================================== *)
(** * Region codes                                                      *)
(* ================================================================== *)

Module Codes.

(** [_norm]. *)
Definition _norm (s : str) : str :=
  filter (fun c => negb (Ascii.eqb c "_"%char))
    (filter (fun c => negb (Ascii.eqb c " "%char))
       (Py.lower (Py.strip s))).

Definition fips_columns : list str :=
  [lit "statefp"; lit "statefips"; lit "fips"; lit "statecode"; lit "stfips"].
Definition abbr_columns : list str :=
  [lit "stusps"; lit "state"; lit "stateabbr"; lit "stateabbrev"; lit "statepostal"].

(** The body of the loop over [row.items()] shared by the two headered
    readers; [abbr_ok] is the test the reader puts on the letters kept. *)
Definition add_cell (abbr_ok : str -> bool)
    (acc : list str * list str) (cell : str * option str)
  : list str * list str :=
  let '(fips, abbr) := acc in
  let key := _norm (fst cell) in
  let val := Py.strip (Py.or_empty (snd cell)) in
  match val with
  | [] => (fips, abbr)
  | _ =>
      let fips' :=
        if Py.mem key fips_columns then
          match filter Py.isdigit val with
          | [] => fips
          | vv => Py.set_add (Py.zfill 2 vv) fips
          end
        else fips in
      let abbr' :=
        if Py.mem key abbr_columns then
          let ab := Py.upper (filter Py.isalpha val) in
          if abbr_ok ab then Py.set_add ab abbr else abbr
        else abbr in
      (fips', abbr')
  end.

Definition read_rows (abbr_ok : str -> bool) (rows : list Csv.row)
  : list str * list str :=
  fold_left (fun acc r => fold_left (add_cell abbr_ok) r acc) rows ([], []).

Definition no_codes : exn :=
  ValueError (lit "states csv did not yield any state codes").

Definition finish (codes : list str * list str)
  : result (list str * list str) :=
  match codes with
  | ([], []) => Raise no_codes
  | _ => Ok codes
  end.

End Codes.

(* ================================================================== *)
(** * [pathlib]                                                         *)
(* ================================================================== *)

(** Paths are POSIX paths ([PurePosixPath]): the components are the pieces
    between slashes, without the empty ones and the single dots. *)
Module Path.

Definition dot : str := ["."%char].

Definition keep_part (x : str) : bool :=
  match x with
  | [] => false
  | _ => negb (Py.eqb x dot)
  end.

Definition parts (p : str) : list str :=
  filter keep_part (Py.split "/"%char p).

(** [Path(p).name]: the last component, [''] when there is none. *)
Definition name (p : str) : str := last (parts p) [].

(** [s.rfind(".")], counted from position [i] of the whole string. *)
Fixpoint rfind_dot (s : str) (i : nat) (found : option nat) : option nat :=
  match s with
  | [] => found
  | c :: s' =>
      rfind_dot s' (S i) (if Ascii.eqb c "."%char then Some i else found)
  end.

(** [Path(p).stem]: the name without its last suffix; a name that starts or
    ends with its only dot has no suffix. *)
Definition stem (p : str) : str :=
  let n := name p in
  match rfind_dot n 0 None with
  | Some i => if (0 <? i) && (i <? length n - 1) then firstn i n else n
  | None => n
  end.

End Path.

(* ================================================================== *)
(** * The geometry engine and the run-time effects                      *)
(* ================================================================== *)

Module Geo.

(** The operations of geopandas / shapely the builders call.  [make_valid]
    is [None] when [GeoSeries.make_valid] raises (the builder then falls back
    on a zero-distance buffer).  [sjoin] is the inner intersects-join: it
    pairs attributes of the left table with attributes of the right one, in
    the row order of its result. *)
Record engine : Type := {
  geom : Type;
  to_crs : str -> str -> geom -> geom;
  make_valid : option (geom -> geom);
  buffer : float -> geom -> geom;
  is_empty : geom -> bool;
  box : float -> float -> float -> float -> geom;
  sjoin : forall L R : Type,
      list (L * option geom) -> list (R * geom) -> list (L * R)
}.

(** The [STATEFP] and [STUSPS] cells of one feature ([None] is a null cell
    or an absent column) and the tile columns of the right table. *)
Record attrs : Type := { STATEFP : option str; STUSPS : option str }.

Record tile (H : Type) : Type := { t_tile_id : str; t_h : H; t_v : H }.

(** The boundary source after [gpd.read_file]. *)
Record geodataframe (G : engine) : Type := {
  has_statefp : bool;
  has_stusps : bool;
  features : list (attrs * option (geom G));
  crs : option str
}.

(** [gdf[[c for c in ["STATEFP", "STUSPS", "geometry"] if c in gdf.columns]]]. *)
Definition state_cols (G : engine) (gdf : geodataframe G)
    (rows : list (attrs * option (geom G))) : list (attrs * option (geom G)) :=
  map (fun r =>
         ({| STATEFP := if has_statefp gdf then STATEFP (fst r) else None;
             STUSPS := if has_stusps gdf then STUSPS (fst r) else None |},
          snd r)) rows.

(** [series.astype(str)] on one cell. *)
Definition astype_str (x : option str) : str :=
  match x with Some s => s | None => lit "None" end.

(** [gdf["STATEFP"].astype(str).str.zfill(2)] and
    [gdf["STUSPS"].astype(str).str.upper()]; the padding of pandas is taken
    to be the one of [str.zfill]. *)
Definition fips_column (G : engine) (gdf : geodataframe G) : list str :=
  map (fun r => Py.zfill 2 (astype_str (STATEFP (fst r)))) (features gdf).
Definition abbr_column (G : engine) (gdf : geodataframe G) : list str :=
  map (fun r => Py.upper (astype_str (STUSPS (fst r)))) (features gdf).

(** [mask | m] on boolean series of one length. *)
Fixpoint series_or (a b : list bool) : list bool :=
  match a, b with
  | x :: a', y :: b' => (x || y) :: series_or a' b'
  | _, _ => []
  end.

(** [gdf.loc[mask]]. *)
Fixpoint loc (A : Type) (mask : list bool) (rows : list A) : list A :=
  match mask, rows with
  | m :: mask', r :: rows' => if m then r :: loc mask' rows' else loc mask' rows'
  | _, _ => []
  end.

(** The selection mask of both builders; [None] when no criterion applies. *)
Definition selection_mask (G : engine) (gdf : geodataframe G)
    (fips_interest abbr_interest : list str) : option (list bool) :=
  let mask := None in
  let mask :=
    if has_statefp gdf && Py.nonempty fips_interest then
      let m := map (fun x => Py.mem x fips_interest) (fips_column gdf) in
      match mask with None => Some m | Some k => Some (series_or k m) end
    else mask in
  let mask :=
    if has_stusps gdf && Py.nonempty abbr_interest then
      let m := map (fun x => Py.mem x abbr_interest) (abbr_column gdf) in
      match mask with None => Some m | Some k => Some (series_or k m) end
    else mask in
  mask.

End Geo.

(** What a run does to the file system, in order. *)
Module IO.

Record out_row : Type := {
  statefp : str;
  stusps : str;
  tile_id : str;
  h : option Z;
  v : option Z
}.

Inductive event : Type :=
| MkdirParent (output_csv : str)
| WriteCsv (output_csv : str) (fieldnames : list str) (rows : list out_row).

(** A computation: its outcome and the events it caused on the way. *)
Definition M (A : Type) : Type := (result A * list event)%type.

Definition ret (A : Type) (a : A) : M A := (Ok a, []).
Definition raise (A : Type) (e : exn) : M A := (Raise e, []).
Arguments raise {A} e.
Definition lift (A : Type) (r : result A) : M A := (r, []).
Definition emit (ev : event) : M unit := (Ok tt, [ev]).
Definition bind (A B : Type) (m : M A) (f : A -> M B) : M B :=
  match m with
  | (Ok a, evs) => let '(r, evs') := f a in (r, evs ++ evs')
  | (Raise e, evs) => (Raise e, evs)
  end.

End IO.

Notation "x <- m ;; k" := (IO.bind m (fun x => k))
  (at level 61, m at next level, right associativity).
Notation "' p <- m ;; k" := (IO.bind m (fun x => match x with p => k end))
  (at level 61, p pattern, m at next level, right associativity).
Notation "m ;;; k" := (IO.bind m (fun _ => k))
  (at level 61, right associativity).

(* ================================================================== *)
(** * The output stage shared by the two builders                       *)
(* ================================================================== *)

Module Output.

Import IO.

(** [statefp or stusps], paired with the tile id. *)
Definition key (r : out_row) : str * str :=
  (match statefp r with [] => stusps r | s => s end, tile_id r).

Definition key_eqb (a b : str * str) : bool :=
  Py.eqb (fst a) (fst b) && Py.eqb (snd a) (snd b).

(** One turn of [for _, row in joined.iterrows()]; [normalize] builds the
    output record of a joined row. *)
Definition dedup_step (J : Type) (normalize : J -> out_row)
    (acc : list (str * str) * list out_row) (j : J)
  : list (str * str) * list out_row :=
  let '(seen, rows) := acc in
  let r := normalize j in
  match tile_id r with
  | [] => acc
  | _ =>
      if existsb (key_eqb (key r)) seen then acc
      else (seen ++ [key r], rows ++ [r])
  end.

Definition dedup (J : Type) (normalize : J -> out_row) (joined : list J)
  : list out_row :=
  snd (fold_left (dedup_step normalize) joined ([], [])).

(** [(r["statefp"], r["tile_id"])] and the order of tuples of strings. *)
Definition sort_key (r : out_row) : str * str := (statefp r, tile_id r).

Definition tuple_leb (a b : str * str) : bool :=
  if Py.eqb (fst a) (fst b) then Py.leb (snd a) (snd b)
  else Py.leb (fst a) (fst b).

Definition row_leb (a b : out_row) : bool :=
  tuple_leb (sort_key a) (sort_key b).

(** [rows.sort(key=lambda r: (r["statefp"], r["tile_id"]))]. *)
Definition sort_rows (rows : list out_row) : list out_row :=
  Py.sort row_leb rows.

Definition fieldnames : list str :=
  [lit "statefp"; lit "stusps"; lit "tile_id"; lit "h"; lit "v"].

(** From the directory creation to [return len(rows)]. *)
Definition write (J : Type) (normalize : J -> out_row) (joined : list J)
    (output_csv : str) : M nat :=
  emit (MkdirParent output_csv) ;;;
  let rows := sort_rows (dedup normalize joined) in
  emit (WriteCsv output_csv fieldnames rows) ;;;
  ret (length rows).

End Output.

(* ================================================================== *)
(** * The grid builder ([build_tiles_of_interest.py])                   *)
(* ================================================================== *)

Module Grid.

(** [_read_state_codes] of [build_tiles_of_interest.py]: any non-empty run
    of letters is kept as an abbreviation ([if ab:]). *)
Definition abbr_ok (ab : str) : bool :=
  match ab with [] => false | _ => true end.

Definition _read_state_codes (f : csv_file) : result (list str * list str) :=
  let '(names, rows) := Csv.DictReader f in
  if Csv.no_fieldnames names
  then Raise (ValueError (lit "states csv has no header"))
  else Codes.finish (Codes.read_rows abbr_ok rows).

(** The MODIS sinusoidal grid. *)
Definition MODIS_XMIN : float := (-20015109.354)%float.
Definition MODIS_YMAX : float := 10007554.677%float.
Definition MODIS_TILE_SIZE : float := 1111950.5196666666%float.
Definition MODIS_H_MAX : nat := 35.
Definition MODIS_V_MAX : nat := 17.
Definition MODIS_SINU_WKT : str :=
  lit "+proj=sinu +R=6371007.181 +nadgrids=@null +wktext +units=m +no_defs".

(** [float(n)] for a small non-negative integer. *)
Definition float_of_nat (n : nat) : float :=
  PrimFloat.of_uint63 (Uint63.of_Z (Z.of_nat n)).

(** [_iter_modis_tiles]: [(h, v, minx, miny, maxx, maxy)], [h] outermost. *)
Definition _iter_modis_tiles : list (nat * nat * (float * float * float * float)) :=
  flat_map
    (fun h =>
       map (fun v =>
              let minx := PrimFloat.add MODIS_XMIN
                            (PrimFloat.mul (float_of_nat h) MODIS_TILE_SIZE) in
              let maxx := PrimFloat.add minx MODIS_TILE_SIZE in
              let maxy := PrimFloat.sub MODIS_YMAX
                            (PrimFloat.mul (float_of_nat v) MODIS_TILE_SIZE) in
              let miny := PrimFloat.sub maxy MODIS_TILE_SIZE in
              (h, v, (minx, miny, maxx, maxy)))
           (seq 0 (MODIS_V_MAX + 1)))
    (seq 0 (MODIS_H_MAX + 1)).

(** [f"h{h:02d}v{v:02d}"]. *)
Definition format_tile_id (h v : nat) : str :=
  lit "h" ++ Py.zfill 2 (Py.str_of_Z (Z.of_nat h))
  ++ lit "v" ++ Py.zfill 2 (Py.str_of_Z (Z.of_nat v)).

(** The tile table [tdf]. *)
Definition tiles (G : Geo.engine) : list (Geo.tile Z * Geo.geom G) :=
  map (fun t =>
         let '(h, v, (minx, miny, maxx, maxy)) := t in
         ({| Geo.t_tile_id := format_tile_id h v;
             Geo.t_h := Z.of_nat h; Geo.t_v := Z.of_nat v |},
          Geo.box G minx miny maxx maxy))
      _iter_modis_tiles.

(** The output record of one joined row. *)
Definition normalize (j : Geo.attrs * Geo.tile Z) : IO.out_row :=
  {| IO.statefp := Py.zfill 2 (Py.or_empty (Geo.STATEFP (fst j)));
     IO.stusps := Py.upper (Py.or_empty (Geo.STUSPS (fst j)));
     IO.tile_id := Geo.t_tile_id (snd j);
     IO.h := Some (Geo.t_h (snd j));
     IO.v := Some (Geo.t_v (snd j)) |}.

(** [build_tiles_of_interest] up to the test on the join: [gdf] is what
    [gpd.read_file(state_shapefile)] returned.  Nothing is written yet. *)
Definition joined_rows (G : Geo.engine)
    (states_csv : csv_file) (state_shapefile : str)
    (gdf : Geo.geodataframe G) : result (list (Geo.attrs * Geo.tile Z)) :=
  match _read_state_codes states_csv with
  | Raise e => Raise e
  | Ok (fips_interest, abbr_interest) =>
  if negb (Py.nonempty (Geo.features gdf)) then
    Raise (RuntimeError (lit "state shapefile has no features: " ++ state_shapefile))
  else if negb (Geo.has_statefp gdf) && negb (Geo.has_stusps gdf) then
    Raise (RuntimeError (lit "state shapefile missing STATEFP and STUSPS columns"))
  else
    match Geo.selection_mask gdf fips_interest abbr_interest with
    | None =>
        Raise (RuntimeError (lit "no matching state columns found for provided codes"))
    | Some mask =>
        let selected := Geo.loc mask (Geo.features gdf) in
        if negb (Py.nonempty selected) then
          Raise (RuntimeError (lit "no states matched states.of.interest.csv"))
        else
          match Geo.crs gdf with
          | None => Raise (RuntimeError (lit "state shapefile missing CRS"))
          | Some src_crs =>
              let projected :=
                map (fun r => (fst r, option_map (Geo.to_crs G src_crs MODIS_SINU_WKT) (snd r)))
                    selected in
              let joined := Geo.sjoin G (Geo.state_cols gdf projected) (tiles G) in
              if negb (Py.nonempty joined) then
                Raise (RuntimeError (lit "no MODIS tiles intersect selected states"))
              else Ok joined
          end
    end
  end.

(** [build_tiles_of_interest]: the join, then the output stage.  The
    [verbose] flag only prints and is left out. *)
Definition build_tiles_of_interest (G : Geo.engine)
    (states_csv : csv_file) (state_shapefile : str)
    (gdf : Geo.geodataframe G) (output_csv : str) : IO.M nat :=
  joined <- IO.lift (joined_rows states_csv state_shapefile gdf) ;;
  Output.write normalize joined output_csv.

End Grid.

(* ================================================================== *)
(** * The facts-derived builder ([build_tiles_of_interest_from_facts.py]) *)
(* ================================================================== *)

Module Facts.

(** [_parse_state_token]. *)
Definition _parse_state_token (raw : str) : str * str :=
  let val := Py.strip raw in
  match val with
  | [] => ([], [])
  | _ =>
      let digits := filter Py.isdigit val in
      if (length digits =? 1) || (length digits =? 2)
      then (Py.zfill 2 digits, [])
      else
        let alpha := Py.upper (filter Py.isalpha val) in
        if length alpha =? 2 then ([], alpha) else ([], [])
  end.

(** [if len(ab) == 2:]. *)
Definition abbr_ok (ab : str) : bool := length ab =? 2.

Definition add_token (acc : list str * list str) (raw : str)
  : list str * list str :=
  let '(fips, abbr) := acc in
  let '(ff, aa) := _parse_state_token raw in
  let fips' := match ff with [] => fips | _ => Py.set_add ff fips end in
  let abbr' := match aa with [] => abbr | _ => Py.set_add aa abbr end in
  (fips', abbr').

(** [_read_state_codes] of [build_tiles_of_interest_from_facts.py].
    [has_header] is the verdict of [csv.Sniffer().has_header] on the first
    4096 characters ([False] for a blank sample or on [csv.Error]). *)
Definition _read_state_codes (has_header : bool) (f : csv_file)
  : result (list str * list str) :=
  Codes.finish
    (if has_header
     then Codes.read_rows abbr_ok (snd (Csv.DictReader f))
     else fold_left (fun acc r => fold_left add_token r acc) f ([], [])).

(** ** Footprints from the raster metadata table *)

(** [_TILE_RE = (?i)(h\d{2}v\d{2})]: the match at the start of [s]. *)
Definition tile_at (s : str) : option str :=
  match s with
  | c0 :: d1 :: d2 :: c3 :: d4 :: d5 :: _ =>
      if (Ascii.eqb c0 "h"%char || Ascii.eqb c0 "H"%char)
         && Py.isdigit d1 && Py.isdigit d2
         && (Ascii.eqb c3 "v"%char || Ascii.eqb c3 "V"%char)
         && Py.isdigit d4 && Py.isdigit d5
      then Some [c0; d1; d2; c3; d4; d5]
      else None
  | _ => None
  end.

(** [_TILE_RE.search(s)], then [m.group(1)]: the leftmost match. *)
Fixpoint tile_search (s : str) : option str :=
  match tile_at s with
  | Some m => Some m
  | None => match s with [] => None | _ :: s' => tile_search s' end
  end.

(** [int(s)] on a run of decimal digits; [None] is [ValueError]. *)
Definition int_of_digits (s : str) : option Z :=
  match s with
  | [] => None
  | _ =>
      if forallb Py.isdigit s
      then Some (fold_left (fun acc c => (10 * acc + (Z.of_N (Py.code c) - 48))%Z) s 0%Z)
      else None
  end.

(** [text[i:j]]. *)
Definition slice (i j : nat) (s : str) : str := firstn (j - i) (skipn i s).

(** [_parse_hv]. *)
Definition _parse_hv (tile_id : str) : option Z * option Z :=
  match tile_search tile_id with
  | None => (None, None)
  | Some m =>
      let text := Py.lower m in
      match int_of_digits (slice 1 3 text), int_of_digits (slice 4 6 text) with
      | Some hh, Some vv => (Some hh, Some vv)
      | _, _ => (None, None)
      end
  end.

(** [_normalize_tile_id]. *)
Definition _normalize_tile_id (relative_path : str) : str :=
  let rel := Py.strip relative_path in
  match rel with
  | [] => []
  | _ =>
      match tile_search rel with
      | Some m => Py.lower m
      | None =>
          let name := Path.name rel in
          let stem := match name with [] => rel | _ => Path.stem name end in
          Py.lower (Py.strip (match stem with [] => rel | _ => stem end))
      end
  end.

Record footprint : Type := {
  fp_tile_id : str;
  fp_h : option Z;
  fp_v : option Z;
  fp_crs : str;
  fp_minx : float;
  fp_miny : float;
  fp_maxx : float;
  fp_maxy : float
}.

Section WithFloat.

(** Python's [float(text)]; [None] is the exception it raises. *)
Variable float_of_str : str -> option float.

(** [_parse_bounds]. *)
Definition _parse_bounds (text : str) : option (float * float * float * float) :=
  let raw := Py.strip text in
  match raw with
  | [] => None
  | _ =>
      match map Py.strip (Py.split ","%char raw) with
      | [p0; p1; p2; p3] =>
          match float_of_str p0, float_of_str p1, float_of_str p2, float_of_str p3 with
          | Some minx, Some miny, Some maxx, Some maxy =>
              if PrimFloat.ltb minx maxx && PrimFloat.ltb miny maxy
              then Some (minx, miny, maxx, maxy)
              else None
          | _, _, _, _ => None
          end
      | _ => None
      end
  end.

(** The guards of the loop body of [_read_raster_footprints_from_facts], up
    to the look-up in [by_tile]: the footprint a row stands for, or [None]
    when one of the [continue]s is taken. *)
Definition candidate (row : Csv.row) : option footprint :=
  let rel := Py.strip (Csv.get_or_empty (lit "relative_path") row) in
  match rel with
  | [] => None
  | _ =>
      match _parse_bounds (Csv.get_or_empty (lit "bounds") row) with
      | None => None
      | Some (minx, miny, maxx, maxy) =>
          let crs_text := Py.strip (Csv.get_or_empty (lit "crs") row) in
          match crs_text with
          | [] => None
          | _ =>
              let tile_id := _normalize_tile_id rel in
              match tile_id with
              | [] => None
              | _ =>
                  let '(h_val, v_val) := _parse_hv tile_id in
                  Some {| fp_tile_id := tile_id; fp_h := h_val; fp_v := v_val;
                          fp_crs := crs_text;
                          fp_minx := minx; fp_miny := miny;
                          fp_maxx := maxx; fp_maxy := maxy |}
              end
          end
      end
  end.

(** One turn of the loop: the first footprint of a tile id is kept. *)
Definition footprint_step (by_tile : Py.dict footprint) (row : Csv.row)
  : Py.dict footprint :=
  match candidate row with
  | None => by_tile
  | Some fp =>
      match Py.dict_get (fp_tile_id fp) by_tile with
      | Some prev => by_tile
      | None => Py.dict_set (fp_tile_id fp) fp by_tile
      end
  end.

(** [_read_raster_footprints_from_facts]. *)
Definition _read_raster_footprints_from_facts (raster_facts_csv : csv_file)
  : result (list footprint) :=
  let '(names, rows) := Csv.DictReader raster_facts_csv in
  if Csv.no_fieldnames names
  then Raise (ValueError (lit "raster_facts csv has no header"))
  else
    match Py.values (fold_left footprint_step rows []) with
    | [] =>
        Raise (ValueError (lit
          "no usable raster footprints (relative_path+bounds+crs) found in raster_facts csv"))
    | out => Ok out
    end.

(** ** The resolver *)

(** [sorted(requested - known)]. *)
Definition missing (requested known : list str) : list str :=
  Py.sort Py.leb (filter (fun x => negb (Py.mem x known)) requested).

(** The message of the error raised when requested codes are absent from
    the boundary source. *)
Definition not_found_message (missing_fips missing_abbr : list str) : str :=
  let parts := [] in
  let parts :=
    if Py.nonempty missing_fips
    then parts ++ [lit "fips=" ++ Py.join (lit ",") missing_fips] else parts in
  let parts :=
    if Py.nonempty missing_abbr
    then parts ++ [lit "abbr=" ++ Py.join (lit ",") missing_abbr] else parts in
  lit "requested states not found in state shapefile: " ++ Py.join (lit " ") parts.

(** [footprints_by_crs.setdefault(crs_key, []).append(fp)]. *)
Fixpoint group_add (crs_key : str) (fp : footprint)
    (d : Py.dict (list footprint)) : Py.dict (list footprint) :=
  match d with
  | [] => [(crs_key, [fp])]
  | (k, fps) :: d' =>
      if Py.eqb crs_key k then (k, fps ++ [fp]) :: d'
      else (k, fps) :: group_add crs_key fp d'
  end.

Definition group_by_crs (footprints : list footprint) : Py.dict (list footprint) :=
  fold_left (fun d fp => group_add (fp_crs fp) fp d) footprints [].

Section WithEngine.

Variable G : Geo.engine.

Definition on_geometry (f : Geo.geom G -> Geo.geom G)
    (rows : list (Geo.attrs * option (Geo.geom G)))
  : list (Geo.attrs * option (Geo.geom G)) :=
  map (fun r => (fst r, option_map f (snd r))) rows.

Definition notna (r : Geo.attrs * option (Geo.geom G)) : bool :=
  match snd r with Some _ => true | None => false end.

Definition not_empty (r : Geo.attrs * option (Geo.geom G)) : bool :=
  match snd r with Some g => negb (Geo.is_empty G g) | None => true end.

(** The selected regions in the CRS of one tile group, repaired: [to_crs],
    rows without geometry dropped, [make_valid] (or [buffer(0)] when that
    raises), empty geometries dropped. *)
Definition repaired (src_crs crs_key : str)
    (selected : list (Geo.attrs * option (Geo.geom G)))
  : list (Geo.attrs * option (Geo.geom G)) :=
  let state_proj := on_geometry (Geo.to_crs G src_crs crs_key) selected in
  let state_proj := filter notna state_proj in
  let state_proj :=
    match Geo.make_valid G with
    | Some mv => on_geometry mv state_proj
    | None => on_geometry (Geo.buffer G 0%float) state_proj
    end in
  filter not_empty state_proj.

(** The rows of [tdf] for one group: the box of each footprint. *)
Definition tile_rows (fps : list footprint)
  : list (Geo.tile (option Z) * Geo.geom G) :=
  map (fun fp =>
         ({| Geo.t_tile_id := fp_tile_id fp; Geo.t_h := fp_h fp; Geo.t_v := fp_v fp |},
          Geo.box G (fp_minx fp) (fp_miny fp) (fp_maxx fp) (fp_maxy fp)))
      fps.

(** The two tables handed to [gpd.sjoin] for one CRS group; [None] when the
    group is skipped because no region is left after the repair. *)
Definition sjoin_inputs (gdf : Geo.geodataframe G) (touch_buffer_m : float)
    (src_crs crs_key : str) (fps : list footprint)
    (selected : list (Geo.attrs * option (Geo.geom G)))
  : option (list (Geo.attrs * option (Geo.geom G))
            * list (Geo.tile (option Z) * Geo.geom G)) :=
  let state_proj := repaired src_crs crs_key selected in
  if negb (Py.nonempty state_proj) then None
  else
    let state_proj :=
      if PrimFloat.ltb 0%float touch_buffer_m
      then on_geometry (Geo.buffer G touch_buffer_m) state_proj
      else state_proj in
    Some (Geo.state_cols gdf state_proj, tile_rows fps).

(** One turn of [for crs_key, fps in footprints_by_crs.items()]. *)
Definition join_group (gdf : Geo.geodataframe G) (touch_buffer_m : float)
    (src_crs : str) (selected : list (Geo.attrs * option (Geo.geom G)))
    (joined_parts : list (list (Geo.attrs * Geo.tile (option Z))))
    (group : str * list footprint)
  : list (list (Geo.attrs * Geo.tile (option Z))) :=
  match sjoin_inputs gdf touch_buffer_m src_crs (fst group) (snd group) selected with
  | None => joined_parts
  | Some (regions, tdf) =>
      let joined := Geo.sjoin G regions tdf in
      if Py.nonempty joined then joined_parts ++ [joined] else joined_parts
  end.

(** [_to_int_or_blank] on an [h] or [v] cell.  The cell is [None] (or NaN)
    when the tile id has no grid token, otherwise a whole number, which
    [int(float(str(value)))] gives back. *)
Definition _to_int_or_blank (value : option Z) : option Z :=
  match value with
  | None => None
  | Some n => Some n
  end.

(** The output record of one joined row. *)
Definition normalize (j : Geo.attrs * Geo.tile (option Z)) : IO.out_row :=
  {| IO.statefp := Py.zfill 2 (Py.or_empty (Geo.STATEFP (fst j)));
     IO.stusps := Py.upper (Py.or_empty (Geo.STUSPS (fst j)));
     IO.tile_id := Py.lower (Geo.t_tile_id (snd j));
     IO.h := _to_int_or_blank (Geo.t_h (snd j));
     IO.v := _to_int_or_blank (Geo.t_v (snd j)) |}.

Definition touch_buffer_m_default : float := 1.0%float.

(** [build_tiles_of_interest] up to the union of the per-group joins: [gdf]
    is what [gpd.read_file(state_shapefile)] returned, [has_header] the
    sniffer's verdict on [states_csv].  Nothing is written yet. *)
Definition joined_rows
    (has_header : bool) (states_csv : csv_file) (state_shapefile : str)
    (gdf : Geo.geodataframe G) (raster_facts_csv : csv_file)
    (touch_buffer_m : float) : result (list (Geo.attrs * Geo.tile (option Z))) :=
  match _read_state_codes has_header states_csv with
  | Raise e => Raise e
  | Ok (fips_interest, abbr_interest) =>
  match _read_raster_footprints_from_facts raster_facts_csv with
  | Raise e => Raise e
  | Ok footprints =>
  if negb (Py.nonempty (Geo.features gdf)) then
    Raise (RuntimeError (lit "state shapefile has no features: " ++ state_shapefile))
  else if negb (Geo.has_statefp gdf) && negb (Geo.has_stusps gdf) then
    Raise (RuntimeError (lit "state shapefile missing STATEFP and STUSPS columns"))
  else
    let missing_fips :=
      if Geo.has_statefp gdf && Py.nonempty fips_interest
      then missing fips_interest (Geo.fips_column gdf) else [] in
    let missing_abbr :=
      if Geo.has_stusps gdf && Py.nonempty abbr_interest
      then missing abbr_interest (Geo.abbr_column gdf) else [] in
    if Py.nonempty missing_fips || Py.nonempty missing_abbr then
      Raise (RuntimeError (not_found_message missing_fips missing_abbr))
    else
      match Geo.selection_mask gdf fips_interest abbr_interest with
      | None =>
          Raise (RuntimeError (lit "no matching state columns found for provided codes"))
      | Some mask =>
          let selected := Geo.loc mask (Geo.features gdf) in
          if negb (Py.nonempty selected) then
            Raise (RuntimeError (lit "no states matched states.of.interest.csv"))
          else
            match Geo.crs gdf with
            | None => Raise (RuntimeError (lit "state shapefile missing CRS"))
            | Some src_crs =>
                let footprints_by_crs := group_by_crs footprints in
                let joined_parts :=
                  fold_left (join_group gdf touch_buffer_m src_crs selected)
                            footprints_by_crs [] in
                match joined_parts with
                | [] =>
                    Raise (RuntimeError
                      (lit "no raster_facts footprints intersect selected states"))
                | [only] => Ok only
                | _ => Ok (concat joined_parts)
                end
            end
      end
  end
  end.

(** [build_tiles_of_interest]: the joins, then the output stage.  The
    [verbose] flag only prints and is left out. *)
Definition build_tiles_of_interest
    (has_header : bool) (states_csv : csv_file) (state_shapefile : str)
    (gdf : Geo.geodataframe G) (raster_facts_csv : csv_file)
    (output_csv : str) (touch_buffer_m : float) : IO.M nat :=
  joined <- IO.lift (joined_rows has_header states_csv state_shapefile gdf
                       raster_facts_csv touch_buffer_m) ;;
  Output.write normalize joined output_csv.

End WithEngine.
End WithFloat.

End Facts.

(* ================================================================== *)
(** * The vector-tile builder                                           *)
(* ================================================================== *)

(** [shlex.quote] and [shlex.join]. *)
Module Shlex.

Definition safe_char (c : ascii) : bool :=
  Py.isdigit c || Py.isalpha c
  || existsb (Ascii.eqb c) (lit "_@%+=:,./-").

Definition squote : ascii := "'"%char.
Definition dquote : ascii := ascii_of_nat 34.

Definition quote (s : str) : str :=
  match s with
  | [] => [squote; squote]
  | _ =>
      if forallb safe_char s then s
      else
        squote
          :: flat_map (fun c => if Ascii.eqb c squote
                                then [squote; dquote; squote; dquote; squote]
                                else [c]) s
          ++ [squote]
  end.

Definition join (args : list str) : str := Py.join (lit " ") (map quote args).

End Shlex.

Module Tippecanoe.

(** What [subprocess.run(cmd, capture_output=True, text=True)] returns. *)
Record completed_process : Type := {
  returncode : Z;
  stdout : str;
  stderr : str
}.

(** The environment of one call: the file system and the program found on
    [PATH]. *)
Record world : Type := {
  input_exists : bool;
  which : str -> option str;
  resolve : str -> str;
  run : list str -> completed_process;
  output_size : option Z
}.

Record summary : Type := {
  s_tippecanoe_bin : str;
  s_command : str;
  s_layer_name : str;
  s_minimum_zoom : Z;
  s_maximum_zoom : Z;
  s_input_ndjson : str;
  s_output_mbtiles : str;
  s_stdout : str;
  s_stderr : str;
  s_size_bytes : Z
}.

(** The command line. *)
Definition command (w : world) (exe input_ndjson output_mbtiles layer_name : str)
    (minimum_zoom maximum_zoom : Z)
    (detect_shared_borders coalesce_densest_as_needed
       drop_densest_as_needed read_parallel : bool) : list str :=
  let cmd :=
    [exe; lit "-o"; resolve w output_mbtiles; lit "-l"; layer_name;
     lit "-Z"; Py.str_of_Z minimum_zoom; lit "-z"; Py.str_of_Z maximum_zoom;
     lit "--force"; lit "--no-feature-limit"; lit "--no-tile-size-limit"] in
  let cmd := if read_parallel then cmd ++ [lit "--read-parallel"] else cmd in
  let cmd := if detect_shared_borders then cmd ++ [lit "--detect-shared-borders"] else cmd in
  let cmd := if coalesce_densest_as_needed
             then cmd ++ [lit "--coalesce-densest-as-needed"] else cmd in
  let cmd := if drop_densest_as_needed
             then cmd ++ [lit "--drop-densest-as-needed"] else cmd in
  cmd ++ [resolve w input_ndjson].

(** The part of the failure message after [stderr=]. *)
Definition stderr_shown (proc : completed_process) : str :=
  firstn 2000 (Py.strip (stderr proc)).

Definition failure_message (proc : completed_process) (cmd : list str) : str :=
  lit "tippecanoe failed "
  ++ lit "rc=" ++ Py.str_of_Z (returncode proc)
  ++ lit " cmd=" ++ Shlex.join cmd ++ lit " "
  ++ lit "stderr=" ++ stderr_shown proc.

(** [build_vector_tiles_with_tippecanoe]; the [verbose] flag only prints. *)
Definition build_vector_tiles_with_tippecanoe (w : world)
    (input_ndjson output_mbtiles layer_name : str)
    (minimum_zoom maximum_zoom : Z) (tippecanoe_bin : str)
    (detect_shared_borders coalesce_densest_as_needed
       drop_densest_as_needed read_parallel : bool) : result summary :=
  if negb (input_exists w) then
    Raise (FileNotFoundError (lit "input ndjson not found: " ++ input_ndjson))
  else if negb (Py.nonempty (Py.strip layer_name)) then
    Raise (ValueError (lit "layer_name is required"))
  else
    match which w tippecanoe_bin with
    | None | Some [] =>
        Raise (FileNotFoundError
                 (lit "tippecanoe binary not found: " ++ tippecanoe_bin
                  ++ lit ". Install tippecanoe and ensure it is on PATH."))
    | Some exe =>
        let cmd := command w exe input_ndjson output_mbtiles layer_name
                     minimum_zoom maximum_zoom detect_shared_borders
                     coalesce_densest_as_needed drop_densest_as_needed
                     read_parallel in
        let proc := run w cmd in
        if negb (returncode proc =? 0)%Z then
          Raise (RuntimeError (failure_message proc cmd))
        else
          Ok {| s_tippecanoe_bin := exe;
                s_command := Shlex.join cmd;
                s_layer_name := layer_name;
                s_minimum_zoom := minimum_zoom;
                s_maximum_zoom := maximum_zoom;
                s_input_ndjson := resolve w input_ndjson;
                s_output_mbtiles := resolve w output_mbtiles;
                s_stdout := stdout proc;
                s_stderr := stderr proc;
                s_size_bytes := match output_size w with Some n => n | None => 0%Z end |}
    end.

End Tippecanoe.

(* ================================================================== *)
(** * A concrete engine                                                 *)
(* ================================================================== *)

(** Axis-parallel boxes as geometries and a reader of whole-number literals
    as [float]: enough to run the builders on concrete inputs. *)
Module Boxes.

Definition rect : Type := (float * float * float * float)%type.

Definition grow (d : float) (r : rect) : rect :=
  let '(minx, miny, maxx, maxy) := r in
  (PrimFloat.sub minx d, PrimFloat.sub miny d,
   PrimFloat.add maxx d, PrimFloat.add maxy d).

Definition void (r : rect) : bool :=
  let '(minx, miny, maxx, maxy) := r in
  PrimFloat.ltb maxx minx || PrimFloat.ltb maxy miny.

Definition intersects (a b : rect) : bool :=
  let '(ax0, ay0, ax1, ay1) := a in
  let '(bx0, by0, bx1, by1) := b in
  PrimFloat.leb ax0 bx1 && PrimFloat.leb bx0 ax1
  && PrimFloat.leb ay0 by1 && PrimFloat.leb by0 ay1.

Definition join (L R : Type) (left : list (L * option rect))
    (right : list (R * rect)) : list (L * R) :=
  flat_map
    (fun l =>
       match snd l with
       | None => []
       | Some g =>
           map (fun r => (fst l, fst r))
               (filter (fun r => intersects g (snd r)) right)
       end)
    left.

Definition engine : Geo.engine :=
  {| Geo.geom := rect;
     Geo.to_crs := fun _ _ g => g;
     Geo.make_valid := Some (fun g => g);
     Geo.buffer := grow;
     Geo.is_empty := void;
     Geo.box := fun minx miny maxx maxy => (minx, miny, maxx, maxy);
     Geo.sjoin := join |}.

(** [float(text)] on an optionally signed run of digits (exact below 2^53);
    every other text is refused here. *)
Definition float_of_str (text : str) : option float :=
  let number (digits : str) :=
    option_map (fun n => PrimFloat.of_uint63 (Uint63.of_Z n))
               (Facts.int_of_digits digits) in
  match Py.strip text with
  | c :: digits =>
      if Ascii.eqb c "-"%char then option_map PrimFloat.opp (number digits)
      else if Ascii.eqb c "+"%char then number digits
      else number (c :: digits)
  | [] => None
  end.

End Boxes.

(* ================================================================== *)
(** * Runs and sample inputs                                            *)
(* ================================================================== *)

(** The two region readers behind one name. *)
Inductive reader : Type :=
| GridReader
| FactsReader (has_header : bool).

Definition read_state_codes (r : reader) (f : csv_file)
  : result (list str * list str) :=
  match r with
  | GridReader => Grid._read_state_codes f
  | FactsReader has_header => Facts._read_state_codes has_header f
  end.

(** A run of one of the two builders: the computation, the output path,
    the normalisation of joined rows and the outcome of the join stage. *)
Inductive run_of
  : IO.M nat -> str ->
    forall H : Type, (Geo.attrs * Geo.tile H -> IO.out_row) ->
                     result (list (Geo.attrs * Geo.tile H)) -> Prop :=
| run_grid (G : Geo.engine) states_csv state_shapefile
    (gdf : Geo.geodataframe G) output_csv :
    run_of (Grid.build_tiles_of_interest states_csv state_shapefile gdf output_csv)
           output_csv Grid.normalize
           (Grid.joined_rows states_csv state_shapefile gdf)
| run_facts float_of_str (G : Geo.engine) has_header states_csv state_shapefile
    (gdf : Geo.geodataframe G) raster_facts_csv output_csv touch_buffer_m :
    run_of (Facts.build_tiles_of_interest float_of_str has_header states_csv
              state_shapefile gdf raster_facts_csv output_csv touch_buffer_m)
           output_csv Facts.normalize
           (Facts.joined_rows float_of_str has_header states_csv
              state_shapefile gdf raster_facts_csv touch_buffer_m).

(** [r] is the record of the first joined row that has its key. *)
Definition first_kept (J : Type) (normalize : J -> IO.out_row)
    (joined : list J) (r : IO.out_row) : Prop :=
  exists pre j post,
    joined = pre ++ j :: post /\ normalize j = r /\
    forall j', In j' pre -> Output.key (normalize j') <> Output.key r.

(** The order the final sort puts on rows. *)
Definition row_le (a b : IO.out_row) : Prop := Output.row_leb a b = true.

(** A feature is selected when one of its two codes, read as the builders
    read the column, is among the requested ones. *)
Definition region_selected (G : Geo.engine) (gdf : Geo.geodataframe G)
    (fips_interest abbr_interest : list str)
    (r : Geo.attrs * option (Geo.geom G)) : bool :=
  (Geo.has_statefp gdf
   && Py.mem (Py.zfill 2 (Geo.astype_str (Geo.STATEFP (fst r)))) fips_interest)
  || (Geo.has_stusps gdf
      && Py.mem (Py.upper (Geo.astype_str (Geo.STUSPS (fst r)))) abbr_interest).

(** A run of one of the builders whose inputs are read without error, on a
    boundary source with features and a code column, in which the requested
    codes select no feature. *)
Inductive no_match_run : IO.M nat -> Prop :=
| no_match_grid (G : Geo.engine) states_csv state_shapefile
    (gdf : Geo.geodataframe G) output_csv fips abbr :
    Grid._read_state_codes states_csv = Ok (fips, abbr) ->
    Geo.features gdf <> [] ->
    Geo.has_statefp gdf || Geo.has_stusps gdf = true ->
    (forall r, In r (Geo.features gdf) -> region_selected gdf fips abbr r = false) ->
    no_match_run
      (Grid.build_tiles_of_interest states_csv state_shapefile gdf output_csv)
| no_match_facts float_of_str (G : Geo.engine) has_header states_csv
    state_shapefile (gdf : Geo.geodataframe G) raster_facts_csv output_csv
    touch_buffer_m fips abbr footprints :
    Facts._read_state_codes has_header states_csv = Ok (fips, abbr) ->
    Facts._read_raster_footprints_from_facts float_of_str raster_facts_csv
      = Ok footprints ->
    Geo.features gdf <> [] ->
    Geo.has_statefp gdf || Geo.has_stusps gdf = true ->
    (forall r, In r (Geo.features gdf) -> region_selected gdf fips abbr r = false) ->
    no_match_run
      (Facts.build_tiles_of_interest float_of_str has_header states_csv
         state_shapefile gdf raster_facts_csv output_csv touch_buffer_m).

(** The messages with which the builders report that the requested codes
    correspond to no region of the boundary source. *)
Definition no_match_message (msg : str) : Prop :=
  msg = lit "no states matched states.of.interest.csv"
  \/ msg = lit "no matching state columns found for provided codes"
  \/ exists missing_fips missing_abbr,
       (missing_fips <> [] \/ missing_abbr <> [])
       /\ msg = Facts.not_found_message missing_fips missing_abbr.

(** [fp] is the footprint of the first usable row that has its tile id. *)
Definition first_usable (float_of_str : str -> option float)
    (rows : list Csv.row) (fp : Facts.footprint) : Prop :=
  exists pre row post,
    rows = pre ++ row :: post /\ Facts.candidate float_of_str row = Some fp /\
    forall row' fp', In row' pre -> Facts.candidate float_of_str row' = Some fp' ->
                     Facts.fp_tile_id fp' <> Facts.fp_tile_id fp.

(** The same as a function: the footprint of the first usable row of tile
    id [t], if there is one. *)
Fixpoint first_candidate (float_of_str : str -> option float) (t : str)
    (rows : list Csv.row) : option Facts.footprint :=
  match rows with
  | [] => None
  | row :: rest =>
      match Facts.candidate float_of_str row with
      | Some fp =>
          if Py.eqb t (Facts.fp_tile_id fp) then Some fp
          else first_candidate float_of_str t rest
      | None => first_candidate float_of_str t rest
      end
  end.

(** ** Loop invariants *)

(** The shape of the codes kept so far by a reader; [Pa] is the shape of
    an abbreviation. *)
Definition fips_shape (x : str) : Prop :=
  2 <= length x /\ forallb Py.isdigit x = true.

Definition shapes (Pa : str -> Prop) (acc : list str * list str) : Prop :=
  (forall x, In x (fst acc) -> fips_shape x) /\
  (forall x, In x (snd acc) -> Pa x).

(** What the duplicate-removing loop has established after the joined rows
    [done]. *)
Record dedup_inv (J : Type) (normalize : J -> IO.out_row) (done : list J)
    (acc : list (str * str) * list IO.out_row)
  : Prop := {
  inv_seen : fst acc = map Output.key (snd acc);
  inv_nodup : NoDup (map Output.key (snd acc));
  inv_first : forall r, In r (snd acc) ->
                IO.tile_id r <> [] /\ first_kept normalize done r;
  inv_all : forall j, In j done -> IO.tile_id (normalize j) <> [] ->
                In (Output.key (normalize j)) (map Output.key (snd acc))
}.

(** What the footprint loop has established after the rows [done]. *)
Record by_tile_inv (float_of_str : str -> option float) (done : list Csv.row)
    (d : Py.dict Facts.footprint) : Prop := {
  bt_get : forall t, Py.dict_get t d = first_candidate float_of_str t done;
  bt_nodup : NoDup (map fst d);
  bt_keys : forall k fp, In (k, fp) d -> k = Facts.fp_tile_id fp
}.

Module Samples.

Definition codes_long : csv_file :=
  [[lit "statefp"; lit "stusps"]; [lit "123"; lit "Cal"]].

Definition codes_ca : csv_file :=
  [[lit "STATEFP"; lit "State"]; [lit " 6"; lit "ca"]].

Definition gdf : Geo.geodataframe Boxes.engine :=
  @Geo.Build_geodataframe Boxes.engine true true
    [({| Geo.STATEFP := Some (lit "06"); Geo.STUSPS := Some (lit "CA") |},
      Some (0, 0, 100, 100)%float);
     ({| Geo.STATEFP := Some (lit "6"); Geo.STUSPS := Some (lit "ca") |},
      Some (200, 200, 300, 300)%float);
     ({| Geo.STATEFP := Some (lit "48"); Geo.STUSPS := Some (lit "TX") |},
      Some (500, 500, 600, 600)%float)]
    (Some (lit "EPSG:4269")).

Definition facts : csv_file :=
  [[lit "relative_path"; lit "bounds"; lit "crs"];
   [lit "a/MOD.H08V05.tif"; lit "10, 10, 20, 20"; lit "EPSG:1"];
   [lit "a/MOD.h08v05.b2.tif"; lit "10,10,30,30"; lit "EPSG:1"];
   [lit "a/x.tar.gz"; lit "250,250,251,251"; lit "EPSG:2"];
   [lit "a/y.tif"; lit "1000,1000,1001,1001"; lit "EPSG:2"]].

(** A row with a path, bounds and a CRS, whose file name is one blank. *)
Definition facts_blank_name : csv_file :=
  [[lit "relative_path"; lit "bounds"; lit "crs"];
   [lit "a/ /"; lit "0,0,1,1"; lit "EPSG:4326"]].

Definition row_blank_name : Csv.row :=
  Csv.zip_row [lit "relative_path"; lit "bounds"; lit "crs"]
              [lit "a/ /"; lit "0,0,1,1"; lit "EPSG:4326"] [].

Definition codes_06 : csv_file := [[lit "06"]].

Definition joined_06 : list (Geo.attrs * Geo.tile (option Z)) :=
  let ca := {| Geo.STATEFP := Some (lit "06"); Geo.STUSPS := Some (lit "CA") |} in
  let ca' := {| Geo.STATEFP := Some (lit "6"); Geo.STUSPS := Some (lit "ca") |} in
  [(ca, {| Geo.t_tile_id := lit "h08v05"; Geo.t_h := Some 8%Z; Geo.t_v := Some 5%Z |});
   (ca', {| Geo.t_tile_id := lit "x.tar"; Geo.t_h := None; Geo.t_v := None |})].

(** A tile one unit to the right of the first region of [gdf]. *)
Definition facts_gap : csv_file :=
  [[lit "relative_path"; lit "bounds"; lit "crs"];
   [lit "MOD/h09v05.tif"; lit "101,0,110,10"; lit "EPSG:1"]].

Definition footprint_h08v05 : Facts.footprint :=
  {| Facts.fp_tile_id := lit "h08v05";
     Facts.fp_h := Some 8%Z; Facts.fp_v := Some 5%Z;
     Facts.fp_crs := lit "EPSG:1";
     Facts.fp_minx := 10; Facts.fp_miny := 10;
     Facts.fp_maxx := 20; Facts.fp_maxy := 20 |}.

Definition codes_36 : csv_file :=
  [[lit "STATEFP"; lit "STUSPS"]; [lit "36"; lit "NY"]].

Definition codes_06_36 : csv_file := [[lit "06"; lit "36"; lit "NY"; lit "07"]].

Definition run_06 : IO.M nat :=
  Facts.build_tiles_of_interest Boxes.float_of_str false codes_06 (lit "s.shp")
    gdf facts (lit "out/tiles.csv") Facts.touch_buffer_m_default.

(** A tippecanoe that fails, and says so between two blanks and a newline. *)
Definition failing_world : Tippecanoe.world :=
  {| Tippecanoe.input_exists := true;
     Tippecanoe.which := fun bin => Some (lit "/usr/bin/" ++ bin);
     Tippecanoe.resolve := fun p => lit "/work/" ++ p;
     Tippecanoe.run := fun _ =>
       {| Tippecanoe.returncode := 1%Z;
          Tippecanoe.stdout := [];
          Tippecanoe.stderr := lit "  bad thing" ++ [ascii_of_nat 10] |};
     Tippecanoe.output_size := None |}.

(** The message of [failing_call] up to [stderr=]. *)
Definition failing_head : str :=
  lit ("tippecanoe failed rc=1 cmd=/usr/bin/tippecanoe -o /work/fields.mbtiles "
       ++ "-l yanroy_fields -Z 8 -z 14 --force --no-feature-limit "
       ++ "--no-tile-size-limit --read-parallel --detect-shared-borders "
       ++ "--coalesce-densest-as-needed --drop-densest-as-needed "
       ++ "/work/fields.ndjson ").

Definition failing_stderr : str := lit "  bad thing" ++ [ascii_of_nat 10].

Definition failing_call : result Tippecanoe.summary :=
  Tippecanoe.build_vector_tiles_with_tippecanoe failing_world
    (lit "fields.ndjson") (lit "fields.mbtiles") (lit "yanroy_fields")
    8 14 (lit "tippecanoe") true true true true.

End Samples.

(* ================================================================== *)
(** * Checks by enumeration                                             *)
(* ================================================================== *)

Module Checks.

Definition digits : list ascii := lit "0123456789".

(** A grid token read back: both coordinates, below 100, and the tile id
    the grid builder prints for them is the token in lower case. *)
Definition token_reads_back (m : str) : bool :=
  match Facts._parse_hv (Py.lower m) with
  | (Some hh, Some vv) =>
      (0 <=? hh)%Z && (hh <? 100)%Z && (0 <=? vv)%Z && (vv <? 100)%Z
      && Py.eqb (Grid.format_tile_id (Z.to_nat hh) (Z.to_nat vv)) (Py.lower m)
  | _ => false
  end.

(** A printed grid id read by the functions of the facts builder. *)
Definition grid_id_reads_back (hh vv : nat) : bool :=
  let t := Grid.format_tile_id hh vv in
  Py.eqb (Facts._normalize_tile_id t) t
  && match Facts._parse_hv t with
     | (Some a, Some b) => (a =? Z.of_nat hh)%Z && (b =? Z.of_nat vv)%Z
     | _ => false
     end.

End Checks.

(** What a footprint that passed the guards of the reader looks like. *)
Definition well_formed (fp : Facts.footprint) : Prop :=
  Facts.fp_tile_id fp <> []
  /\ Py.lower (Facts.fp_tile_id fp) = Facts.fp_tile_id fp
  /\ Py.strip (Facts.fp_tile_id fp) = Facts.fp_tile_id fp
  /\ Facts.fp_crs fp <> []
  /\ Py.strip (Facts.fp_crs fp) = Facts.fp_crs fp
  /\ PrimFloat.ltb (Facts.fp_minx fp) (Facts.fp_maxx fp) = true
  /\ PrimFloat.ltb (Facts.fp_miny fp) (Facts.fp_maxy fp) = true
  /\ (Facts.fp_h fp, Facts.fp_v fp) = Facts._parse_hv (Facts.fp_tile_id fp)
  /\ (Facts.fp_h fp = None <-> Facts.fp_v fp = None).


(** The footprints of one CRS, and the records that have a tile id. *)
Definition in_crs (k : str) (fp : Facts.footprint) : bool :=
  Py.eqb (Facts.fp_crs fp) k.

Definition has_tile (r : IO.out_row) : bool := Py.nonempty (IO.tile_id r).

(* ================================================================== *)
(** * The command-line layer of the two builders                        *)
(* ================================================================== *)

Module Text.

(** [hay.startswith(needle)] and [needle in hay]. *)
Fixpoint starts_with (needle hay : str) : bool :=
  match needle, hay with
  | [], _ => true
  | _ :: _, [] => false
  | c :: needle', d :: hay' => Ascii.eqb c d && starts_with needle' hay'
  end.

Fixpoint contains (needle hay : str) : bool :=
  starts_with needle hay
  || match hay with
     | [] => false
     | _ :: hay' => contains needle hay'
     end.

(** [hay.endswith(needle)]. *)
Definition ends_with (needle hay : str) : bool :=
  starts_with (rev needle) (rev hay).

End Text.

Module Cli.

(** The two tests of [_find_state_shp] on the lower-cased file name. *)
Definition national (p : str) : bool :=
  let name := Py.lower (Path.name p) in
  Text.contains (lit "state") name && Text.contains (lit "_us_") name.

Definition state_named (p : str) : bool :=
  Text.contains (lit "state") (Py.lower (Path.name p)).

(** [_find_state_shp], the same in both builders; [candidates] is
    [sorted(extract_dir.rglob("*.shp"))]. *)
Definition _find_state_shp (candidates : list str) (extract_dir : str)
  : result str :=
  match find national candidates with
  | Some p => Ok p
  | None =>
      match find state_named candidates with
      | Some p => Ok p
      | None =>
          Raise (FileNotFoundError
                   (lit "could not find state shapefile under " ++ extract_dir))
      end
  end.

(** The parsed arguments both [main]s share, and the file system they see:
    [resolve] is [Path(x).expanduser().resolve()], [shapefiles] the sorted
    [*.shp] files under a directory. *)
Record args : Type := {
  a_states_csv : str;
  a_state_shp : str;
  a_extract_dir : str;
  a_output_csv : str
}.

Record files (G : Geo.engine) : Type := {
  resolve : str -> str;
  exists_ : str -> bool;
  shapefiles : str -> list str;
  read_csv : str -> csv_file;
  has_header : str -> bool;
  read_file : str -> Geo.geodataframe G
}.

Section Main.

Variable G : Geo.engine.
Variable w : files G.

(** The shapefile [main] settles on: the one given, when [--state-shp] is
    not blank, else the one found under [--extract-dir]; it has to exist. *)
Definition state_shapefile (a : args) : result str :=
  match
    (match Py.strip (a_state_shp a) with
     | _ :: _ => Ok (resolve w (a_state_shp a))
     | [] =>
         let extract_dir := resolve w (a_extract_dir a) in
         if negb (exists_ w extract_dir) then
           Raise (FileNotFoundError (lit "extract dir not found: " ++ extract_dir))
         else _find_state_shp (shapefiles w extract_dir) extract_dir
     end)
  with
  | Raise e => Raise e
  | Ok state_shp =>
      if negb (exists_ w state_shp) then
        Raise (FileNotFoundError (lit "state shapefile not found: " ++ state_shp))
      else Ok state_shp
  end.

(** [main] of [build_tiles_of_interest.py], after [parse_known_args]. *)
Definition grid_main (a : args) : IO.M Z :=
  let states_csv := resolve w (a_states_csv a) in
  if negb (exists_ w states_csv) then
    IO.raise (FileNotFoundError (lit "states csv not found: " ++ states_csv))
  else
    state_shp <- IO.lift (state_shapefile a) ;;
    let output_csv := resolve w (a_output_csv a) in
    Grid.build_tiles_of_interest (read_csv w states_csv) state_shp
      (read_file w state_shp) output_csv ;;;
    IO.ret 0%Z.

(** [main] of [build_tiles_of_interest_from_facts.py]. *)
Definition facts_main (float_of_str : str -> option float) (a : args)
    (a_raster_facts_csv : str) (a_touch_buffer_m : float) : IO.M Z :=
  let states_csv := resolve w (a_states_csv a) in
  if negb (exists_ w states_csv) then
    IO.raise (FileNotFoundError (lit "states csv not found: " ++ states_csv))
  else
    let raster_facts_csv := resolve w a_raster_facts_csv in
    if negb (exists_ w raster_facts_csv) then
      IO.raise (FileNotFoundError
                  (lit "raster_facts csv not found: " ++ raster_facts_csv))
    else
      state_shp <- IO.lift (state_shapefile a) ;;
      let output_csv := resolve w (a_output_csv a) in
      Facts.build_tiles_of_interest float_of_str (has_header w states_csv)
        (read_csv w states_csv) state_shp (read_file w state_shp)
        (read_csv w raster_facts_csv) output_csv a_touch_buffer_m ;;;
      IO.ret 0%Z.

End Main.

End Cli.

(** The same arguments with another [--extract-dir], and the same file
    system with other shapefiles under its directories. *)
Definition with_extract_dir (a : Cli.args) (dir : str) : Cli.args :=
  {| Cli.a_states_csv := Cli.a_states_csv a;
     Cli.a_state_shp := Cli.a_state_shp a;
     Cli.a_extract_dir := dir;
     Cli.a_output_csv := Cli.a_output_csv a |}.

Definition with_shapefiles (G : Geo.engine) (w : Cli.files G)
    (listing : str -> list str) : Cli.files G :=
  {| Cli.resolve := Cli.resolve w;
     Cli.exists_ := Cli.exists_ w;
     Cli.shapefiles := listing;
     Cli.read_csv := Cli.read_csv w;
     Cli.has_header := Cli.has_header w;
     Cli.read_file := Cli.read_file w |}.

(** A file system in which everything exists, and a call that names its
    shapefile. *)
Module CliSamples.

Definition files : Cli.files Boxes.engine :=
  {| Cli.resolve := fun p => lit "/work/" ++ p;
     Cli.exists_ := fun _ => true;
     Cli.shapefiles := fun _ => [];
     Cli.read_csv := fun _ => Samples.codes_36;
     Cli.has_header := fun _ => true;
     Cli.read_file := fun _ => Samples.gdf |}.

Definition args : Cli.args :=
  {| Cli.a_states_csv := lit "states.csv";
     Cli.a_state_shp := lit "tl_2020_us_state.shp";
     Cli.a_extract_dir := [];
     Cli.a_output_csv := lit "out/tiles.csv" |}.

End CliSamples.

(* ================================================================== *)
(** * The tiles table on disk and its two readers                       *)
(* ================================================================== *)

(** [PurePath.suffix]: the part of the name from its last dot on; a name
    that starts or ends with its only dot has none. *)
Module Pathlib.

Definition suffix (p : str) : str :=
  let n := Path.name p in
  match Path.rfind_dot n 0 None with
  | Some i => if (0 <? i) && (i <? length n - 1) then skipn i n else []
  | None => []
  end.

End Pathlib.

(** What [csv.reader] yields from the file [csv.DictWriter] wrote with
    [writeheader] and [writerows]: the field names, then the cells of each
    row as [str] shows them.  (The [csv] module quotes on writing what it
    needs to read the same cells back.) *)
Module Table.

(** An [h] or [v] cell: an integer or the empty string. *)
Definition cell (x : option Z) : str :=
  match x with Some z => Py.str_of_Z z | None => [] end.

Definition record (r : IO.out_row) : list str :=
  [IO.statefp r; IO.stusps r; IO.tile_id r; cell (IO.h r); cell (IO.v r)].

Definition records (fieldnames : list str) (rows : list IO.out_row) : csv_file :=
  fieldnames :: map record rows.

End Table.

(** The loop of [_read_tiles_of_interest], the same in
    [build_field_polygons_ndjson.py] and [build_google_maps_field_keys.py]. *)
Module Tiles.

(** [str(row.get("tile_id") or "").strip().lower()]. *)
Definition tile_of (row : Csv.row) : str :=
  Py.lower (Py.strip (Csv.get_or_empty (lit "tile_id") row)).

Definition step (acc : list str * list str) (row : Csv.row)
  : list str * list str :=
  let '(seen, ordered) := acc in
  let tile_id := tile_of row in
  if negb (Py.nonempty tile_id) || Py.mem tile_id seen then acc
  else (Py.set_add tile_id seen, ordered ++ [tile_id]).

Definition collect (rows : list Csv.row) : list str :=
  snd (fold_left step rows ([], [])).

(** [name in rdr.fieldnames]. *)
Definition has_column (name : str) (fieldnames : option (list str)) : bool :=
  match fieldnames with
  | Some names => Py.mem name names
  | None => false
  end.

End Tiles.

(** A tile id as the readers return it. *)
Definition normal (t : str) : Prop :=
  t <> [] /\ Py.lower t = t /\ Py.strip t = t.

(* ================================================================== *)
(** * The field rasters of a tile                                       *)
(* ================================================================== *)

Module Fields.

(** The directory tree: [is_dir d] is [d.exists() and d.is_dir()], and
    [rglob d] is [sorted(d.rglob("*"))], each path with its [is_file()]. *)
Record tree : Type := {
  is_dir : str -> bool;
  rglob : str -> list (str * bool)
}.

(** The tests of [_candidate_rasters] on one path. *)
Definition candidate (ignored : list str) (entry : str * bool) : bool :=
  let '(p, is_file) := entry in
  let low := Py.lower (Path.name p) in
  is_file
  && Text.contains (lit "field_segments") low
  && negb (Text.ends_with (lit "_ancillary_data") low)
  && negb (Py.mem (Py.lower (Pathlib.suffix p)) ignored).

(** [_candidate_rasters], with the module's [_IGNORED_SUFFIXES]. *)
Definition _candidate_rasters (ignored : list str) (t : tree) (tile_dir : str)
  : list str :=
  if negb (is_dir t tile_dir) then []
  else map fst (filter (candidate ignored) (rglob t tile_dir)).

End Fields.

(** [str(exc)] of an exception raised with its message. *)
Definition exn_str (e : exn) : str :=
  match e with
  | ValueError msg | RuntimeError msg | FileNotFoundError msg => msg
  end.

(* ================================================================== *)
(** * Field polygons ([build_field_polygons_ndjson.py])                 *)
(* ================================================================== *)

Module Polygons.

Definition _IGNORED_SUFFIXES : list str :=
  [lit ".hdr"; lit ".tfw"; lit ".prj"; lit ".aux"; lit ".xml"; lit ".ovr"].

Definition _read_tiles_of_interest (path : str) (exists_ : bool) (f : csv_file)
  : result (list str) :=
  if negb exists_ then
    Raise (FileNotFoundError (lit "tiles csv not found: " ++ path))
  else
    let '(fieldnames, rows) := Csv.DictReader f in
    if Csv.no_fieldnames fieldnames
       || negb (Tiles.has_column (lit "tile_id") fieldnames) then
      Raise (ValueError (lit "tiles.of.interest.csv must contain tile_id column"))
    else
      match Tiles.collect rows with
      | [] => Raise (ValueError (lit "no tile_id rows found in tiles.of.interest.csv"))
      | ordered => Ok ordered
      end.

(** One line of the output: a GeoJSON feature. *)
Record feature (P : Type) : Type := {
  geometry : P;
  primary_key : str;
  f_tile_id : str;
  field_id : Z
}.

Record error : Type := { e_tile_id : str; e_error : str; e_raster : str }.

Record counts : Type := {
  tiles_requested : nat;
  tiles_ok : nat;
  tiles_missing_raster : nat;
  tiles_failed : nat;
  feature_count : nat
}.

Record summary : Type := {
  s_counts : counts;
  s_output_ndjson : str;
  s_errors : list error
}.

Inductive event (P : Type) : Type :=
| MkdirParent (path : str)
| WriteNdjson (path : str) (lines : list (feature P))
| WriteSummary (path : str) (s : summary).

(** The environment of a run.  [shapes raster] is what rasterio gives for
    the raster: the polygons of [features.shapes] in EPSG:4326 with their
    values, in order, or the first exception of opening, reading,
    polygonising or reprojecting (of which only the message is kept).
    [child d t] is [d / t]. *)
Record world (P : Type) : Type := {
  tree : Fields.tree;
  exists_ : str -> bool;
  read_csv : str -> csv_file;
  resolve : str -> str;
  child : str -> str -> str;
  has_rasterio : bool;
  shapes : str -> result (list (P * Z))
}.

(** The accumulators of the loop over the tiles; [out] is what has been
    written to the output so far. *)
Record state (P : Type) : Type := {
  st_feature_count : nat;
  st_tile_ok : nat;
  st_tile_missing : nat;
  st_tile_errors : nat;
  st_errors : list error;
  st_out : list (feature P)
}.

Section Run.

Variable P : Type.
Variable w : world P.

Definition make_feature (tile_id : str) (shape : P * Z) : feature P :=
  {| geometry := fst shape;
     primary_key := tile_id ++ lit "_" ++ Py.str_of_Z (snd shape);
     f_tile_id := tile_id;
     field_id := snd shape |}.

(** [_feature_rows_for_raster]. *)
Definition _feature_rows_for_raster (tile_id raster_path : str)
  : result (list (feature P)) :=
  if negb (has_rasterio w) then
    Raise (RuntimeError (lit "build_field_polygons_ndjson requires rasterio and numpy"))
  else
    match shapes w raster_path with
    | Raise e => Raise e
    | Ok found =>
        Ok (map (make_feature tile_id)
                (filter (fun shape => negb (snd shape <=? 0)%Z) found))
    end.

Definition init : state P :=
  {| st_feature_count := 0; st_tile_ok := 0; st_tile_missing := 0;
     st_tile_errors := 0; st_errors := []; st_out := [] |}.

(** One turn of [for tile_id in tiles]. *)
Definition step (fields_dir : str) (st : state P) (tile_id : str) : state P :=
  let tile_dir := child w fields_dir tile_id in
  match Fields._candidate_rasters _IGNORED_SUFFIXES (tree w) tile_dir with
  | [] =>
      {| st_feature_count := st_feature_count st;
         st_tile_ok := st_tile_ok st;
         st_tile_missing := st_tile_missing st + 1;
         st_tile_errors := st_tile_errors st;
         st_errors := st_errors st;
         st_out := st_out st |}
  | raster_path :: _ =>
      match _feature_rows_for_raster tile_id raster_path with
      | Raise exc =>
          {| st_feature_count := st_feature_count st;
             st_tile_ok := st_tile_ok st;
             st_tile_missing := st_tile_missing st;
             st_tile_errors := st_tile_errors st + 1;
             st_errors :=
               st_errors st
               ++ [{| e_tile_id := tile_id; e_error := exn_str exc;
                      e_raster := raster_path |}];
             st_out := st_out st |}
      | Ok rows =>
          {| st_feature_count := st_feature_count st + length rows;
             st_tile_ok := st_tile_ok st + 1;
             st_tile_missing := st_tile_missing st;
             st_tile_errors := st_tile_errors st;
             st_errors := st_errors st;
             st_out := st_out st ++ rows |}
      end
  end.

(** [build_field_polygons_ndjson]: the counts returned and what the run
    did to the file system; the [verbose] flag only prints. *)
Definition build_field_polygons_ndjson
    (tiles_csv fields_dir output_ndjson summary_json : str)
  : result counts * list (event P) :=
  if negb (Fields.is_dir (tree w) fields_dir) then
    (Raise (FileNotFoundError (lit "fields dir not found: " ++ fields_dir)), [])
  else
    match _read_tiles_of_interest tiles_csv (exists_ w tiles_csv)
                                  (read_csv w tiles_csv) with
    | Raise e => (Raise e, [])
    | Ok tiles =>
        let st := fold_left (step fields_dir) tiles init in
        let c := {| tiles_requested := length tiles;
                    tiles_ok := st_tile_ok st;
                    tiles_missing_raster := st_tile_missing st;
                    tiles_failed := st_tile_errors st;
                    feature_count := st_feature_count st |} in
        (Ok c,
         [MkdirParent P output_ndjson;
          WriteNdjson output_ndjson (st_out st);
          MkdirParent P summary_json;
          WriteSummary P summary_json
            {| s_counts := c;
               s_output_ndjson := resolve w output_ndjson;
               s_errors := st_errors st |}])
    end.

End Run.

End Polygons.

(* ================================================================== *)
(** * Field keys ([build_google_maps_field_keys.py])                    *)
(* ================================================================== *)

Module Keys.

Definition _IGNORED_SUFFIXES : list str :=
  [lit ".hdr"; lit ".tfw"; lit ".prj"; lit ".aux"; lit ".xml"; lit ".ovr";
   lit ".cpg"; lit ".dbf"; lit ".shx"; lit ".shp"].

Definition _read_tiles_of_interest (path : str) (exists_ : bool) (f : csv_file)
  : result (list str) :=
  if negb exists_ then
    Raise (FileNotFoundError (lit "tiles csv not found: " ++ path))
  else
    let '(fieldnames, rows) := Csv.DictReader f in
    if Csv.no_fieldnames fieldnames then
      Raise (ValueError (lit "tiles.of.interest.csv has no header"))
    else if negb (Tiles.has_column (lit "tile_id") fieldnames) then
      Raise (ValueError (lit "tiles.of.interest.csv missing tile_id column"))
    else
      match Tiles.collect rows with
      | [] =>
          Raise (ValueError
                   (lit "tiles.of.interest.csv did not contain any tile_id values"))
      | ordered => Ok ordered
      end.

(** A [Counter] with integer keys, in insertion order. *)
Definition counter := list (Z * Z).

Fixpoint counter_get (k : Z) (c : counter) : Z :=
  match c with
  | [] => 0
  | (k', n) :: c' => if (k =? k')%Z then n else counter_get k c'
  end.

(** [c[k] += n]. *)
Fixpoint counter_add (k n : Z) (c : counter) : counter :=
  match c with
  | [] => [(k, n)]
  | (k', n') :: c' =>
      if (k =? k')%Z then (k', n' + n)%Z :: c' else (k', n') :: counter_add k n c'
  end.

(** [np.unique(flat, return_counts=True)], zipped: the distinct values in
    increasing order, each with the number of its occurrences. *)
Definition unique (flat : list Z) : list (Z * Z) :=
  map (fun x => (x, Z.of_nat (count_occ Z.eq_dec flat x)))
      (nodup Z.eq_dec (Py.sort Z.leb flat)).

(** The pixels of one window that count: not the nodata value, and
    positive. *)
Definition kept (nodata : option Z) (arr : list Z) : list Z :=
  let flat :=
    match nodata with
    | Some nd => filter (fun x => negb (x =? nd)%Z) arr
    | None => arr
    end in
  filter (fun x => (0 <? x)%Z) flat.

(** One turn of [for _, window in ds.block_windows(1)]. *)
Definition add_window (nodata : option Z) (counts : counter) (arr : list Z)
  : counter :=
  match kept nodata arr with
  | [] => counts
  | flat =>
      fold_left (fun c vf => counter_add (fst vf) (snd vf) c) (unique flat) counts
  end.

Record key_row : Type := {
  primary_key : str;
  k_tile_id : str;
  field_id : Z;
  pixel_count : Z;
  source_relative_path : str
}.

Inductive status : Type := ok | missing_raster.

Record tile_row : Type := {
  t_tile_id : str;
  t_status : status;
  t_raster_path : str;
  t_field_count : nat;
  t_key_count : nat
}.

Record summary : Type := {
  tiles_requested : nat;
  tiles_ok : nat;
  tiles_missing_raster : nat;
  keys_total : nat;
  tiles : list tile_row;
  s_output_csv : str
}.

Inductive event : Type :=
| MkdirParent (path : str)
| WriteCsv (path : str) (fieldnames : list str) (rows : list key_row)
| WriteSummary (path : str) (s : summary).

(** The environment of a run.  [blocks raster] is what rasterio reads from
    an integer raster: its nodata value and the pixels of each block
    window in order, or the first exception.  [child d t] is [d / t],
    [relative_to p d] is [p.relative_to(d).as_posix()], which raises when
    [p] is not under [d]. *)
Record world : Type := {
  tree : Fields.tree;
  exists_ : str -> bool;
  read_csv : str -> csv_file;
  resolve : str -> str;
  child : str -> str -> str;
  relative_to : str -> str -> result str;
  has_rasterio : bool;
  blocks : str -> result (option Z * list (list Z))
}.

Section Run.

Variable w : world.

(** [_extract_field_counts]. *)
Definition _extract_field_counts (raster_path : str) : result counter :=
  if negb (has_rasterio w) then
    Raise (RuntimeError (lit "build_google_maps_field_keys requires rasterio and numpy"))
  else
    match blocks w raster_path with
    | Raise e => Raise e
    | Ok (nodata, windows) => Ok (fold_left (add_window nodata) windows [])
    end.

Definition is_ok (r : tile_row) : bool :=
  match t_status r with ok => true | missing_raster => false end.

Definition is_missing (r : tile_row) : bool :=
  match t_status r with ok => false | missing_raster => true end.

Definition make_key_row (tile_id rel : str) (counts : counter) (field_id : Z)
  : key_row :=
  {| primary_key := tile_id ++ lit "_" ++ Py.str_of_Z field_id;
     k_tile_id := tile_id;
     field_id := field_id;
     pixel_count := counter_get field_id counts;
     source_relative_path := rel |}.

(** [_build_rows]: the loop over the tiles, from the accumulators
    [key_rows] and [tile_rows] on.  An exception of the raster reader or of
    [relative_to] ends it. *)
Fixpoint build_rows_from (fields_dir : str) (tiles : list str)
    (key_rows : list key_row) (tile_rows : list tile_row)
  : result (list key_row * list tile_row) :=
  match tiles with
  | [] => Ok (key_rows, tile_rows)
  | tile_id :: rest =>
      let tile_dir := resolve w (child w fields_dir tile_id) in
      match Fields._candidate_rasters _IGNORED_SUFFIXES (tree w) tile_dir with
      | [] =>
          build_rows_from fields_dir rest key_rows
            (tile_rows
             ++ [{| t_tile_id := tile_id; t_status := missing_raster;
                    t_raster_path := []; t_field_count := 0; t_key_count := 0 |}])
      | raster_path :: _ =>
          match _extract_field_counts raster_path with
          | Raise e => Raise e
          | Ok counts =>
              match relative_to w raster_path fields_dir with
              | Raise e => Raise e
              | Ok rel =>
                  let ids := Py.sort Z.leb (map fst counts) in
                  build_rows_from fields_dir rest
                    (key_rows ++ map (make_key_row tile_id rel counts) ids)
                    (tile_rows
                     ++ [{| t_tile_id := tile_id; t_status := ok;
                            t_raster_path := rel;
                            t_field_count := length counts;
                            t_key_count := length ids |}])
              end
          end
      end
  end.

Definition _build_rows (tiles : list str) (fields_dir : str)
  : result (list key_row * list tile_row) :=
  build_rows_from fields_dir tiles [] [].

Definition fieldnames : list str :=
  [lit "primary_key"; lit "tile_id"; lit "field_id"; lit "pixel_count";
   lit "source_relative_path"].

(** [build_google_maps_field_keys]: the number returned and what the run
    did to the file system; the [verbose] flag only prints. *)
Definition build_google_maps_field_keys
    (tiles_csv fields_dir output_csv summary_json : str)
  : result nat * list event :=
  match _read_tiles_of_interest tiles_csv (exists_ w tiles_csv)
                                (read_csv w tiles_csv) with
  | Raise e => (Raise e, [])
  | Ok tiles =>
      if negb (Fields.is_dir (tree w) fields_dir) then
        (Raise (FileNotFoundError (lit "fields dir not found: " ++ fields_dir)), [])
      else
        match _build_rows tiles fields_dir with
        | Raise e => (Raise e, [])
        | Ok (key_rows, tile_rows) =>
            (Ok (length key_rows),
             [MkdirParent output_csv;
              WriteCsv output_csv fieldnames key_rows;
              MkdirParent summary_json;
              WriteSummary summary_json
                {| tiles_requested := length tiles;
                   tiles_ok := length (filter is_ok tile_rows);
                   tiles_missing_raster := length (filter is_missing tile_rows);
                   keys_total := length key_rows;
                   tiles := tile_rows;
                   s_output_csv := resolve w output_csv |}])
        end
  end.

End Run.

End Keys.

(* ================================================================== *)
(** * From the builders to the readers                                  *)
(* ================================================================== *)

(** The join of the engine pairs rows of its two inputs: the right part of
    each joined row is a row of the right table. *)
Definition join_from_inputs (G : Geo.engine) : Prop :=
  forall (L R : Type) (left : list (L * option (Geo.geom G)))
         (right : list (R * Geo.geom G)) (l : L) (r : R),
    In (l, r) (Geo.sjoin G left right) -> In r (map fst right).

(** The parts joined so far: none is empty, and each tile of each part is
    the tile of one of the footprints. *)
Definition parts_from (fps : list Facts.footprint)
    (parts : list (list (Geo.attrs * Geo.tile (option Z)))) : Prop :=
  forall part, In part parts ->
    part <> []
    /\ forall j, In j part ->
         exists fp, In fp fps /\ Geo.t_tile_id (snd j) = Facts.fp_tile_id fp.

(** The tile ids a reader finds in the cells of written rows. *)
Definition read_ids (rows : list IO.out_row) : list str :=
  filter (@Py.nonempty ascii)
         (map (fun r => Py.lower (Py.strip (IO.tile_id r))) rows).

(** A run wrote one table, and both readers return from it the tile ids of
    its rows, each once. *)
Definition feeds (m : IO.M nat) (output_csv : str) : Prop :=
  exists rows tiles,
    snd m = [IO.MkdirParent output_csv;
             IO.WriteCsv output_csv Output.fieldnames rows]
    /\ Polygons._read_tiles_of_interest output_csv true
         (Table.records Output.fieldnames rows) = Ok tiles
    /\ Keys._read_tiles_of_interest output_csv true
         (Table.records Output.fieldnames rows) = Ok tiles
    /\ NoDup tiles
    /\ forall t, In t tiles <-> In t (map IO.tile_id rows).

Module TileSamples.

Definition tiles_csv : csv_file :=
  [[lit "statefp"; lit "tile_id"];
   [lit "06"; lit " H08V05 "];
   [lit "06"; lit ""];
   [lit "32"; lit "h08v05"];
   [lit "32"; lit "h09v05"]].

Definition rows_06 : list IO.out_row :=
  [{| IO.statefp := lit "06"; IO.stusps := lit "CA"; IO.tile_id := lit "h08v05";
      IO.h := Some 8%Z; IO.v := Some 5%Z |};
   {| IO.statefp := lit "06"; IO.stusps := lit "CA"; IO.tile_id := lit "x.tar";
      IO.h := None; IO.v := None |}].

End TileSamples.

(* ================================================================== *)
(** * Loop invariants of the two raster scripts                         *)
(* ================================================================== *)

(** What the loop of [build_field_polygons_ndjson] has established after
    the tiles [done]. *)
Record polygons_inv (P : Type) (done : list str) (st : Polygons.state P) : Prop := {
  pi_tiles :
    Polygons.st_tile_ok st + Polygons.st_tile_missing st
    + Polygons.st_tile_errors st = length done;
  pi_features : Polygons.st_feature_count st = length (Polygons.st_out st);
  pi_errors : Polygons.st_tile_errors st = length (Polygons.st_errors st);
  pi_out : forall f, In f (Polygons.st_out st) ->
             (0 < Polygons.field_id f)%Z
             /\ Polygons.primary_key f
                = Polygons.f_tile_id f ++ lit "_" ++ Py.str_of_Z (Polygons.field_id f)
             /\ In (Polygons.f_tile_id f) done;
  pi_failed : forall e, In e (Polygons.st_errors st) -> In (Polygons.e_tile_id e) done;
  pi_once : NoDup (map Polygons.e_tile_id (Polygons.st_errors st))
}.

(** Two key rows of one tile: the earlier has the smaller field id. *)
Definition key_order (a b : Keys.key_row) : Prop :=
  Keys.k_tile_id a = Keys.k_tile_id b -> (Keys.field_id a < Keys.field_id b)%Z.

(** What is true of one tile row, and of one key row for the tiles in
    [done]. *)
Definition tile_row_ok (r : Keys.tile_row) : Prop :=
  Keys.t_field_count r = Keys.t_key_count r
  /\ (Keys.t_status r = Keys.missing_raster ->
      Keys.t_key_count r = 0 /\ Keys.t_raster_path r = []).

Definition key_row_ok (done : list str) (r : Keys.key_row) : Prop :=
  In (Keys.k_tile_id r) done
  /\ Keys.primary_key r
     = Keys.k_tile_id r ++ lit "_" ++ Py.str_of_Z (Keys.field_id r)
  /\ (0 < Keys.field_id r)%Z
  /\ (0 < Keys.pixel_count r)%Z.

(** What the loop of [_build_rows] has established after the tiles
    [done]. *)
Record keys_inv (done : list str) (key_rows : list Keys.key_row)
    (tile_rows : list Keys.tile_row) : Prop := {
  ki_tiles : map Keys.t_tile_id tile_rows = done;
  ki_total : length key_rows = list_sum (map Keys.t_key_count tile_rows);
  ki_tile_rows : Forall tile_row_ok tile_rows;
  ki_key_rows : Forall (key_row_ok done) key_rows;
  ki_order : StronglySorted key_order key_rows
}.

(** What a counter built from positive pixels looks like. *)
Definition counter_ok (c : Keys.counter) : Prop :=
  NoDup (map fst c)
  /\ forall k, In k (map fst c) -> (0 < k)%Z /\ (0 < Keys.counter_get k c)%Z.

(** The suffixes only the key builder ignores. *)
Definition shapefile_suffixes : list str :=
  [lit ".cpg"; lit ".dbf"; lit ".shx"; lit ".shp"].

Module RasterSamples.

Definition tree : Fields.tree :=
  {| Fields.is_dir := fun _ => true;
     Fields.rglob := fun d =>
       if Py.eqb d (lit "/fields/h08v05") then
         [(lit "/fields/h08v05/README", true);
          (lit "/fields/h08v05/sub", false);
          (lit "/fields/h08v05/sub/x_FIELD_segments.hdr", true);
          (lit "/fields/h08v05/sub/x_field_segments.shp", true);
          (lit "/fields/h08v05/sub/x_field_segments.tif", true);
          (lit "/fields/h08v05/sub/x_field_segments_ancillary_data", true)]
       else [] |}.

Definition polygons : Polygons.world nat :=
  {| Polygons.tree := tree;
     Polygons.exists_ := fun _ => true;
     Polygons.read_csv := fun _ => TileSamples.tiles_csv;
     Polygons.resolve := fun p => p;
     Polygons.child := fun d t => d ++ lit "/" ++ t;
     Polygons.has_rasterio := true;
     Polygons.shapes := fun _ => Ok [(1, 7%Z); (2, 0%Z); (3, 9%Z)] |}.

Definition keys : Keys.world :=
  {| Keys.tree := tree;
     Keys.exists_ := fun _ => true;
     Keys.read_csv := fun _ => TileSamples.tiles_csv;
     Keys.resolve := fun p => p;
     Keys.child := fun d t => d ++ lit "/" ++ t;
     Keys.relative_to := fun p d => Ok (skipn (length d + 1) p);
     Keys.has_rasterio := true;
     Keys.blocks := fun _ =>
       Ok (Some 255%Z, [[7; 7; 0; 255]; []; [9; 7; -1; 255]]%Z) |}.

(** The same, with a raster that cannot be opened. *)
Definition keys_unreadable : Keys.world :=
  {| Keys.tree := tree;
     Keys.exists_ := fun _ => true;
     Keys.read_csv := fun _ => TileSamples.tiles_csv;
     Keys.resolve := fun p => p;
     Keys.child := fun d t => d ++ lit "/" ++ t;
     Keys.relative_to := fun p d => Ok (skipn (length d + 1) p);
     Keys.has_rasterio := true;
     Keys.blocks := fun _ => Raise (RuntimeError (lit "not recognized as a supported file format")) |}.

End RasterSamples.

(* ================================================================== *)
(** * The model on concrete inputs                                      *)
(* ================================================================== *)

Example zfill_examples :
  Py.zfill 2 [] = lit "00" /\ Py.zfill 2 (lit "6") = lit "06"
  /\ Py.zfill 2 (lit "123") = lit "123" /\ Py.zfill 3 (lit "+1") = lit "+01"
  /\ Py.zfill 2 (lit "-") = lit "-0".
Proof. repeat split. Qed.

Example split_example :
  Py.split ","%char (lit " a, b ,,") = [lit " a"; lit " b "; []; []].
Proof. reflexivity. Qed.

Example strip_example : Py.strip (lit "  h08 v05 ") = lit "h08 v05".
Proof. reflexivity. Qed.

Example path_examples :
  Path.name (lit "a/ /") = lit " " /\ Path.name (lit "/") = []
  /\ Path.name (lit "a/.") = lit "a" /\ Path.name (lit "a//b/") = lit "b"
  /\ Path.stem (lit "x.tar.gz") = lit "x.tar" /\ Path.stem (lit ".hidden") = lit ".hidden"
  /\ Path.stem (lit "a.") = lit "a." /\ Path.stem (lit " .tif") = lit " ".
Proof. repeat split. Qed.

Example tile_search_example :
  Facts.tile_search (lit "xxH1h12V34h55v66") = Some (lit "h12V34").
Proof. reflexivity. Qed.

Example normalize_tile_id_examples :
  Facts._normalize_tile_id (lit " MOD/A2020.H08V05.006.hdf ") = lit "h08v05"
  /\ Facts._normalize_tile_id (lit "rasters/Field_7.TIF") = lit "field_7"
  /\ Facts._normalize_tile_id (lit "a/ /") = [].
Proof. repeat split. Qed.

Example parse_hv_examples :
  Facts._parse_hv (lit "h08v05") = (Some 8%Z, Some 5%Z)
  /\ Facts._parse_hv (lit "field_7") = (None, None).
Proof. repeat split. Qed.

Example dict_reader_example :
  Csv.DictReader [[lit "a"; lit "b"; lit "a"]; [lit "1"; lit "2"; lit "3"]; []; [lit "4"]]
  = (Some [lit "a"; lit "b"; lit "a"],
     [[(lit "a", Some (lit "3")); (lit "b", Some (lit "2"))];
      [(lit "a", None); (lit "b", None)]]).
Proof. reflexivity. Qed.

Example shlex_join_example :
  Shlex.join [lit "a b"; []; lit "ok-1./:,=+%@_"] = lit "'a b' '' ok-1./:,=+%@_".
Proof. reflexivity. Qed.

Example sort_example :
  Py.sort Output.tuple_leb [([], lit "b"); (lit "00", lit "a"); (lit "0", lit "z")]
  = [([], lit "b"); (lit "0", lit "z"); (lit "00", lit "a")].
Proof. reflexivity. Qed.

Example modis_grid_size : length (Grid.tiles Boxes.engine) = 648.
Proof. vm_compute. reflexivity. Qed.

Example format_tile_id_example : Grid.format_tile_id 8 5 = lit "h08v05".
Proof. vm_compute. reflexivity. Qed.

(** The table written for the sample run: California, two tiles. *)
Example run_06_rows :
  Samples.run_06
  = (Ok 2,
     [IO.MkdirParent (lit "out/tiles.csv");
      IO.WriteCsv (lit "out/tiles.csv") Output.fieldnames
        [{| IO.statefp := lit "06"; IO.stusps := lit "CA"; IO.tile_id := lit "h08v05";
            IO.h := Some 8%Z; IO.v := Some 5%Z |};
         {| IO.statefp := lit "06"; IO.stusps := lit "CA"; IO.tile_id := lit "x.tar";
            IO.h := None; IO.v := None |}]]).
Proof. vm_compute. reflexivity. Qed.

(** A tile one unit away from the region is matched with a tolerance of 1
    and missed with a tolerance of 0. *)
Example tolerance_closes_gap :
  Facts.build_tiles_of_interest Boxes.float_of_str false Samples.codes_06
    (lit "s.shp") Samples.gdf Samples.facts_gap (lit "out/tiles.csv") 1%float
  = (Ok 1,
     [IO.MkdirParent (lit "out/tiles.csv");
      IO.WriteCsv (lit "out/tiles.csv") Output.fieldnames
        [{| IO.statefp := lit "06"; IO.stusps := lit "CA"; IO.tile_id := lit "h09v05";
            IO.h := Some 9%Z; IO.v := Some 5%Z |}]])
  /\ Facts.build_tiles_of_interest Boxes.float_of_str false Samples.codes_06
       (lit "s.shp") Samples.gdf Samples.facts_gap (lit "out/tiles.csv") 0%float
     = (Raise (RuntimeError
          (lit "no raster_facts footprints intersect selected states")), []).
Proof. split; vm_compute; reflexivity. Qed.

(* ================================================================== *)
(** * Strings and sets                                                  *)
(* ================================================================== *)

Lemma eqb_eq (a b : str) : Py.eqb a b = true <-> a = b.
Proof.
  revert b; induction a as [|x a IH]; intros [|y b]; simpl;
    try (split; [discriminate | discriminate]); try tauto.
  rewrite andb_true_iff, Ascii.eqb_eq, IH.
  split; [intros [-> ->]; reflexivity | intros H; inversion H; auto].
Qed.

Lemma eqb_refl (a : str) : Py.eqb a a = true.
Proof. apply eqb_eq; reflexivity. Qed.

Lemma eqb_neq (a b : str) : Py.eqb a b = false <-> a <> b.
Proof.
  rewrite <- eqb_eq. destruct (Py.eqb a b); split; congruence.
Qed.

Lemma mem_In (x : str) (l : list str) : Py.mem x l = true <-> In x l.
Proof.
  unfold Py.mem. rewrite existsb_exists. split.
  - intros [y [Hy He]]. apply eqb_eq in He. subst; assumption.
  - intros H. exists x. split; [assumption | apply eqb_refl].
Qed.

Lemma set_add_In (x y : str) (s : list str) :
  In y (Py.set_add x s) <-> y = x \/ In y s.
Proof.
  unfold Py.set_add. destruct (Py.mem x s) eqn:E.
  - apply mem_In in E. split; [auto | intros [->|]; assumption].
  - rewrite in_app_iff. simpl. intuition.
Qed.

Lemma upper_char_isupper (c : ascii) :
  Py.isalpha c = true -> Py.isupper (Py.upper_char c) = true.
Proof.
  destruct c as [b0 b1 b2 b3 b4 b5 b6 b7].
  destruct b0, b1, b2, b3, b4, b5, b6, b7; vm_compute; intro H;
    first [reflexivity | discriminate H].
Qed.

Lemma upper_filter_alpha (s : str) :
  forallb Py.isupper (Py.upper (filter Py.isalpha s)) = true.
Proof.
  induction s as [|c s IH]; simpl; [reflexivity|].
  destruct (Py.isalpha c) eqn:E; simpl; [|assumption].
  rewrite upper_char_isupper by assumption. assumption.
Qed.

Lemma filter_forallb (A : Type) (p : A -> bool) (l : list A) :
  forallb p (filter p l) = true.
Proof.
  induction l as [|a l IH]; simpl; [reflexivity|].
  destruct (p a) eqn:E; simpl; [rewrite E|]; assumption.
Qed.

Lemma digit_not_sign (c : ascii) : Py.isdigit c = true -> Py.is_sign c = false.
Proof.
  destruct c as [b0 b1 b2 b3 b4 b5 b6 b7].
  destruct b0, b1, b2, b3, b4, b5, b6, b7; vm_compute; intro H;
    first [reflexivity | discriminate H].
Qed.

(** [zfill] never shortens, and reaches the width. *)
Lemma zfill_length (w : nat) (s : str) :
  length (Py.zfill w s) = Nat.max w (length s).
Proof.
  unfold Py.zfill. destruct (w <=? length s) eqn:E.
  - apply Nat.leb_le in E. lia.
  - apply Nat.leb_gt in E. destruct s as [|c rest].
    + rewrite repeat_length. simpl. lia.
    + destruct (Py.is_sign c); simpl; rewrite ?length_app, ?repeat_length;
        simpl; lia.
Qed.

Lemma zfill_digits (w : nat) (s : str) :
  forallb Py.isdigit s = true -> forallb Py.isdigit (Py.zfill w s) = true.
Proof.
  intros H. unfold Py.zfill. destruct (w <=? length s); [assumption|].
  assert (Hpad : forall n, forallb Py.isdigit (repeat "0"%char n) = true)
    by (induction n; simpl; auto).
  destruct s as [|c rest]; [apply Hpad|].
  simpl in H. apply andb_true_iff in H as [Hc Hr].
  rewrite (digit_not_sign c Hc).
  rewrite forallb_app, Hpad. simpl. rewrite Hc, Hr. reflexivity.
Qed.

(* ================================================================== *)
(** * Region codes                                                      *)
(* ================================================================== *)

Section CodeShapes.

Variables (abbr_ok : str -> bool) (Pa : str -> Prop).
Hypothesis abbr_ok_shape :
  forall ab, abbr_ok ab = true -> forallb Py.isupper ab = true -> Pa ab.

Lemma add_cell_shapes acc cell :
  shapes Pa acc -> shapes Pa (Codes.add_cell abbr_ok acc cell).
Proof.
  destruct acc as [fips abbr]. intros [Hf Ha]. unfold Codes.add_cell.
  destruct (Py.strip (Py.or_empty (snd cell))) as [|c val] eqn:Ev;
    [split; assumption|].
  cbn [fst snd] in Hf, Ha.
  split; cbn [fst snd].
  - destruct (Py.mem (Codes._norm (fst cell)) Codes.fips_columns); [|exact Hf].
    destruct (filter Py.isdigit (c :: val)) as [|d vv] eqn:Ed; [exact Hf|].
    intros x Hx. apply set_add_In in Hx as [->|Hx]; [|auto].
    split.
    + rewrite zfill_length. lia.
    + apply zfill_digits. rewrite <- Ed. apply filter_forallb.
  - destruct (Py.mem (Codes._norm (fst cell)) Codes.abbr_columns); [|exact Ha].
    destruct (abbr_ok (Py.upper (filter Py.isalpha (c :: val)))) eqn:Eo;
      [|exact Ha].
    intros x Hx. apply set_add_In in Hx as [->|Hx]; [|auto].
    apply abbr_ok_shape; [assumption | apply upper_filter_alpha].
Qed.

Lemma read_rows_shapes rows : shapes Pa (Codes.read_rows abbr_ok rows).
Proof.
  unfold Codes.read_rows.
  assert (H0 : shapes Pa ([], [])) by (split; intros x []).
  revert H0. generalize (@nil str, @nil str) as acc.
  induction rows as [|r rows IH]; intros acc Hacc; simpl; [assumption|].
  apply IH. clear IH. revert acc Hacc.
  induction r as [|cell r IHr]; intros acc Hacc; simpl; [assumption|].
  apply IHr, add_cell_shapes, Hacc.
Qed.

End CodeShapes.

Lemma finish_Ok codes out : Codes.finish codes = Ok out -> out = codes.
Proof.
  unfold Codes.finish. destruct codes as [[|f fips] [|a abbr]]; intros H;
    inversion H; reflexivity.
Qed.

Lemma parse_state_token_shape raw :
  let '(ff, aa) := Facts._parse_state_token raw in
  (ff <> [] -> length ff = 2 /\ forallb Py.isdigit ff = true) /\
  (aa <> [] -> length aa = 2 /\ forallb Py.isupper aa = true).
Proof.
  unfold Facts._parse_state_token.
  destruct (Py.strip raw) as [|c val]; [split; intros H; elim H; reflexivity|].
  set (digits := filter Py.isdigit (c :: val)).
  destruct ((length digits =? 1) || (length digits =? 2)) eqn:E.
  - split; [|intros H; elim H; reflexivity]. intros _.
    rewrite zfill_length. split.
    + apply orb_true_iff in E as [E|E]; apply Nat.eqb_eq in E; lia.
    + apply zfill_digits, filter_forallb.
  - destruct (length (Py.upper (filter Py.isalpha (c :: val))) =? 2) eqn:E2;
      split; intros H; try (elim H; reflexivity).
    apply Nat.eqb_eq in E2. split; [assumption | apply upper_filter_alpha].
Qed.

Lemma plain_tokens_shapes (f : csv_file) :
  let out := fold_left (fun acc r => fold_left Facts.add_token r acc) f ([], []) in
  (forall x, In x (fst out) -> length x = 2 /\ forallb Py.isdigit x = true) /\
  (forall x, In x (snd out) -> length x = 2 /\ forallb Py.isupper x = true).
Proof.
  set (P := fun acc : list str * list str =>
    (forall x, In x (fst acc) -> length x = 2 /\ forallb Py.isdigit x = true) /\
    (forall x, In x (snd acc) -> length x = 2 /\ forallb Py.isupper x = true)).
  assert (Hstep : forall acc raw, P acc -> P (Facts.add_token acc raw)).
  { intros [fips abbr] raw [Hf Ha]. unfold Facts.add_token.
    pose proof (parse_state_token_shape raw) as Hs.
    destruct (Facts._parse_state_token raw) as [ff aa]. destruct Hs as [Hff Haa].
    split; simpl.
    - destruct ff as [|c ff]; [exact Hf|]. intros x Hx.
      apply set_add_In in Hx as [->|Hx]; [apply Hff; discriminate | auto].
    - destruct aa as [|c aa]; [exact Ha|]. intros x Hx.
      apply set_add_In in Hx as [->|Hx]; [apply Haa; discriminate | auto]. }
  assert (H0 : P ([], [])) by (split; intros x []).
  cbv zeta. revert H0. generalize (@nil str, @nil str) as acc.
  induction f as [|r f IH]; intros acc Hacc; simpl; [exact Hacc|].
  apply IH. clear IH. revert acc Hacc.
  induction r as [|raw r IHr]; intros acc Hacc; simpl; [assumption|].
  apply IHr, Hstep, Hacc.
Qed.

(** C4, as the code has it: in both region readers every FIPS code kept is
    a run of decimal digits of length at least 2 (a code of three or more
    digits is kept whole), and exactly 2 in the header-less path of the
    facts builder's reader; every abbreviation kept is a non-empty run of
    upper-case letters, of exactly 2 letters in the facts builder's
    reader. *)
Theorem read_state_codes_shapes (r : reader) (f : csv_file)
    (fips abbr : list str) :
  read_state_codes r f = Ok (fips, abbr) ->
  (forall x, In x fips ->
     2 <= length x /\ forallb Py.isdigit x = true
     /\ (r = FactsReader false -> length x = 2)) /\
  (forall x, In x abbr ->
     1 <= length x /\ forallb Py.isupper x = true
     /\ (r <> GridReader -> length x = 2)).
Proof.
  destruct r as [|[|]]; simpl.
  - unfold Grid._read_state_codes.
    destruct (Csv.DictReader f) as [names rows].
    destruct (Csv.no_fieldnames names); [discriminate|]. intros H.
    apply finish_Ok in H.
    pose proof (@read_rows_shapes Grid.abbr_ok
                  (fun ab => 1 <= length ab /\ forallb Py.isupper ab = true)) as Hs.
    destruct (Hs (fun ab H1 H2 => conj
                (match ab as l return Grid.abbr_ok l = true -> 1 <= length l with
                 | [] => fun E => False_ind _ (diff_false_true E)
                 | _ :: _ => fun _ => le_n_S _ _ (Nat.le_0_l _)
                 end H1) H2) rows) as [Hf Ha].
    rewrite <- H in Hf, Ha. simpl in Hf, Ha. split; intros x Hx.
    + destruct (Hf x Hx). repeat split; try assumption. discriminate.
    + destruct (Ha x Hx). repeat split; try assumption. intros E; elim E; reflexivity.
  - unfold Facts._read_state_codes. intros H. apply finish_Ok in H.
    pose proof (@read_rows_shapes Facts.abbr_ok
                  (fun ab => length ab = 2 /\ forallb Py.isupper ab = true)) as Hs.
    destruct (Hs (fun ab H1 H2 => conj (proj1 (Nat.eqb_eq _ _) H1) H2)
                 (snd (Csv.DictReader f))) as [Hf Ha].
    rewrite <- H in Hf, Ha. simpl in Hf, Ha. split; intros x Hx.
    + destruct (Hf x Hx). repeat split; try assumption. discriminate.
    + destruct (Ha x Hx) as [Hl Hu]. repeat split; try assumption; try lia; try (intros _; exact Hl).
  - unfold Facts._read_state_codes. intros H. apply finish_Ok in H.
    destruct (plain_tokens_shapes f) as [Hf Ha].
    rewrite <- H in Hf, Ha. simpl in Hf, Ha. split; intros x Hx.
    + destruct (Hf x Hx) as [Hl Hd]. repeat split; try assumption; try lia; try (intros _; exact Hl).
    + destruct (Ha x Hx) as [Hl Hu]. repeat split; try assumption; try lia; try (intros _; exact Hl).
Qed.

Lemma read_state_codes_shapes_witness :
  read_state_codes GridReader Samples.codes_ca = Ok ([lit "06"], [lit "CA"])
  /\ (forall x, In x [lit "06"] ->
         2 <= length x /\ forallb Py.isdigit x = true
         /\ (GridReader = FactsReader false -> length x = 2))
  /\ (forall x, In x [lit "CA"] ->
         1 <= length x /\ forallb Py.isupper x = true
         /\ (GridReader <> GridReader -> length x = 2)).
Proof.
  assert (E : read_state_codes GridReader Samples.codes_ca
              = Ok ([lit "06"], [lit "CA"])) by (vm_compute; reflexivity).
  split; [exact E|].
  exact (read_state_codes_shapes GridReader Samples.codes_ca E).
Defined.

(** C4 as stated fails: a three-digit code and a three-letter name come out
    of the readers unshortened. *)
Lemma read_state_codes_not_two_chars :
  read_state_codes GridReader Samples.codes_long
    = Ok ([lit "123"], [lit "CAL"])
  /\ read_state_codes (FactsReader true) Samples.codes_long
    = Ok ([lit "123"], [])
  /\ length (lit "123") <> 2 /\ length (lit "CAL") <> 2.
Proof.
  repeat split; try (vm_compute; reflexivity); vm_compute; discriminate.
Qed.

(* ================================================================== *)
(** * The order on strings and the sort                                 *)
(* ================================================================== *)

Lemma code_inj (x y : ascii) : Py.code x = Py.code y -> x = y.
Proof.
  unfold Py.code. intros H.
  rewrite <- (ascii_N_embedding x), <- (ascii_N_embedding y), H. reflexivity.
Qed.

Lemma leb_total (a b : str) : Py.leb a b = false -> Py.leb b a = true.
Proof.
  revert b; induction a as [|x a IH]; intros [|y b]; simpl; try discriminate;
    try reflexivity.
  destruct (Py.code x <? Py.code y)%N eqn:E1; [discriminate|].
  destruct (Py.code y <? Py.code x)%N eqn:E2; [reflexivity|]. apply IH.
Qed.

Lemma leb_trans (a b c : str) :
  Py.leb a b = true -> Py.leb b c = true -> Py.leb a c = true.
Proof.
  revert b c; induction a as [|x a IH]; intros [|y b] [|z c]; simpl;
    try discriminate; try reflexivity.
  destruct (Py.code x <? Py.code y)%N eqn:Exy,
           (Py.code y <? Py.code x)%N eqn:Eyx,
           (Py.code y <? Py.code z)%N eqn:Eyz,
           (Py.code z <? Py.code y)%N eqn:Ezy,
           (Py.code x <? Py.code z)%N eqn:Exz,
           (Py.code z <? Py.code x)%N eqn:Ezx;
    rewrite ?N.ltb_lt, ?N.ltb_ge in *; try discriminate; try reflexivity;
    try lia.
  apply IH.
Qed.

Lemma leb_antisym (a b : str) :
  Py.leb a b = true -> Py.leb b a = true -> a = b.
Proof.
  revert b; induction a as [|x a IH]; intros [|y b]; simpl; try discriminate;
    try reflexivity.
  destruct (Py.code x <? Py.code y)%N eqn:Exy,
           (Py.code y <? Py.code x)%N eqn:Eyx;
    rewrite ?N.ltb_lt, ?N.ltb_ge in *; try discriminate; try lia.
  intros H1 H2. f_equal; [apply code_inj; lia | apply IH; assumption].
Qed.

Lemma leb_nil_r (a : str) : Py.leb a [] = true -> a = [].
Proof. destruct a; simpl; [reflexivity | discriminate]. Qed.

Lemma tuple_leb_total (a b : str * str) :
  Output.tuple_leb a b = false -> Output.tuple_leb b a = true.
Proof.
  unfold Output.tuple_leb. destruct (Py.eqb (fst a) (fst b)) eqn:E.
  - apply eqb_eq in E. rewrite E, eqb_refl. apply leb_total.
  - assert (E' : Py.eqb (fst b) (fst a) = false).
    { apply eqb_neq. apply eqb_neq in E. congruence. }
    rewrite E'. apply leb_total.
Qed.

Lemma tuple_leb_trans (a b c : str * str) :
  Output.tuple_leb a b = true -> Output.tuple_leb b c = true ->
  Output.tuple_leb a c = true.
Proof.
  unfold Output.tuple_leb.
  destruct (Py.eqb (fst a) (fst b)) eqn:Eab,
           (Py.eqb (fst b) (fst c)) eqn:Ebc,
           (Py.eqb (fst a) (fst c)) eqn:Eac;
    rewrite ?eqb_eq, ?eqb_neq in *; intros H1 H2;
    try (exfalso; congruence); eauto using leb_trans.
  - rewrite Eab. assumption.
  - rewrite <- Ebc. assumption.
  - exfalso. apply Eab. apply leb_antisym; [assumption|].
    rewrite Eac. assumption.
Qed.

Section SortFacts.

Variables (A : Type) (le : A -> A -> bool).
Hypothesis le_total : forall a b, le a b = false -> le b a = true.

Lemma insert_perm (x : A) (l : list A) :
  Permutation (x :: l) (Py.insert le x l).
Proof.
  induction l as [|y l IH]; simpl; [reflexivity|].
  destruct (le y x); [|reflexivity].
  rewrite perm_swap. constructor. exact IH.
Qed.

Lemma sort_perm (l : list A) : Permutation l (Py.sort le l).
Proof.
  unfold Py.sort.
  assert (H : forall acc, Permutation (l ++ acc) (fold_left (fun a x => Py.insert le x a) l acc)).
  { induction l as [|x l IH]; intros acc; simpl; [reflexivity|].
    rewrite <- IH. rewrite <- insert_perm.
    apply Permutation_middle. }
  rewrite <- H, app_nil_r. reflexivity.
Qed.

Lemma insert_sorted (x : A) (l : list A) :
  Sorted (fun a b => le a b = true) l ->
  Sorted (fun a b => le a b = true) (Py.insert le x l).
Proof.
  induction l as [|y l IH]; intros Hs; simpl.
  - repeat constructor.
  - inversion Hs as [|? ? Hs' Hhd]; subst.
    destruct (le y x) eqn:E.
    + constructor; [apply IH; assumption|].
      destruct l as [|z l]; simpl.
      * constructor. assumption.
      * inversion Hhd; subst. destruct (le z x); constructor; assumption.
    + constructor; [assumption|]. constructor. apply le_total. assumption.
Qed.

Lemma sort_sorted (l : list A) :
  Sorted (fun a b => le a b = true) (Py.sort le l).
Proof.
  unfold Py.sort.
  assert (H : forall acc, Sorted (fun a b => le a b = true) acc ->
            Sorted (fun a b => le a b = true)
                   (fold_left (fun a x => Py.insert le x a) l acc)).
  { induction l as [|x l IH]; intros acc Hacc; simpl; [assumption|].
    apply IH, insert_sorted, Hacc. }
  apply H. constructor.
Qed.

End SortFacts.

Lemma sort_rows_sorted (rows : list IO.out_row) :
  StronglySorted row_le (Output.sort_rows rows).
Proof.
  apply Sorted_StronglySorted.
  - intros a b c. unfold row_le, Output.row_leb. apply tuple_leb_trans.
  - apply (@sort_sorted _ Output.row_leb).
    intros a b. unfold Output.row_leb. apply tuple_leb_total.
Qed.

(** In a list sorted for [row_le], a row with an empty [statefp] comes
    before every row with a non-empty one. *)
Lemma sorted_empty_first (rows : list IO.out_row) :
  StronglySorted row_le rows ->
  forall i j a b,
    nth_error rows i = Some a -> nth_error rows j = Some b ->
    IO.statefp a = [] -> IO.statefp b <> [] -> i < j.
Proof.
  intros Hs. induction Hs as [|r rows Hs IH Hall]; intros i j a b Ha Hb Ea Eb.
  - destruct i; discriminate.
  - destruct i as [|i], j as [|j]; simpl in Ha, Hb.
    + congruence.
    + lia.
    + exfalso. inversion Hb; subst r. clear Hb.
      apply nth_error_In in Ha. rewrite Forall_forall in Hall.
      specialize (Hall a Ha). unfold row_le, Output.row_leb, Output.tuple_leb in Hall.
      simpl in Hall. rewrite Ea in Hall.
      destruct (Py.eqb (IO.statefp b) []) eqn:E.
      * apply eqb_eq in E. contradiction.
      * apply leb_nil_r in Hall. contradiction.
    + apply -> Nat.succ_lt_mono. eapply IH; eassumption.
Qed.

(* ================================================================== *)
(** * The loop that removes duplicates                                  *)
(* ================================================================== *)

Lemma key_eqb_eq (a b : str * str) : Output.key_eqb a b = true <-> a = b.
Proof.
  unfold Output.key_eqb. destruct a, b; simpl.
  rewrite andb_true_iff, !eqb_eq. split; [intros [-> ->] | intros H; inversion H]; auto.
Qed.

Lemma seen_In (k : str * str) (seen : list (str * str)) :
  existsb (Output.key_eqb k) seen = true <-> In k seen.
Proof.
  rewrite existsb_exists. split.
  - intros [y [Hy He]]. apply key_eqb_eq in He. subst; assumption.
  - intros H. exists k. split; [assumption | apply key_eqb_eq; reflexivity].
Qed.

Section Dedup.

Variables (J : Type) (normalize : J -> IO.out_row).

Lemma first_kept_snoc (done : list J) (j : J) (r : IO.out_row) :
  first_kept normalize done r -> first_kept normalize (done ++ [j]) r.
Proof.
  intros (pre & j0 & post & -> & Hn & Hpre).
  exists pre, j0, (post ++ [j]). rewrite <- app_assoc. simpl. auto.
Qed.

Lemma dedup_step_inv (done : list J) acc (j : J) :
  dedup_inv normalize done acc ->
  dedup_inv normalize (done ++ [j]) (Output.dedup_step normalize acc j).
Proof.
  destruct acc as [seen rows]. intros [Hseen Hnd Hfirst Hall].
  simpl in Hseen, Hnd, Hfirst, Hall. unfold Output.dedup_step.
  destruct (IO.tile_id (normalize j)) as [|c t] eqn:Et.
  - constructor; simpl; auto.
    + intros r Hr. destruct (Hfirst r Hr). auto using first_kept_snoc.
    + intros j' Hj' Hne. apply in_app_iff in Hj' as [Hj'|[->|[]]]; [auto|].
      congruence.
  - destruct (existsb (Output.key_eqb (Output.key (normalize j))) seen) eqn:Es.
    + apply seen_In in Es. constructor; simpl; auto.
      * intros r Hr. destruct (Hfirst r Hr). auto using first_kept_snoc.
      * intros j' Hj' Hne. apply in_app_iff in Hj' as [Hj'|[->|[]]]; [auto|].
        rewrite <- Hseen. assumption.
    + assert (Hnew : ~ In (Output.key (normalize j)) (map Output.key rows)).
      { rewrite <- Hseen, <- seen_In, Es. discriminate. }
      constructor; simpl.
      * rewrite map_app, Hseen. reflexivity.
      * rewrite map_app. simpl.
        apply Permutation_NoDup with (l := Output.key (normalize j) :: map Output.key rows).
        { apply Permutation_cons_append. }
        constructor; assumption.
      * intros r Hr. apply in_app_iff in Hr as [Hr|[<-|[]]].
        { destruct (Hfirst r Hr). auto using first_kept_snoc. }
        split; [rewrite Et; discriminate|].
        exists done, j, []. repeat split.
        intros j' Hj' Hk.
        destruct (IO.tile_id (normalize j')) as [|c' t'] eqn:Et'.
        { unfold Output.key in Hk. rewrite Et, Et' in Hk. inversion Hk. }
        apply Hnew. rewrite <- Hk. apply Hall; [assumption|].
        rewrite Et'. discriminate.
      * intros j' Hj' Hne. rewrite map_app, in_app_iff.
        apply in_app_iff in Hj' as [Hj'|[->|[]]]; [left; auto|].
        right. simpl. auto.
Qed.

Lemma dedup_fold_inv (joined : list J) :
  dedup_inv normalize joined (fold_left (Output.dedup_step normalize) joined ([], [])).
Proof.
  induction joined as [|j joined IH] using rev_ind.
  - constructor; simpl; [reflexivity | constructor | intros r [] | intros j []].
  - rewrite fold_left_app. simpl. apply dedup_step_inv, IH.
Qed.


Lemma dedup_first (joined : list J) (r : IO.out_row) :
  In r (Output.dedup normalize joined) -> first_kept normalize joined r.
Proof. intros H. apply (inv_first (dedup_fold_inv joined)), H. Qed.

Lemma dedup_from_joined (joined : list J) (r : IO.out_row) :
  In r (Output.dedup normalize joined) -> exists j, In j joined /\ normalize j = r.
Proof.
  intros H. destruct (dedup_first _ _ H) as (pre & j & post & -> & Hn & _).
  exists j. split; [apply in_elt | assumption].
Qed.

End Dedup.

(** The events of a run, from the outcome of its join stage. *)
Lemma run_of_unfold m p (H : Type) (n : Geo.attrs * Geo.tile H -> IO.out_row) jr :
  run_of m p n jr ->
  m = (joined <- IO.lift jr ;; Output.write n joined p).
Proof. intros Hrun. destruct Hrun; reflexivity. Qed.

Lemma run_of_output m p (H : Type) (n : Geo.attrs * Geo.tile H -> IO.out_row)
    (joined : list (Geo.attrs * Geo.tile H)) :
  run_of m p n (Ok joined) ->
  m = (Ok (length (Output.sort_rows (Output.dedup n joined))),
       [IO.MkdirParent p;
        IO.WriteCsv p Output.fieldnames (Output.sort_rows (Output.dedup n joined))]).
Proof. intros Hrun. rewrite (run_of_unfold Hrun). reflexivity. Qed.

Lemma run_of_raise m p (H : Type) (n : Geo.attrs * Geo.tile H -> IO.out_row) (e : exn) :
  run_of m p n (Raise e) -> m = (Raise e, []).
Proof. intros Hrun. rewrite (run_of_unfold Hrun). reflexivity. Qed.

Lemma sample_run_06 :
  run_of Samples.run_06 (lit "out/tiles.csv") Facts.normalize (Ok Samples.joined_06).
Proof.
  assert (E : Facts.joined_rows Boxes.float_of_str false Samples.codes_06
                (lit "s.shp") Samples.gdf Samples.facts
                Facts.touch_buffer_m_default = Ok Samples.joined_06)
    by (vm_compute; reflexivity).
  rewrite <- E. apply run_facts.
Defined.



(** C2: the rows a run writes are in ascending order of the pair
    [(statefp, tile_id)], strings being compared character code by character
    code; in that order a row with an empty [statefp] stands before every
    row with a non-empty one. *)
Theorem output_rows_sorted m p (H : Type) (n : Geo.attrs * Geo.tile H -> IO.out_row)
    (joined : list (Geo.attrs * Geo.tile H)) :
  run_of m p n (Ok joined) ->
  exists rows,
    m = (Ok (length rows), [IO.MkdirParent p; IO.WriteCsv p Output.fieldnames rows])
    /\ StronglySorted row_le rows
    /\ forall i j a b,
         nth_error rows i = Some a -> nth_error rows j = Some b ->
         IO.statefp a = [] -> IO.statefp b <> [] -> i < j.
Proof.
  intros Hrun. exists (Output.sort_rows (Output.dedup n joined)).
  split; [apply run_of_output, Hrun|].
  split; [apply sort_rows_sorted | apply sorted_empty_first, sort_rows_sorted].
Qed.

Lemma output_rows_sorted_witness :
  exists rows,
    Samples.run_06
    = (Ok (length rows),
       [IO.MkdirParent (lit "out/tiles.csv");
        IO.WriteCsv (lit "out/tiles.csv") Output.fieldnames rows])
    /\ StronglySorted row_le rows
    /\ forall i j a b,
         nth_error rows i = Some a -> nth_error rows j = Some b ->
         IO.statefp a = [] -> IO.statefp b <> [] -> i < j.
Proof. exact (output_rows_sorted sample_run_06). Defined.

Lemma run_of_statefp m p (H : Type) (n : Geo.attrs * Geo.tile H -> IO.out_row) jr :
  run_of m p n jr ->
  forall j, IO.statefp (n j) = Py.zfill 2 (Py.or_empty (Geo.STATEFP (fst j))).
Proof. intros Hrun. destruct Hrun; reflexivity. Qed.

(** C9: in both builders the record of a joined row whose [STATEFP] is
    missing or empty carries ["00"]; the [statefp] of every record is
    non-empty, so the key of the duplicate test is always
    [(statefp, tile_id)], never the abbreviation, and no row written has an
    empty [statefp]. *)
Theorem statefp_never_empty m p (H : Type)
    (n : Geo.attrs * Geo.tile H -> IO.out_row)
    (joined : list (Geo.attrs * Geo.tile H)) :
  run_of m p n (Ok joined) ->
  (forall j, Py.or_empty (Geo.STATEFP (fst j)) = [] -> IO.statefp (n j) = lit "00")
  /\ (forall j, IO.statefp (n j) <> []
                /\ Output.key (n j) = (IO.statefp (n j), IO.tile_id (n j)))
  /\ exists rows,
       m = (Ok (length rows), [IO.MkdirParent p; IO.WriteCsv p Output.fieldnames rows])
       /\ forall r, In r rows ->
            IO.statefp r <> [] /\ Output.key r = (IO.statefp r, IO.tile_id r).
Proof.
  intros Hrun. pose proof (run_of_statefp Hrun) as Hfp.
  assert (Hne : forall j, IO.statefp (n j) <> []).
  { intros j E. pose proof (zfill_length 2 (Py.or_empty (Geo.STATEFP (fst j)))) as Hl.
    rewrite <- Hfp, E in Hl. cbn [length] in Hl. lia. }
  assert (Hkey : forall r, IO.statefp r <> [] ->
                 Output.key r = (IO.statefp r, IO.tile_id r)).
  { intros r Hr. unfold Output.key. destruct (IO.statefp r); [contradiction | reflexivity]. }
  split; [|split].
  - intros j E. rewrite Hfp, E. reflexivity.
  - intros j. split; [apply Hne | apply Hkey, Hne].
  - exists (Output.sort_rows (Output.dedup n joined)).
    split; [apply run_of_output, Hrun|].
    intros r Hr.
    assert (Hd : In r (Output.dedup n joined)).
    { eapply Permutation_in; [symmetry; apply sort_perm | exact Hr]. }
    destruct (dedup_from_joined _ _ _ Hd) as (j & _ & <-).
    split; [apply Hne | apply Hkey, Hne].
Qed.

Lemma statefp_never_empty_witness :
  (forall j, Py.or_empty (Geo.STATEFP (fst j)) = [] ->
             IO.statefp (Facts.normalize j) = lit "00")
  /\ (forall j, IO.statefp (Facts.normalize j) <> []
                /\ Output.key (Facts.normalize j)
                   = (IO.statefp (Facts.normalize j), IO.tile_id (Facts.normalize j)))
  /\ exists rows,
       Samples.run_06
       = (Ok (length rows),
          [IO.MkdirParent (lit "out/tiles.csv");
           IO.WriteCsv (lit "out/tiles.csv") Output.fieldnames rows])
       /\ forall r, In r rows ->
            IO.statefp r <> [] /\ Output.key r = (IO.statefp r, IO.tile_id r).
Proof. exact (statefp_never_empty sample_run_06). Defined.

(* ================================================================== *)
(** * The footprint reader                                              *)
(* ================================================================== *)

Section DictFacts.

Variable V : Type.

Lemma dict_get_set (k k' : str) (v : V) (d : Py.dict V) :
  Py.dict_get k' (Py.dict_set k v d)
  = if Py.eqb k' k then Some v else Py.dict_get k' d.
Proof.
  induction d as [|[k0 v0] d IH]; simpl.
  - reflexivity.
  - destruct (Py.eqb k k0) eqn:E; simpl.
    + apply eqb_eq in E. subst k0. destruct (Py.eqb k' k); reflexivity.
    + destruct (Py.eqb k' k0) eqn:E0.
      * apply eqb_eq in E0. subst k0.
        destruct (Py.eqb k' k) eqn:E1; [|reflexivity].
        apply eqb_eq in E1. subst. rewrite eqb_refl in E. discriminate.
      * exact IH.
Qed.

Lemma dict_get_None (k : str) (d : Py.dict V) :
  Py.dict_get k d = None <-> ~ In k (map fst d).
Proof.
  induction d as [|[k0 v0] d IH]; simpl; [tauto|].
  destruct (Py.eqb k k0) eqn:E.
  - apply eqb_eq in E. subst. split; [discriminate | intros H; elim H; auto].
  - apply eqb_neq in E. rewrite IH. split; [intros H [H1|H1]; congruence | tauto].
Qed.

Lemma dict_set_fresh (k : str) (v : V) (d : Py.dict V) :
  Py.dict_get k d = None -> Py.dict_set k v d = d ++ [(k, v)].
Proof.
  induction d as [|[k0 v0] d IH]; simpl; [reflexivity|].
  destruct (Py.eqb k k0); [discriminate|]. intros H. rewrite IH by assumption.
  reflexivity.
Qed.

Lemma dict_get_In (k : str) (v : V) (d : Py.dict V) :
  NoDup (map fst d) -> (Py.dict_get k d = Some v <-> In (k, v) d).
Proof.
  induction d as [|[k0 v0] d IH]; simpl; intros Hnd.
  - split; [discriminate | tauto].
  - inversion Hnd as [|? ? Hk0 Hnd']; subst.
    destruct (Py.eqb k k0) eqn:E.
    + apply eqb_eq in E. subst k0. split.
      * intros H; inversion H; auto.
      * intros [H|H]; [inversion H; reflexivity|].
        elim Hk0. apply (in_map fst) in H. exact H.
    + apply eqb_neq in E. rewrite (IH Hnd'). split; [auto|].
      intros [H|H]; [inversion H; congruence | assumption].
Qed.

End DictFacts.

Section Footprints.

Variable float_of_str : str -> option float.

Abbreviation candidate := (Facts.candidate float_of_str).
Abbreviation step := (Facts.footprint_step float_of_str).

Lemma first_candidate_app (t : str) (rows rows' : list Csv.row) :
  first_candidate float_of_str t (rows ++ rows')
  = match first_candidate float_of_str t rows with
    | Some fp => Some fp
    | None => first_candidate float_of_str t rows'
    end.
Proof.
  induction rows as [|row rows IH]; simpl; [reflexivity|].
  destruct (candidate row) as [fp|]; [|exact IH].
  destruct (Py.eqb t (Facts.fp_tile_id fp)); [reflexivity | exact IH].
Qed.

Lemma first_candidate_tile (t : str) (rows : list Csv.row) (fp : Facts.footprint) :
  first_candidate float_of_str t rows = Some fp -> Facts.fp_tile_id fp = t.
Proof.
  induction rows as [|row rows IH]; simpl; [discriminate|].
  destruct (candidate row) as [fp'|]; [|exact IH].
  destruct (Py.eqb t (Facts.fp_tile_id fp')) eqn:E; [|exact IH].
  intros H. inversion H. subst. apply eqb_eq in E. congruence.
Qed.

Lemma first_candidate_None (t : str) (rows : list Csv.row) :
  first_candidate float_of_str t rows = None <->
  forall row fp, In row rows -> candidate row = Some fp -> Facts.fp_tile_id fp <> t.
Proof.
  induction rows as [|row rows IH]; simpl.
  - split; [intros _ ? ? [] | reflexivity].
  - destruct (candidate row) as [fp'|] eqn:Ec.
    + destruct (Py.eqb t (Facts.fp_tile_id fp')) eqn:E.
      * apply eqb_eq in E. split; [discriminate|]. intros H.
        exfalso. apply (H row fp'); auto.
      * apply eqb_neq in E. rewrite IH. split.
        -- intros H r fp [<-|Hr] Hc; [congruence | eauto].
        -- intros H r fp Hr. apply H. auto.
    + rewrite IH. split.
      * intros H r fp [<-|Hr] Hc; [congruence | eauto].
      * intros H r fp Hr. apply H. auto.
Qed.

(** The function and the relation agree. *)
Lemma first_candidate_usable (rows : list Csv.row) (fp : Facts.footprint) :
  first_candidate float_of_str (Facts.fp_tile_id fp) rows = Some fp
  <-> first_usable float_of_str rows fp.
Proof.
  split.
  - induction rows as [|row rows IH]; simpl; [discriminate|].
    destruct (candidate row) as [fp'|] eqn:Ec.
    + destruct (Py.eqb (Facts.fp_tile_id fp) (Facts.fp_tile_id fp')) eqn:E.
      * intros H. inversion H. subst fp'.
        exists [], row, rows. repeat split; [assumption | intros ? ? []].
      * intros H. destruct (IH H) as (pre & r & post & -> & Hc & Hpre).
        exists (row :: pre), r, post. repeat split; [assumption|].
        intros row' fp2 [<-|Hin] Hc2; [|eauto].
        apply eqb_neq in E. congruence.
    + intros H. destruct (IH H) as (pre & r & post & -> & Hc & Hpre).
      exists (row :: pre), r, post. repeat split; [assumption|].
      intros row' fp2 [<-|Hin] Hc2; [congruence | eauto].
  - intros (pre & r & post & -> & Hc & Hpre).
    rewrite first_candidate_app.
    replace (first_candidate float_of_str (Facts.fp_tile_id fp) pre) with (@None Facts.footprint).
    + simpl. rewrite Hc, eqb_refl. reflexivity.
    + symmetry. apply first_candidate_None. exact Hpre.
Qed.

Lemma footprint_step_inv (done : list Csv.row) d (row : Csv.row) :
  by_tile_inv float_of_str done d -> by_tile_inv float_of_str (done ++ [row]) (step d row).
Proof.
  intros [Hget Hnd Hkeys]. unfold Facts.footprint_step.
  destruct (candidate row) as [fp|] eqn:Ec.
  - destruct (Py.dict_get (Facts.fp_tile_id fp) d) as [prev|] eqn:Eg.
    + constructor; try assumption.
      intros t. rewrite first_candidate_app, <- Hget. simpl. rewrite Ec.
      destruct (Py.dict_get t d) eqn:Et; [reflexivity|].
      destruct (Py.eqb t (Facts.fp_tile_id fp)) eqn:E; [|reflexivity].
      apply eqb_eq in E. congruence.
    + constructor.
      * intros t. rewrite dict_get_set, first_candidate_app, <- Hget. simpl.
        rewrite Ec.
        destruct (Py.eqb t (Facts.fp_tile_id fp)) eqn:E.
        -- apply eqb_eq in E. subst t. rewrite Eg. reflexivity.
        -- destruct (Py.dict_get t d); reflexivity.
      * rewrite dict_set_fresh by assumption. rewrite map_app. simpl.
        apply Permutation_NoDup with (l := Facts.fp_tile_id fp :: map fst d).
        { apply Permutation_cons_append. }
        constructor; [apply dict_get_None; assumption | assumption].
      * rewrite dict_set_fresh by assumption. intros k fp' Hin.
        apply in_app_iff in Hin as [Hin|[Hin|[]]]; [eauto|].
        inversion Hin. reflexivity.
  - constructor; try assumption.
    intros t. rewrite first_candidate_app, <- Hget. simpl. rewrite Ec.
    destruct (Py.dict_get t d); reflexivity.
Qed.

Lemma by_tile_fold_inv (rows : list Csv.row) :
  by_tile_inv float_of_str rows (fold_left step rows []).
Proof.
  induction rows as [|row rows IH] using rev_ind.
  - constructor; simpl; [reflexivity | constructor | intros ? ? []].
  - rewrite fold_left_app. simpl. apply footprint_step_inv, IH.
Qed.

Lemma by_tile_values (rows : list Csv.row) (fp : Facts.footprint) :
  In fp (Py.values (fold_left step rows [])) <-> first_usable float_of_str rows fp.
Proof.
  destruct (by_tile_fold_inv rows) as [Hget Hnd Hkeys].
  rewrite <- first_candidate_usable, <- Hget, (@dict_get_In _ _ _ _ Hnd).
  unfold Py.values. rewrite in_map_iff. split.
  - intros [[k v] [E Hin]]. simpl in E. subst v.
    rewrite <- (Hkeys _ _ Hin). exact Hin.
  - intros Hin. exists (Facts.fp_tile_id fp, fp). auto.
Qed.


Lemma reader_Ok (f : csv_file) (fps : list Facts.footprint) :
  Facts._read_raster_footprints_from_facts float_of_str f = Ok fps ->
  fps = Py.values (fold_left step (snd (Csv.DictReader f)) []).
Proof.
  unfold Facts._read_raster_footprints_from_facts.
  destruct (Csv.DictReader f) as [names rows]. simpl.
  destruct (Csv.no_fieldnames names); [discriminate|].
  destruct (Py.values (fold_left step rows [])); [discriminate|].
  intros H. inversion H. reflexivity.
Qed.

End Footprints.



Section Skipping.

Variable float_of_str : str -> option float.

Lemma parse_bounds_Some (text : str) (minx miny maxx maxy : float) :
  Facts._parse_bounds float_of_str text = Some (minx, miny, maxx, maxy)
  <-> exists p0 p1 p2 p3,
        map Py.strip (Py.split ","%char (Py.strip text)) = [p0; p1; p2; p3]
        /\ float_of_str p0 = Some minx /\ float_of_str p1 = Some miny
        /\ float_of_str p2 = Some maxx /\ float_of_str p3 = Some maxy
        /\ PrimFloat.ltb minx maxx = true /\ PrimFloat.ltb miny maxy = true.
Proof.
  unfold Facts._parse_bounds.
  destruct (Py.strip text) as [|c raw] eqn:Er.
  - split; [discriminate|]. intros (p0 & p1 & p2 & p3 & H & _). discriminate H.
  - destruct (map Py.strip (Py.split ","%char (c :: raw)))
      as [|q0 [|q1 [|q2 [|q3 [|q4 qs]]]]] eqn:Es;
      try (split; [discriminate | intros (p0 & p1 & p2 & p3 & H & _); discriminate H]).
    split.
    + destruct (float_of_str q0) as [a|] eqn:F0; [|discriminate].
      destruct (float_of_str q1) as [b|] eqn:F1; [|discriminate].
      destruct (float_of_str q2) as [c'|] eqn:F2; [|discriminate].
      destruct (float_of_str q3) as [d|] eqn:F3; [|discriminate].
      destruct (PrimFloat.ltb a c' && PrimFloat.ltb b d) eqn:E; [|discriminate].
      apply andb_true_iff in E as [E1 E2].
      intros H. inversion H. subst.
      exists q0, q1, q2, q3. repeat split; try assumption; reflexivity.
    + intros (p0 & p1 & p2 & p3 & H & H0 & H1 & H2 & H3 & L1 & L2).
      inversion H. subst. rewrite H0, H1, H2, H3, L1, L2. reflexivity.
Qed.

Lemma candidate_None (row : Csv.row) :
  Facts.candidate float_of_str row = None
  <-> Py.strip (Csv.get_or_empty (lit "relative_path") row) = []
      \/ Facts._parse_bounds float_of_str (Csv.get_or_empty (lit "bounds") row) = None
      \/ Py.strip (Csv.get_or_empty (lit "crs") row) = []
      \/ Facts._normalize_tile_id
           (Py.strip (Csv.get_or_empty (lit "relative_path") row)) = [].
Proof.
  unfold Facts.candidate.
  destruct (Py.strip (Csv.get_or_empty (lit "relative_path") row)) as [|c rel];
    [tauto|].
  destruct (Facts._parse_bounds float_of_str (Csv.get_or_empty (lit "bounds") row))
    as [[[[minx miny] maxx] maxy]|]; [|tauto].
  destruct (Py.strip (Csv.get_or_empty (lit "crs") row)) as [|c' crs]; [tauto|].
  destruct (Facts._normalize_tile_id (c :: rel)) as [|c'' tile]; [tauto|].
  destruct (Facts._parse_hv (c'' :: tile)).
  split; [discriminate|]. intros [H|[H|[H|H]]]; discriminate H.
Qed.

Lemma fold_no_candidate (rows : list Csv.row) (d : Py.dict Facts.footprint) :
  (forall row, In row rows -> Facts.candidate float_of_str row = None) ->
  fold_left (Facts.footprint_step float_of_str) rows d = d.
Proof.
  revert d. induction rows as [|row rows IH]; intros d H; simpl; [reflexivity|].
  unfold Facts.footprint_step at 2. rewrite (H row) by (left; reflexivity).
  apply IH. intros r Hr. apply H. right. exact Hr.
Qed.

Lemma no_fieldnames_rows (f : csv_file) :
  Csv.no_fieldnames (fst (Csv.DictReader f)) = true ->
  forall row, In row (snd (Csv.DictReader f)) ->
              Facts.candidate float_of_str row = None.
Proof.
  destruct f as [|names rest]; simpl; [intros _ row []|].
  destruct names as [|n names]; [|discriminate].
  intros _ row Hin. apply in_map_iff in Hin as [r [<- _]].
  destruct r; reflexivity.
Qed.

Lemma reader_raises (f : csv_file) :
  (exists msg, Facts._read_raster_footprints_from_facts float_of_str f
               = Raise (ValueError msg))
  <-> forall row, In row (snd (Csv.DictReader f)) ->
                  Facts.candidate float_of_str row = None.
Proof.
  pose proof (no_fieldnames_rows f) as Hnf.
  unfold Facts._read_raster_footprints_from_facts.
  destruct (Csv.DictReader f) as [names rows]. simpl in *.
  destruct (Csv.no_fieldnames names).
  - split; [intros _; apply Hnf; reflexivity | intros _; eexists; reflexivity].
  - clear Hnf. split.
    + intros [msg H] row Hin.
      destruct (Facts.candidate float_of_str row) as [fp|] eqn:Ec; [|reflexivity].
      exfalso.
      destruct (by_tile_fold_inv float_of_str rows) as [Hget _ _].
      destruct (fold_left (Facts.footprint_step float_of_str) rows []) as [|kv d] eqn:Ef;
        [|discriminate H].
      specialize (Hget (Facts.fp_tile_id fp)). simpl in Hget. symmetry in Hget.
      rewrite first_candidate_None in Hget. apply (Hget row fp Hin Ec). reflexivity.
    + intros H. rewrite (fold_no_candidate rows [] H). simpl. eexists; reflexivity.
Qed.

End Skipping.

(** C6, as the code has it: a row is skipped by the guards of the reader
    exactly when it lacks a non-empty relative path, well-formed bounds
    (four comma-separated floats with [maxx > minx] and [maxy > miny]), a
    non-empty CRS string, or a non-empty tile id derived from the path; the
    reader raises its [ValueError] exactly when no row passes the guards. *)
Theorem footprint_rows_skipped (float_of_str : str -> option float) :
  (forall row,
     Facts.candidate float_of_str row = None
     <-> Py.strip (Csv.get_or_empty (lit "relative_path") row) = []
         \/ Facts._parse_bounds float_of_str (Csv.get_or_empty (lit "bounds") row) = None
         \/ Py.strip (Csv.get_or_empty (lit "crs") row) = []
         \/ Facts._normalize_tile_id
              (Py.strip (Csv.get_or_empty (lit "relative_path") row)) = [])
  /\ (forall text minx miny maxx maxy,
        Facts._parse_bounds float_of_str text = Some (minx, miny, maxx, maxy)
        <-> exists p0 p1 p2 p3,
              map Py.strip (Py.split ","%char (Py.strip text)) = [p0; p1; p2; p3]
              /\ float_of_str p0 = Some minx /\ float_of_str p1 = Some miny
              /\ float_of_str p2 = Some maxx /\ float_of_str p3 = Some maxy
              /\ PrimFloat.ltb minx maxx = true /\ PrimFloat.ltb miny maxy = true)
  /\ (forall f,
        (exists msg, Facts._read_raster_footprints_from_facts float_of_str f
                     = Raise (ValueError msg))
        <-> forall row, In row (snd (Csv.DictReader f)) ->
                        Facts.candidate float_of_str row = None)
  /\ (forall f e, Facts._read_raster_footprints_from_facts float_of_str f = Raise e ->
                  exists msg, e = ValueError msg).
Proof.
  split; [exact (candidate_None float_of_str)|].
  split; [exact (parse_bounds_Some float_of_str)|].
  split; [exact (reader_raises float_of_str)|].
  intros f e. unfold Facts._read_raster_footprints_from_facts.
  destruct (Csv.DictReader f) as [names rows].
  destruct (Csv.no_fieldnames names).
  - intros H. inversion H. eexists; reflexivity.
  - destruct (Py.values _); intros H; inversion H. eexists; reflexivity.
Qed.

(** C6 as stated fails: this row has a relative path, well-formed bounds and
    a CRS, and the reader skips it all the same, because the name of the
    file is blank; a table made of that row alone is refused. *)
Lemma footprint_row_skipped_with_all_fields :
  Py.strip (Csv.get_or_empty (lit "relative_path") Samples.row_blank_name) = lit "a/ /"
  /\ Facts._parse_bounds Boxes.float_of_str
       (Csv.get_or_empty (lit "bounds") Samples.row_blank_name)
     = Some (0, 0, 1, 1)%float
  /\ Py.strip (Csv.get_or_empty (lit "crs") Samples.row_blank_name) = lit "EPSG:4326"
  /\ Facts.candidate Boxes.float_of_str Samples.row_blank_name = None
  /\ Facts._read_raster_footprints_from_facts Boxes.float_of_str Samples.facts_blank_name
     = Raise (ValueError (lit
         "no usable raster footprints (relative_path+bounds+crs) found in raster_facts csv")).
Proof. repeat split; vm_compute; reflexivity. Qed.

(* ================================================================== *)
(** * The resolver                                                      *)
(* ================================================================== *)



Lemma nonempty_false (A : Type) (l : list A) : Py.nonempty l = false <-> l = [].
Proof. destruct l; simpl; split; congruence. Qed.

Lemma nonempty_true (A : Type) (l : list A) : Py.nonempty l = true <-> l <> [].
Proof. destruct l; simpl; split; congruence. Qed.

Lemma loc_map (A : Type) (f : A -> bool) (rows : list A) :
  Geo.loc (map f rows) rows = filter f rows.
Proof.
  induction rows as [|r rows IH]; simpl; [reflexivity|].
  destruct (f r); rewrite IH; reflexivity.
Qed.

Lemma series_or_map (A : Type) (f g : A -> bool) (rows : list A) :
  Geo.series_or (map f rows) (map g rows) = map (fun r => f r || g r) rows.
Proof. induction rows as [|r rows IH]; simpl; [|rewrite IH]; reflexivity. Qed.

Lemma mem_nil (x : str) : Py.mem x [] = false.
Proof. reflexivity. Qed.

(** The mask keeps the selected features. *)
Lemma selection_mask_loc (G : Geo.engine) (gdf : Geo.geodataframe G)
    (fips abbr : list str) (mask : list bool) :
  Geo.selection_mask gdf fips abbr = Some mask ->
  Geo.loc mask (Geo.features gdf)
  = filter (region_selected gdf fips abbr) (Geo.features gdf).
Proof.
  unfold Geo.selection_mask, Geo.fips_column, Geo.abbr_column.
  rewrite !map_map.
  destruct (Geo.has_statefp gdf && Py.nonempty fips) eqn:E1,
           (Geo.has_stusps gdf && Py.nonempty abbr) eqn:E2;
    intros H; inversion H; subst mask; clear H;
    rewrite ?series_or_map, loc_map; apply filter_ext; intros r;
    unfold region_selected.
  - apply andb_true_iff in E1 as [-> _]. apply andb_true_iff in E2 as [-> _].
    reflexivity.
  - apply andb_true_iff in E1 as [-> _].
    apply andb_false_iff in E2 as [->| ->%nonempty_false];
      rewrite ?mem_nil, ?andb_false_r, orb_false_r; reflexivity.
  - apply andb_true_iff in E2 as [-> _].
    apply andb_false_iff in E1 as [->| ->%nonempty_false];
      rewrite ?mem_nil, ?andb_false_r; reflexivity.
Qed.

Lemma filter_nothing (A : Type) (f : A -> bool) (l : list A) :
  (forall r, In r l -> f r = false) -> filter f l = [].
Proof.
  induction l as [|a l IH]; intros H; simpl; [reflexivity|].
  rewrite (H a) by (left; reflexivity). apply IH. intros r Hr. apply H. right. exact Hr.
Qed.

(** From the mask on, both builders fail alike when nothing is selected. *)
Ltac nothing_selected Hno :=
  match goal with
  | |- context [Geo.selection_mask ?gdf ?fips ?abbr] =>
      let Em := fresh "Em" in
      destruct (Geo.selection_mask gdf fips abbr) as [mask|] eqn:Em;
      [ cbv zeta;
        rewrite (selection_mask_loc _ _ _ Em), (filter_nothing _ _ Hno);
        eexists; split; [reflexivity | left; reflexivity]
      | eexists; split; [reflexivity | right; left; reflexivity] ]
  end.

Lemma columns_present (a b : bool) : a || b = true -> negb a && negb b = false.
Proof. destruct a, b; simpl; congruence. Qed.

Lemma grid_no_match (G : Geo.engine) states_csv state_shapefile
    (gdf : Geo.geodataframe G) fips abbr :
  Grid._read_state_codes states_csv = Ok (fips, abbr) ->
  Geo.features gdf <> [] ->
  Geo.has_statefp gdf || Geo.has_stusps gdf = true ->
  (forall r, In r (Geo.features gdf) -> region_selected gdf fips abbr r = false) ->
  exists msg,
    Grid.joined_rows states_csv state_shapefile gdf = Raise (RuntimeError msg)
    /\ no_match_message msg.
Proof.
  intros Hc Hf Hcols Hno. unfold Grid.joined_rows. rewrite Hc.
  apply nonempty_true in Hf. rewrite Hf, (columns_present _ _ Hcols). simpl negb.
  cbv iota. nothing_selected Hno.
Qed.

Lemma facts_no_match float_of_str (G : Geo.engine) has_header states_csv
    state_shapefile (gdf : Geo.geodataframe G) raster_facts_csv touch_buffer_m
    fips abbr footprints :
  Facts._read_state_codes has_header states_csv = Ok (fips, abbr) ->
  Facts._read_raster_footprints_from_facts float_of_str raster_facts_csv
    = Ok footprints ->
  Geo.features gdf <> [] ->
  Geo.has_statefp gdf || Geo.has_stusps gdf = true ->
  (forall r, In r (Geo.features gdf) -> region_selected gdf fips abbr r = false) ->
  exists msg,
    Facts.joined_rows float_of_str has_header states_csv state_shapefile gdf
      raster_facts_csv touch_buffer_m = Raise (RuntimeError msg)
    /\ no_match_message msg.
Proof.
  intros Hc Hfp Hf Hcols Hno. unfold Facts.joined_rows. rewrite Hc, Hfp.
  apply nonempty_true in Hf. rewrite Hf, (columns_present _ _ Hcols). simpl negb.
  cbv iota zeta.
  match goal with
  | |- context [if ?c then Raise (RuntimeError (Facts.not_found_message ?mf ?ma)) else _] =>
      destruct c eqn:Em; [exists (Facts.not_found_message mf ma)|]
  end.
  - split; [reflexivity|]. right; right.
    eexists _, _. split; [|reflexivity].
    apply orb_true_iff in Em as [Em|Em]; apply nonempty_true in Em; auto.
  - nothing_selected Hno.
Qed.

(** The join stage of a run never hands an empty table to the output
    stage. *)
Lemma join_group_nonempty (G : Geo.engine) (gdf : Geo.geodataframe G) tol src
    selected groups parts :
  Forall (fun part => part <> []) parts ->
  Forall (fun part => part <> [])
         (fold_left (Facts.join_group gdf tol src selected) groups parts).
Proof.
  revert parts. induction groups as [|g groups IH]; intros parts Hp; simpl;
    [assumption|].
  apply IH. unfold Facts.join_group.
  destruct (Facts.sjoin_inputs gdf tol src (fst g) (snd g) selected)
    as [[regions tdf]|]; [|assumption].
  destruct (Py.nonempty (Geo.sjoin G regions tdf)) eqn:E; [|assumption].
  apply Forall_app. split; [assumption|]. constructor; [|constructor].
  apply nonempty_true. exact E.
Qed.

Lemma joined_nonempty m p (H : Type) (n : Geo.attrs * Geo.tile H -> IO.out_row) jr :
  run_of m p n jr -> forall joined, jr = Ok joined -> joined <> [].
Proof.
  intros Hrun. destruct Hrun as [G sc shp gdf out | fos G hh sc shp gdf facts out tol];
    intros joined.
  - unfold Grid.joined_rows.
    destruct (Grid._read_state_codes sc) as [[fips abbr]|]; [|discriminate].
    destruct (negb (Py.nonempty (Geo.features gdf))); [discriminate|].
    destruct (negb (Geo.has_statefp gdf) && negb (Geo.has_stusps gdf)); [discriminate|].
    destruct (Geo.selection_mask gdf fips abbr) as [mask|]; [|discriminate].
    cbv zeta.
    destruct (negb (Py.nonempty (Geo.loc mask (Geo.features gdf)))); [discriminate|].
    destruct (Geo.crs gdf) as [src|]; [|discriminate].
    match goal with
    | |- (if negb (Py.nonempty ?j) then _ else _) = _ -> _ =>
        destruct (Py.nonempty j) eqn:E; [|discriminate]
    end.
    intros Hj. inversion Hj. subst. apply nonempty_true. exact E.
  - unfold Facts.joined_rows.
    destruct (Facts._read_state_codes hh sc) as [[fips abbr]|]; [|discriminate].
    destruct (Facts._read_raster_footprints_from_facts fos facts) as [fps|];
      [|discriminate].
    destruct (negb (Py.nonempty (Geo.features gdf))); [discriminate|].
    destruct (negb (Geo.has_statefp gdf) && negb (Geo.has_stusps gdf)); [discriminate|].
    cbv zeta.
    match goal with
    | |- (if ?c then _ else _) = _ -> _ => destruct c; [discriminate|]
    end.
    destruct (Geo.selection_mask gdf fips abbr) as [mask|]; [|discriminate].
    destruct (negb (Py.nonempty (Geo.loc mask (Geo.features gdf)))); [discriminate|].
    destruct (Geo.crs gdf) as [src|]; [|discriminate].
    pose proof (@join_group_nonempty G gdf tol src
                  (Geo.loc mask (Geo.features gdf)) (Facts.group_by_crs fps) []
                  (Forall_nil _)) as Hparts.
    destruct (fold_left _ (Facts.group_by_crs fps) []) as [|p1 [|p2 parts]];
      [discriminate| |]; intros Hj; inversion Hj; subst.
    + inversion Hparts. assumption.
    + inversion Hparts as [|? ? Hp1 _]. simpl. intros E.
      apply app_eq_nil in E as [E _]. contradiction.
Qed.

(** C7: when the requested codes select no feature of the boundary source,
    a run of either builder fails with a [RuntimeError] saying that no
    region corresponds to the codes, and touches nothing: neither the
    directory nor the table.  In every run, something is written only after
    the join stage has returned a non-empty table. *)
Theorem no_match_writes_nothing (m : IO.M nat) :
  no_match_run m ->
  (snd m = []
   /\ exists msg, fst m = Raise (RuntimeError msg) /\ no_match_message msg)
  /\ forall m' p (H : Type) (n : Geo.attrs * Geo.tile H -> IO.out_row) jr,
       run_of m' p n jr -> snd m' <> [] ->
       exists joined, jr = Ok joined /\ joined <> [].
Proof.
  intros Hm. split.
  - destruct Hm as [G sc shp gdf out fips abbr Hc Hf Hcols Hno
                   | fos G hh sc shp gdf facts out tol fips abbr fps Hc Hfp Hf Hcols Hno].
    + destruct (grid_no_match sc shp gdf Hc Hf Hcols Hno) as (msg & E & Hmsg).
      pose proof (run_grid sc shp gdf out) as Hrun. rewrite E in Hrun.
      rewrite (run_of_raise Hrun). simpl. eauto.
    + destruct (facts_no_match fos hh sc shp gdf facts tol Hc Hfp Hf Hcols Hno)
        as (msg & E & Hmsg).
      pose proof (run_facts fos hh sc shp gdf facts out tol) as Hrun.
      rewrite E in Hrun. rewrite (run_of_raise Hrun). simpl. eauto.
  - intros m' p H n jr Hrun Hev.
    destruct jr as [joined|e].
    + exists joined. split; [reflexivity|]. eapply joined_nonempty; eauto.
    + rewrite (run_of_raise Hrun) in Hev. elim Hev. reflexivity.
Qed.

Lemma sample_no_match :
  no_match_run
    (Grid.build_tiles_of_interest Samples.codes_36 (lit "s.shp") Samples.gdf
       (lit "out/tiles.csv")).
Proof.
  apply no_match_grid with (fips := [lit "36"]) (abbr := [lit "NY"]).
  - vm_compute. reflexivity.
  - discriminate.
  - reflexivity.
  - intros r Hr. simpl in Hr.
    destruct Hr as [<-|[<-|[<-|[]]]]; vm_compute; reflexivity.
Defined.

Lemma no_match_writes_nothing_witness :
  snd (Grid.build_tiles_of_interest Samples.codes_36 (lit "s.shp") Samples.gdf
         (lit "out/tiles.csv")) = []
  /\ exists msg,
       fst (Grid.build_tiles_of_interest Samples.codes_36 (lit "s.shp") Samples.gdf
              (lit "out/tiles.csv")) = Raise (RuntimeError msg)
       /\ no_match_message msg.
Proof. exact (proj1 (no_match_writes_nothing sample_no_match)). Defined.

Lemma missing_In (requested known : list str) (x : str) :
  In x (Facts.missing requested known) <-> In x requested /\ ~ In x known.
Proof.
  unfold Facts.missing.
  pose proof (sort_perm Py.leb (filter (fun y => negb (Py.mem y known)) requested)) as Hp.
  split.
  - intros H. apply (Permutation_in _ (Permutation_sym Hp)) in H.
    apply filter_In in H as [H1 H2]. split; [assumption|].
    apply negb_true_iff in H2. rewrite <- mem_In, H2. discriminate.
  - intros [H1 H2]. apply (Permutation_in _ Hp). apply filter_In.
    split; [assumption|]. apply negb_true_iff.
    destruct (Py.mem x known) eqn:E; [|reflexivity].
    apply mem_In in E. contradiction.
Qed.

Lemma missing_sorted (requested known : list str) :
  StronglySorted (fun a b => Py.leb a b = true) (Facts.missing requested known).
Proof.
  apply Sorted_StronglySorted.
  - intros a b c. apply leb_trans.
  - apply sort_sorted. apply leb_total.
Qed.

(** C10: in the facts-derived builder, once the inputs are read and the
    boundary source has features, a requested FIPS code absent from the
    [STATEFP] column, or a requested abbreviation absent from the [STUSPS]
    column, makes the run fail before any selection, whatever the other
    requested codes match.  The message lists, in ascending order, exactly
    the requested codes absent from their column; nothing is written. *)
Theorem missing_codes_reported float_of_str (G : Geo.engine) has_header
    states_csv state_shapefile (gdf : Geo.geodataframe G) raster_facts_csv
    output_csv touch_buffer_m fips abbr footprints :
  Facts._read_state_codes has_header states_csv = Ok (fips, abbr) ->
  Facts._read_raster_footprints_from_facts float_of_str raster_facts_csv
    = Ok footprints ->
  Geo.features gdf <> [] ->
  (Geo.has_statefp gdf = true
   /\ exists x, In x fips /\ ~ In x (Geo.fips_column gdf))
  \/ (Geo.has_stusps gdf = true
      /\ exists x, In x abbr /\ ~ In x (Geo.abbr_column gdf)) ->
  exists missing_fips missing_abbr,
    Facts.build_tiles_of_interest float_of_str has_header states_csv
      state_shapefile gdf raster_facts_csv output_csv touch_buffer_m
    = (Raise (RuntimeError (Facts.not_found_message missing_fips missing_abbr)), [])
    /\ (forall x, In x missing_fips <->
          Geo.has_statefp gdf = true /\ In x fips /\ ~ In x (Geo.fips_column gdf))
    /\ (forall x, In x missing_abbr <->
          Geo.has_stusps gdf = true /\ In x abbr /\ ~ In x (Geo.abbr_column gdf))
    /\ StronglySorted (fun a b => Py.leb a b = true) missing_fips
    /\ StronglySorted (fun a b => Py.leb a b = true) missing_abbr.
Proof.
  intros Hc Hfp Hf Hmiss.
  set (mf := if Geo.has_statefp gdf && Py.nonempty fips
             then Facts.missing fips (Geo.fips_column gdf) else []).
  set (ma := if Geo.has_stusps gdf && Py.nonempty abbr
             then Facts.missing abbr (Geo.abbr_column gdf) else []).
  assert (Hmf : forall x, In x mf <->
            Geo.has_statefp gdf = true /\ In x fips /\ ~ In x (Geo.fips_column gdf)).
  { intros x. unfold mf.
    destruct (Geo.has_statefp gdf); cbn [andb].
    - destruct fips as [|c fips]; cbn [Py.nonempty].
      + split; [intros [] | intros (_ & [] & _)].
      + rewrite missing_In. intuition.
    - split; [intros [] | intros (E & _); discriminate E]. }
  assert (Hma : forall x, In x ma <->
            Geo.has_stusps gdf = true /\ In x abbr /\ ~ In x (Geo.abbr_column gdf)).
  { intros x. unfold ma.
    destruct (Geo.has_stusps gdf); cbn [andb].
    - destruct abbr as [|c abbr]; cbn [Py.nonempty].
      + split; [intros [] | intros (_ & [] & _)].
      + rewrite missing_In. intuition.
    - split; [intros [] | intros (E & _); discriminate E]. }
  assert (Hne : Py.nonempty mf || Py.nonempty ma = true).
  { apply orb_true_iff.
    destruct Hmiss as [(E & x & H1 & H2) | (E & x & H1 & H2)]; [left | right];
      apply nonempty_true; intros En.
    - assert (Hx : In x mf) by (apply Hmf; auto). rewrite En in Hx. exact Hx.
    - assert (Hx : In x ma) by (apply Hma; auto). rewrite En in Hx. exact Hx. }
  assert (Hcols : negb (Geo.has_statefp gdf) && negb (Geo.has_stusps gdf) = false).
  { destruct Hmiss as [(E & _) | (E & _)]; rewrite E; simpl;
      [reflexivity | apply andb_false_r]. }
  exists mf, ma. split; [|split; [exact Hmf | split; [exact Hma|]]].
  - unfold Facts.build_tiles_of_interest, Facts.joined_rows.
    rewrite Hc, Hfp. apply nonempty_true in Hf. rewrite Hf, Hcols. simpl negb.
    cbv iota zeta. fold mf ma. rewrite Hne. reflexivity.
  - split.
    + unfold mf. destruct (Geo.has_statefp gdf && Py.nonempty fips);
        [apply missing_sorted | constructor].
    + unfold ma. destruct (Geo.has_stusps gdf && Py.nonempty abbr);
        [apply missing_sorted | constructor].
Qed.

Lemma missing_codes_reported_witness :
  exists missing_fips missing_abbr,
    Facts.build_tiles_of_interest Boxes.float_of_str false Samples.codes_06_36
      (lit "s.shp") Samples.gdf Samples.facts (lit "out/tiles.csv") 1%float
    = (Raise (RuntimeError (Facts.not_found_message missing_fips missing_abbr)), [])
    /\ (forall x, In x missing_fips <->
          Geo.has_statefp Samples.gdf = true
          /\ In x [lit "06"; lit "36"; lit "07"]
          /\ ~ In x (Geo.fips_column Samples.gdf))
    /\ (forall x, In x missing_abbr <->
          Geo.has_stusps Samples.gdf = true
          /\ In x [lit "NY"] /\ ~ In x (Geo.abbr_column Samples.gdf))
    /\ StronglySorted (fun a b => Py.leb a b = true) missing_fips
    /\ StronglySorted (fun a b => Py.leb a b = true) missing_abbr.
Proof.
  apply (@missing_codes_reported Boxes.float_of_str Boxes.engine false
           Samples.codes_06_36 (lit "s.shp") Samples.gdf Samples.facts
           (lit "out/tiles.csv") 1%float [lit "06"; lit "36"; lit "07"] [lit "NY"]
           (match Facts._read_raster_footprints_from_facts Boxes.float_of_str Samples.facts
            with Ok fps => fps | Raise _ => [] end)).
  - vm_compute. reflexivity.
  - vm_compute. reflexivity.
  - discriminate.
  - left. split; [reflexivity|]. exists (lit "36"). split.
    + right; left; reflexivity.
    + vm_compute. intros [H|[H|[H|[]]]]; discriminate H.
Defined.

Example missing_codes_message :
  Facts.build_tiles_of_interest Boxes.float_of_str false Samples.codes_06_36
    (lit "s.shp") Samples.gdf Samples.facts (lit "out/tiles.csv") 1%float
  = (Raise (RuntimeError
       (lit "requested states not found in state shapefile: fips=07,36 abbr=NY")), []).
Proof. vm_compute. reflexivity. Qed.

(* ================================================================== *)
(** * The vector-tile builder                                           *)
(* ================================================================== *)

Lemma firstn_le (A : Type) (n : nat) (l : list A) : length (firstn n l) <= n.
Proof. rewrite length_firstn. apply Nat.le_min_l. Qed.

(** C8, as the code has it: when tippecanoe is found and run and exits with
    a non-zero status, the builder raises a [RuntimeError] whose message
    ends with the captured standard error stripped of leading and trailing
    white space and then cut to its first 2000 characters. *)
Theorem tippecanoe_failure_message (w : Tippecanoe.world)
    (input_ndjson output_mbtiles layer_name : str)
    (minimum_zoom maximum_zoom : Z) (tippecanoe_bin : str)
    (detect_shared_borders coalesce_densest_as_needed
       drop_densest_as_needed read_parallel : bool) (exe : str) :
  Tippecanoe.input_exists w = true ->
  Py.strip layer_name <> [] ->
  Tippecanoe.which w tippecanoe_bin = Some exe -> exe <> [] ->
  let cmd := Tippecanoe.command w exe input_ndjson output_mbtiles layer_name
               minimum_zoom maximum_zoom detect_shared_borders
               coalesce_densest_as_needed drop_densest_as_needed read_parallel in
  let proc := Tippecanoe.run w cmd in
  Tippecanoe.returncode proc <> 0%Z ->
  Tippecanoe.build_vector_tiles_with_tippecanoe w input_ndjson output_mbtiles
    layer_name minimum_zoom maximum_zoom tippecanoe_bin detect_shared_borders
    coalesce_densest_as_needed drop_densest_as_needed read_parallel
  = Raise (RuntimeError
      (lit "tippecanoe failed rc=" ++ Py.str_of_Z (Tippecanoe.returncode proc)
       ++ lit " cmd=" ++ Shlex.join cmd
       ++ lit " stderr=" ++ firstn 2000 (Py.strip (Tippecanoe.stderr proc))))
  /\ length (firstn 2000 (Py.strip (Tippecanoe.stderr proc))) <= 2000.
Proof.
  intros Hin Hlayer Hwhich Hexe cmd proc Hrc.
  split; [|apply firstn_le].
  unfold Tippecanoe.build_vector_tiles_with_tippecanoe.
  rewrite Hin. apply nonempty_true in Hlayer. rewrite Hlayer, Hwhich.
  destruct exe as [|c exe]; [elim Hexe; reflexivity|].
  fold cmd. fold proc. apply Z.eqb_neq in Hrc. rewrite Hrc. simpl negb. cbv iota.
  unfold Tippecanoe.failure_message, Tippecanoe.stderr_shown.
  repeat rewrite <- app_assoc. reflexivity.
Qed.

Lemma tippecanoe_failure_message_witness :
  Samples.failing_call
  = Raise (RuntimeError (Samples.failing_head ++ lit "stderr=bad thing")).
Proof.
  destruct (@tippecanoe_failure_message Samples.failing_world
              (lit "fields.ndjson") (lit "fields.mbtiles") (lit "yanroy_fields")
              8 14 (lit "tippecanoe") true true true true
              (lit "/usr/bin/tippecanoe")) as [E _].
  - reflexivity.
  - discriminate.
  - reflexivity.
  - discriminate.
  - discriminate.
  - unfold Samples.failing_call. rewrite E. vm_compute. reflexivity.
Defined.

(** C8 as stated fails: the two blanks that open the captured standard
    error and the newline that ends it are not in the message, which
    therefore does not end with the captured text as it is. *)
Lemma tippecanoe_stderr_not_verbatim :
  Samples.failing_call
  = Raise (RuntimeError (Samples.failing_head ++ lit "stderr=bad thing"))
  /\ Tippecanoe.stderr (Tippecanoe.run Samples.failing_world []) = Samples.failing_stderr
  /\ ~ exists head,
        Samples.failing_call
        = Raise (RuntimeError (head ++ firstn 2000 Samples.failing_stderr)).
Proof.
  assert (E : Samples.failing_call
              = Raise (RuntimeError (Samples.failing_head ++ lit "stderr=bad thing")))
    by (vm_compute; reflexivity).
  split; [exact E|]. split; [reflexivity|].
  intros [head H]. rewrite E in H.
  assert (Hm : Samples.failing_head ++ lit "stderr=bad thing"
               = head ++ firstn 2000 Samples.failing_stderr) by congruence.
  clear H E. apply (f_equal (fun l => last l " "%char)) in Hm. cbv beta in Hm.
  change (firstn 2000 Samples.failing_stderr)
    with (lit "  bad thing" ++ [ascii_of_nat 10]) in Hm.
  rewrite app_assoc, last_last in Hm.
  vm_compute in Hm. discriminate Hm.
Qed.

(* ================================================================== *)
(** * More on the region codes                                          *)
(* ================================================================== *)

Lemma mem_filter (p : str -> bool) (x : str) (l : list str) :
  p x = true -> Py.mem x (filter p l) = Py.mem x l.
Proof.
  intros Hp. induction l as [|y l IH]; simpl; [reflexivity|].
  destruct (p y) eqn:Ey; simpl.
  - rewrite IH. reflexivity.
  - rewrite IH. destruct (Py.eqb x y) eqn:E; [|reflexivity].
    apply eqb_eq in E. subst y. congruence.
Qed.

Lemma set_add_filter (p : str -> bool) (x : str) (l : list str) :
  filter p (Py.set_add x l)
  = if p x then Py.set_add x (filter p l) else filter p l.
Proof.
  unfold Py.set_add. destruct (p x) eqn:Hp.
  - rewrite (mem_filter p x l Hp). destruct (Py.mem x l); [reflexivity|].
    rewrite filter_app. simpl. rewrite Hp. reflexivity.
  - destruct (Py.mem x l); [reflexivity|].
    rewrite filter_app. simpl. rewrite Hp. apply app_nil_r.
Qed.

(** One cell, read by the strict test on an accumulator that holds the
    two-letter part of what the lenient test has kept. *)
Lemma add_cell_strict (acc : list str * list str) (cell : str * option str) :
  Codes.add_cell Facts.abbr_ok (fst acc, filter Facts.abbr_ok (snd acc)) cell
  = (fst (Codes.add_cell Grid.abbr_ok acc cell),
     filter Facts.abbr_ok (snd (Codes.add_cell Grid.abbr_ok acc cell))).
Proof.
  destruct acc as [fips abbr]. unfold Codes.add_cell. cbn [fst snd].
  destruct (Py.strip (Py.or_empty (snd cell))) as [|c val]; [reflexivity|].
  cbn [fst snd]. f_equal.
  destruct (Py.mem (Codes._norm (fst cell)) Codes.abbr_columns); [|reflexivity].
  set (ab := Py.upper (filter Py.isalpha (c :: val))).
  destruct (Grid.abbr_ok ab) eqn:Eg.
  - rewrite set_add_filter. reflexivity.
  - destruct ab; [reflexivity | discriminate Eg].
Qed.

Lemma read_row_strict (r : Csv.row) (acc : list str * list str) :
  fold_left (Codes.add_cell Facts.abbr_ok) r
            (fst acc, filter Facts.abbr_ok (snd acc))
  = (fst (fold_left (Codes.add_cell Grid.abbr_ok) r acc),
     filter Facts.abbr_ok (snd (fold_left (Codes.add_cell Grid.abbr_ok) r acc))).
Proof.
  revert acc. induction r as [|cell r IHr]; intros acc; cbn [fold_left];
    [reflexivity|].
  rewrite add_cell_strict. apply IHr.
Qed.

Lemma read_rows_strict (rows : list Csv.row) :
  Codes.read_rows Facts.abbr_ok rows
  = (fst (Codes.read_rows Grid.abbr_ok rows),
     filter Facts.abbr_ok (snd (Codes.read_rows Grid.abbr_ok rows))).
Proof.
  unfold Codes.read_rows.
  change (@nil str, @nil str)
    with (fst (@nil str, @nil str), filter Facts.abbr_ok (snd (@nil str, @nil str))) at 1.
  generalize (@nil str, @nil str) as acc.
  induction rows as [|r rows IH]; intros acc; cbn [fold_left]; [reflexivity|].
  rewrite read_row_strict. apply IH.
Qed.

(** X1: on a codes table with a header, the reader of the facts builder
    keeps the FIPS codes the reader of the grid builder keeps, and of its
    abbreviations exactly those of two letters, in the same order; it then
    fails only when nothing is left. *)
Theorem headered_readers_agree (f : csv_file) (fips abbr : list str) :
  Grid._read_state_codes f = Ok (fips, abbr) ->
  Facts._read_state_codes true f
  = Codes.finish (fips, filter (fun ab => length ab =? 2) abbr).
Proof.
  unfold Grid._read_state_codes, Facts._read_state_codes.
  destruct (Csv.DictReader f) as [names rows]. cbn [snd].
  destruct (Csv.no_fieldnames names); [discriminate|].
  intros H. apply finish_Ok in H. rewrite read_rows_strict, <- H. reflexivity.
Qed.

Lemma headered_readers_agree_witness :
  Facts._read_state_codes true Samples.codes_long
  = Codes.finish ([lit "123"], filter (fun ab => length ab =? 2) [lit "CAL"]).
Proof.
  apply headered_readers_agree. vm_compute. reflexivity.
Defined.


(** How [_norm] treats letters and blanks. *)
Lemma lower_upper_char (c : ascii) :
  Py.lower_char (Py.upper_char c) = Py.lower_char c.
Proof.
  destruct c as [b0 b1 b2 b3 b4 b5 b6 b7].
  destruct b0, b1, b2, b3, b4, b5, b6, b7; reflexivity.
Qed.

Lemma isspace_upper_char (c : ascii) :
  Py.isspace (Py.upper_char c) = Py.isspace c.
Proof.
  destruct c as [b0 b1 b2 b3 b4 b5 b6 b7].
  destruct b0, b1, b2, b3, b4, b5, b6, b7; reflexivity.
Qed.

Lemma isspace_lower_char (c : ascii) :
  Py.isspace (Py.lower_char c) = Py.isspace c.
Proof.
  destruct c as [b0 b1 b2 b3 b4 b5 b6 b7].
  destruct b0, b1, b2, b3, b4, b5, b6, b7; reflexivity.
Qed.

Section StripMap.

(** A change of characters that keeps white space white and the rest not. *)
Variable f : ascii -> ascii.
Hypothesis f_space : forall c, Py.isspace (f c) = Py.isspace c.

Lemma lstrip_map (s : str) : Py.lstrip (map f s) = map f (Py.lstrip s).
Proof.
  induction s as [|c s IH]; simpl; [reflexivity|].
  rewrite f_space. destruct (Py.isspace c); [exact IH | reflexivity].
Qed.

Lemma strip_map (s : str) : Py.strip (map f s) = map f (Py.strip s).
Proof.
  unfold Py.strip, Py.rstrip.
  rewrite lstrip_map, <- map_rev, lstrip_map, map_rev. reflexivity.
Qed.

End StripMap.

Lemma lower_not_upper (c : ascii) : Py.isupper (Py.lower_char c) = false.
Proof.
  destruct c as [b0 b1 b2 b3 b4 b5 b6 b7].
  destruct b0, b1, b2, b3, b4, b5, b6, b7; reflexivity.
Qed.

Lemma lower_no_upper (s : str) :
  forallb (fun c => negb (Py.isupper c)) (Py.lower s) = true.
Proof.
  induction s as [|c s IH]; simpl; [reflexivity|].
  rewrite lower_not_upper, IH. reflexivity.
Qed.

Lemma forallb_filter_weaken (A : Type) (p q : A -> bool) (l : list A) :
  forallb p l = true -> forallb p (filter q l) = true.
Proof.
  induction l as [|a l IH]; simpl; [reflexivity|].
  intros H. apply andb_true_iff in H as [Ha Hl].
  destruct (q a); simpl; [rewrite Ha|]; auto.
Qed.

(** X3: the name of a column is matched without regard to the case of its
    letters: a name and its upper-case form have the same normal form, and
    a normal form holds no upper-case letter, no blank and no underscore. *)
Theorem norm_ignores_case (k : str) :
  Codes._norm (Py.upper k) = Codes._norm k
  /\ forallb (fun c => negb (Py.isupper c)) (Codes._norm k) = true
  /\ ~ In " "%char (Codes._norm k)
  /\ ~ In "_"%char (Codes._norm k).
Proof.
  unfold Codes._norm. repeat split.
  - unfold Py.upper at 1. rewrite (strip_map Py.upper_char isspace_upper_char).
    unfold Py.lower. rewrite map_map.
    rewrite (map_ext _ _ lower_upper_char). reflexivity.
  - do 2 apply forallb_filter_weaken. apply lower_no_upper.
  - intros H. apply filter_In in H as [H _]. apply filter_In in H as [_ H].
    discriminate H.
  - intros H. apply filter_In in H as [_ H]. discriminate H.
Qed.

(* ================================================================== *)
(** * Tile ids                                                          *)
(* ================================================================== *)

Lemma isdigit_cases (d : ascii) :
  Py.isdigit d = true -> In d Checks.digits.
Proof.
  destruct d as [b0 b1 b2 b3 b4 b5 b6 b7].
  destruct b0, b1, b2, b3, b4, b5, b6, b7; vm_compute; intro H;
    first [discriminate H | tauto].
Qed.

Lemma lower_digit (d : ascii) : Py.isdigit d = true -> Py.lower_char d = d.
Proof.
  destruct d as [b0 b1 b2 b3 b4 b5 b6 b7].
  destruct b0, b1, b2, b3, b4, b5, b6, b7; vm_compute; intro H;
    first [discriminate H | reflexivity].
Qed.

Lemma tile_at_Some (s m : str) :
  Facts.tile_at s = Some m ->
  exists c0 d1 d2 c3 d4 d5,
    m = [c0; d1; d2; c3; d4; d5]
    /\ In c0 (lit "hH") /\ In d1 Checks.digits /\ In d2 Checks.digits
    /\ In c3 (lit "vV") /\ In d4 Checks.digits /\ In d5 Checks.digits.
Proof.
  unfold Facts.tile_at.
  destruct s as [|c0 [|d1 [|d2 [|c3 [|d4 [|d5 s]]]]]]; try discriminate.
  destruct (_ && _) eqn:E; [|discriminate].
  intros H. inversion H. subst m. clear H.
  repeat (apply andb_true_iff in E as [E ?]).
  exists c0, d1, d2, c3, d4, d5. split; [reflexivity|].
  repeat split; try (apply isdigit_cases; assumption).
  - apply orb_true_iff in E as [E|E]; apply Ascii.eqb_eq in E; subst; simpl; tauto.
  - match goal with
    | H : (Ascii.eqb c3 _ || _) = true |- _ =>
        apply orb_true_iff in H as [H|H]; apply Ascii.eqb_eq in H; subst; simpl; tauto
    end.
Qed.

Lemma tile_search_cons (c : ascii) (s : str) :
  Facts.tile_search (c :: s)
  = match Facts.tile_at (c :: s) with
    | Some m => Some m
    | None => Facts.tile_search s
    end.
Proof. reflexivity. Qed.

Lemma tile_search_Some (s m : str) :
  Facts.tile_search s = Some m -> exists s', Facts.tile_at s' = Some m.
Proof.
  induction s as [|c s IH].
  - discriminate.
  - rewrite tile_search_cons.
    destruct (Facts.tile_at (c :: s)) as [m'|] eqn:E.
    + intros H. inversion H. subst. eauto.
    + exact IH.
Qed.

Lemma forallb_In (A : Type) (f : A -> bool) (l : list A) (x : A) :
  forallb f l = true -> In x l -> f x = true.
Proof. intros H. apply (proj1 (forallb_forall f l) H). Qed.

Lemma tokens_read_back :
  forallb (fun c0 =>
  forallb (fun d1 =>
  forallb (fun d2 =>
  forallb (fun c3 =>
  forallb (fun d4 =>
  forallb (fun d5 => Checks.token_reads_back [c0; d1; d2; c3; d4; d5])
    Checks.digits) Checks.digits) (lit "vV")) Checks.digits) Checks.digits)
    (lit "hH") = true.
Proof. vm_compute. reflexivity. Qed.

Lemma token_reads_back (s m : str) :
  Facts.tile_search s = Some m -> Checks.token_reads_back m = true.
Proof.
  intros H. apply tile_search_Some in H as [s' H].
  apply tile_at_Some in H as (c0 & d1 & d2 & c3 & d4 & d5 & -> & H0 & H1 & H2 & H3 & H4 & H5).
  exact (forallb_In _ _ _
           (forallb_In _ _ _
              (forallb_In _ _ _
                 (forallb_In _ _ _
                    (forallb_In _ _ _
                       (forallb_In _ _ _ tokens_read_back H0) H1) H2) H3) H4) H5).
Qed.

Lemma tile_search_nil : Facts.tile_search [] = None.
Proof. reflexivity. Qed.

(** X4: when a relative path holds a grid token, the tile id is the
    leftmost token in lower case, six characters long; [_parse_hv] reads
    both coordinates from it, each below 100, and the id the grid builder
    prints for these coordinates is the same tile id. *)
Theorem token_tile_id_round_trip (relative_path m : str) :
  Facts.tile_search (Py.strip relative_path) = Some m ->
  Facts._normalize_tile_id relative_path = Py.lower m
  /\ length (Py.lower m) = 6
  /\ exists hh vv : nat,
       hh < 100 /\ vv < 100
       /\ Facts._parse_hv (Py.lower m) = (Some (Z.of_nat hh), Some (Z.of_nat vv))
       /\ Grid.format_tile_id hh vv = Py.lower m.
Proof.
  intros H. split; [|split].
  - unfold Facts._normalize_tile_id.
    destruct (Py.strip relative_path) as [|c rel] eqn:Es.
    + rewrite tile_search_nil in H. discriminate H.
    + rewrite H. reflexivity.
  - apply tile_search_Some in H as [s' H].
    apply tile_at_Some in H as (c0 & d1 & d2 & c3 & d4 & d5 & -> & _).
    reflexivity.
  - apply token_reads_back in H. unfold Checks.token_reads_back in H.
    destruct (Facts._parse_hv (Py.lower m)) as [[hh|] [vv|]]; try discriminate H.
    repeat (apply andb_true_iff in H as [H ?]).
    apply Z.leb_le in H.
    repeat match goal with
           | E : (_ <? _)%Z = true |- _ => apply Z.ltb_lt in E
           | E : (_ <=? _)%Z = true |- _ => apply Z.leb_le in E
           | E : Py.eqb _ _ = true |- _ => apply eqb_eq in E
           end.
    exists (Z.to_nat hh), (Z.to_nat vv).
    rewrite !Z2Nat.id by assumption.
    repeat split; try lia; assumption.
Qed.

Lemma token_tile_id_round_trip_witness :
  Facts._normalize_tile_id (lit " MOD/A2020.H08V05.006.hdf ") = lit "h08v05"
  /\ length (lit "h08v05") = 6
  /\ exists hh vv : nat,
       hh < 100 /\ vv < 100
       /\ Facts._parse_hv (lit "h08v05") = (Some (Z.of_nat hh), Some (Z.of_nat vv))
       /\ Grid.format_tile_id hh vv = lit "h08v05".
Proof.
  exact (@token_tile_id_round_trip (lit " MOD/A2020.H08V05.006.hdf ")
           (lit "H08V05") eq_refl).
Defined.

Lemma grid_ids_read_back :
  forallb (fun hh => forallb (Checks.grid_id_reads_back hh) (seq 0 100))
          (seq 0 100) = true.
Proof. vm_compute. reflexivity. Qed.

(** X5: the tile id the grid builder prints for coordinates below 100 is
    left as it is by [_normalize_tile_id] of the facts builder, and
    [_parse_hv] reads the two coordinates back from it. *)
Theorem grid_tile_id_round_trip (hh vv : nat) :
  hh < 100 -> vv < 100 ->
  Facts._normalize_tile_id (Grid.format_tile_id hh vv) = Grid.format_tile_id hh vv
  /\ Facts._parse_hv (Grid.format_tile_id hh vv)
     = (Some (Z.of_nat hh), Some (Z.of_nat vv)).
Proof.
  intros Hh Hv.
  assert (Ih : In hh (seq 0 100)) by (apply in_seq; lia).
  assert (Iv : In vv (seq 0 100)) by (apply in_seq; lia).
  pose proof (forallb_In _ _ _ (forallb_In _ _ _ grid_ids_read_back Ih) Iv) as T.
  unfold Checks.grid_id_reads_back in T.
  apply andb_true_iff in T as [T1 T2]. apply eqb_eq in T1. split; [exact T1|].
  destruct (Facts._parse_hv (Grid.format_tile_id hh vv)) as [[a|] [b|]];
    try discriminate T2.
  apply andb_true_iff in T2 as [Ta Tb].
  apply Z.eqb_eq in Ta, Tb. subst. reflexivity.
Qed.

Lemma grid_tile_id_round_trip_witness :
  Facts._normalize_tile_id (Grid.format_tile_id 35 17) = Grid.format_tile_id 35 17
  /\ Facts._parse_hv (Grid.format_tile_id 35 17) = (Some 35%Z, Some 17%Z).
Proof. apply (@grid_tile_id_round_trip 35 17); lia. Defined.

(** ** Stripping twice *)

Lemma lstrip_fix (s : str) :
  match s with [] => True | c :: _ => Py.isspace c = false end ->
  Py.lstrip s = s.
Proof. destruct s as [|c s]; simpl; [reflexivity|]. intros ->. reflexivity. Qed.

Lemma lstrip_head (s : str) :
  match Py.lstrip s with [] => True | c :: _ => Py.isspace c = false end.
Proof.
  induction s as [|c s IH]; simpl; [exact I|].
  destruct (Py.isspace c) eqn:E; [exact IH | exact E].
Qed.

Lemma lstrip_idem (s : str) : Py.lstrip (Py.lstrip s) = Py.lstrip s.
Proof. apply lstrip_fix, lstrip_head. Qed.

Lemma lstrip_snoc (l : str) (c : ascii) :
  Py.isspace c = false -> Py.lstrip (l ++ [c]) = Py.lstrip l ++ [c].
Proof.
  intros Hc. induction l as [|a l IH]; simpl.
  - rewrite Hc. reflexivity.
  - destruct (Py.isspace a); [exact IH | reflexivity].
Qed.

Lemma rstrip_cons (c : ascii) (s : str) :
  Py.isspace c = false -> Py.rstrip (c :: s) = c :: Py.rstrip s.
Proof.
  intros Hc. unfold Py.rstrip. simpl rev.
  rewrite (@lstrip_snoc _ _ Hc), rev_app_distr. reflexivity.
Qed.

Lemma rstrip_idem (s : str) : Py.rstrip (Py.rstrip s) = Py.rstrip s.
Proof. unfold Py.rstrip. rewrite rev_involutive, lstrip_idem. reflexivity. Qed.

Lemma strip_idem (s : str) : Py.strip (Py.strip s) = Py.strip s.
Proof.
  unfold Py.strip. pose proof (lstrip_head s) as Hh.
  destruct (Py.lstrip s) as [|c t]; [reflexivity|].
  rewrite (@rstrip_cons _ _ Hh). rewrite (lstrip_fix (c :: Py.rstrip t) Hh).
  rewrite (@rstrip_cons _ _ Hh), rstrip_idem. reflexivity.
Qed.

Lemma lower_lower_char (c : ascii) :
  Py.lower_char (Py.lower_char c) = Py.lower_char c.
Proof.
  destruct c as [b0 b1 b2 b3 b4 b5 b6 b7].
  destruct b0, b1, b2, b3, b4, b5, b6, b7; reflexivity.
Qed.

Lemma lower_idem (s : str) : Py.lower (Py.lower s) = Py.lower s.
Proof.
  unfold Py.lower. rewrite map_map. apply map_ext. exact lower_lower_char.
Qed.

Lemma strip_lower (s : str) : Py.strip (Py.lower s) = Py.lower (Py.strip s).
Proof. apply (strip_map Py.lower_char isspace_lower_char). Qed.

Lemma token_stripped (s m : str) :
  Facts.tile_at s = Some m -> Py.strip (Py.lower m) = Py.lower m.
Proof.
  intros H.
  apply tile_at_Some in H as (c0 & d1 & d2 & c3 & d4 & d5 & -> & H0 & _ & _ & _ & _ & H5).
  simpl in H0. unfold Checks.digits in H5. simpl in H5.
  destruct H0 as [<-|[<-|[]]];
    repeat (destruct H5 as [<-|H5]; [reflexivity|]); contradiction.
Qed.

(** A tile id is in lower case and carries no white space around it. *)
Lemma normalize_tile_id_normal (relative_path : str) :
  Py.lower (Facts._normalize_tile_id relative_path)
    = Facts._normalize_tile_id relative_path
  /\ Py.strip (Facts._normalize_tile_id relative_path)
    = Facts._normalize_tile_id relative_path.
Proof.
  unfold Facts._normalize_tile_id.
  destruct (Py.strip relative_path) as [|c rel]; [split; reflexivity|].
  destruct (Facts.tile_search (c :: rel)) as [m|] eqn:Et.
  - split; [apply lower_idem|].
    apply tile_search_Some in Et as [s' Et]. exact (token_stripped _ Et).
  - split; [apply lower_idem|].
    rewrite strip_lower, strip_idem. reflexivity.
Qed.

Lemma parse_hv_both (tile_id : str) :
  fst (Facts._parse_hv tile_id) = None <-> snd (Facts._parse_hv tile_id) = None.
Proof.
  unfold Facts._parse_hv. destruct (Facts.tile_search tile_id) as [m|]; [|tauto].
  destruct (Facts.int_of_digits (Facts.slice 1 3 (Py.lower m))),
           (Facts.int_of_digits (Facts.slice 4 6 (Py.lower m))); simpl;
    split; congruence.
Qed.

Section FootprintShape.

Variable float_of_str : str -> option float.

Lemma parse_bounds_ordered (text : str) (minx miny maxx maxy : float) :
  Facts._parse_bounds float_of_str text = Some (minx, miny, maxx, maxy) ->
  PrimFloat.ltb minx maxx = true /\ PrimFloat.ltb miny maxy = true.
Proof.
  unfold Facts._parse_bounds.
  destruct (Py.strip text); [discriminate|].
  destruct (map Py.strip _) as [|q0 [|q1 [|q2 [|q3 [|q4 qs]]]]]; try discriminate.
  destruct (float_of_str q0), (float_of_str q1), (float_of_str q2),
           (float_of_str q3); try discriminate.
  destruct (PrimFloat.ltb _ _ && PrimFloat.ltb _ _) eqn:E; [|discriminate].
  intros H. inversion H. subst. apply andb_true_iff in E. exact E.
Qed.

Lemma candidate_well_formed (row : Csv.row) (fp : Facts.footprint) :
  Facts.candidate float_of_str row = Some fp -> well_formed fp.
Proof.
  unfold Facts.candidate.
  destruct (Py.strip (Csv.get_or_empty (lit "relative_path") row)) as [|c rel] eqn:Er;
    [discriminate|].
  destruct (Facts._parse_bounds float_of_str (Csv.get_or_empty (lit "bounds") row))
    as [[[[minx miny] maxx] maxy]|] eqn:Eb; [|discriminate].
  destruct (Py.strip (Csv.get_or_empty (lit "crs") row)) as [|c' crs] eqn:Ec;
    [discriminate|].
  destruct (Facts._normalize_tile_id (c :: rel)) as [|c'' tile] eqn:Et;
    [discriminate|].
  destruct (Facts._parse_hv (c'' :: tile)) as [hh vv] eqn:Eh.
  assert (Hcrs : Py.strip (c' :: crs) = c' :: crs)
    by (rewrite <- Ec; apply strip_idem).
  destruct (normalize_tile_id_normal (c :: rel)) as [Hl Hs].
  rewrite Et in Hl, Hs.
  destruct (parse_bounds_ordered _ Eb) as [Hx Hy].
  pose proof (parse_hv_both (c'' :: tile)) as Hb. rewrite Eh in Hb.
  cbn [fst snd] in Hb. symmetry in Eh.
  intros H. inversion H. subst fp. clear H. unfold well_formed.
  cbn [Facts.fp_tile_id Facts.fp_h Facts.fp_v Facts.fp_crs
       Facts.fp_minx Facts.fp_miny Facts.fp_maxx Facts.fp_maxy].
  repeat split; try assumption; try discriminate; apply Hb; assumption.
Qed.

End FootprintShape.

(** X6: every footprint the reader returns is well formed: its tile id is
    non-empty, in lower case and without white space around it; its CRS
    string is non-empty and stripped; [maxx > minx] and [maxy > miny]; its
    grid coordinates are those [_parse_hv] reads from the tile id, both
    present or both absent. *)
Theorem footprints_well_formed (float_of_str : str -> option float)
    (f : csv_file) (fps : list Facts.footprint) :
  Facts._read_raster_footprints_from_facts float_of_str f = Ok fps ->
  fps <> [] /\ Forall well_formed fps.
Proof.
  intros H. split.
  - unfold Facts._read_raster_footprints_from_facts in H.
    destruct (Csv.DictReader f) as [names rows].
    destruct (Csv.no_fieldnames names); [discriminate|].
    destruct (Py.values _); [discriminate|]. inversion H. discriminate.
  - apply reader_Ok in H. subst fps. apply Forall_forall. intros fp Hfp.
    apply by_tile_values in Hfp as (pre & row & post & _ & Hc & _).
    exact (candidate_well_formed _ _ Hc).
Qed.

Lemma footprints_well_formed_witness :
  exists fps,
    Facts._read_raster_footprints_from_facts Boxes.float_of_str Samples.facts = Ok fps
    /\ fps <> [] /\ Forall well_formed fps.
Proof.
  destruct (Facts._read_raster_footprints_from_facts Boxes.float_of_str Samples.facts)
    as [fps|e] eqn:E.
  - exists fps. split; [reflexivity|].
    exact (footprints_well_formed Boxes.float_of_str Samples.facts E).
  - exfalso. vm_compute in E. discriminate E.
Defined.

Section Duplicates.

Variable float_of_str : str -> option float.

Lemma step_known (d : Py.dict Facts.footprint) (row : Csv.row) :
  (forall k fp, In (k, fp) d -> k = Facts.fp_tile_id fp) ->
  match Facts.candidate float_of_str row with
  | None => True
  | Some fp => In (Facts.fp_tile_id fp) (map Facts.fp_tile_id (Py.values d))
  end ->
  Facts.footprint_step float_of_str d row = d.
Proof.
  intros Hkeys H. unfold Facts.footprint_step.
  destruct (Facts.candidate float_of_str row) as [fp|]; [|reflexivity].
  destruct (Py.dict_get (Facts.fp_tile_id fp) d) eqn:Eg; [reflexivity|].
  exfalso. apply dict_get_None in Eg. apply Eg.
  unfold Py.values in H. rewrite map_map in H.
  apply in_map_iff in H as [[k fp'] [E Hin]]. simpl in E.
  apply in_map_iff. exists (k, fp'). split; [|exact Hin].
  simpl. rewrite <- E. apply (Hkeys _ _ Hin).
Qed.

Lemma fold_known (rows : list Csv.row) (d : Py.dict Facts.footprint) :
  (forall k fp, In (k, fp) d -> k = Facts.fp_tile_id fp) ->
  (forall row, In row rows ->
     match Facts.candidate float_of_str row with
     | None => True
     | Some fp => In (Facts.fp_tile_id fp) (map Facts.fp_tile_id (Py.values d))
     end) ->
  fold_left (Facts.footprint_step float_of_str) rows d = d.
Proof.
  intros Hkeys. induction rows as [|row rows IH]; intros H; simpl; [reflexivity|].
  rewrite (step_known d row Hkeys) by (apply H; left; reflexivity).
  apply IH. intros r Hr. apply H. right. exact Hr.
Qed.

End Duplicates.

(** X7: rows added at the end of the metadata table change nothing when
    each of them is skipped by the guards or names a tile that already has
    a footprint: the reader returns the same footprints. *)
Theorem later_duplicates_ignored (float_of_str : str -> option float)
    (names : list str) (records extra : list (list str))
    (fps : list Facts.footprint) :
  Facts._read_raster_footprints_from_facts float_of_str (names :: records) = Ok fps ->
  (forall row, In row (snd (Csv.DictReader (names :: extra))) ->
     match Facts.candidate float_of_str row with
     | None => True
     | Some fp => In (Facts.fp_tile_id fp) (map Facts.fp_tile_id fps)
     end) ->
  Facts._read_raster_footprints_from_facts float_of_str (names :: records ++ extra)
  = Ok fps.
Proof.
  intros H Hextra. pose proof (reader_Ok _ _ H) as Hfps.
  unfold Facts._read_raster_footprints_from_facts in *.
  cbn [Csv.DictReader fst snd] in *.
  destruct (Csv.no_fieldnames (Some names)); [discriminate|].
  rewrite filter_app, map_app, fold_left_app.
  rewrite fold_known.
  - exact H.
  - exact (bt_keys (by_tile_fold_inv float_of_str _)).
  - rewrite <- Hfps. exact Hextra.
Qed.

Lemma later_duplicates_ignored_witness :
  Facts._read_raster_footprints_from_facts Boxes.float_of_str
    ([lit "relative_path"; lit "bounds"; lit "crs"]
       :: [[lit "a/h08v05.tif"; lit "10,10,20,20"; lit "EPSG:1"]]
       ++ [[lit "a/H08V05.b2.tif"; lit "0,0,99,99"; lit "EPSG:2"];
           [lit "a/h09v05.tif"; lit "no bounds"; lit "EPSG:1"]])
  = Ok [Samples.footprint_h08v05].
Proof.
  apply later_duplicates_ignored.
  - vm_compute. reflexivity.
  - intros row Hrow. vm_compute in Hrow.
    destruct Hrow as [<-|[<-|[]]]; vm_compute; [left; reflexivity | exact I].
Defined.

(* ================================================================== *)
(** * More on the resolver                                              *)
(* ================================================================== *)

(** X8: the selection keeps, in the order of the boundary source, exactly
    the features whose padded [STATEFP] is a requested FIPS code or whose
    upper-cased [STUSPS] is a requested abbreviation, a code counting only
    when its column exists; there is no mask at all exactly when, for each
    of the two kinds of code, the column is absent or nothing is
    requested. *)
Theorem selection_keeps_requested (G : Geo.engine) (gdf : Geo.geodataframe G)
    (fips abbr : list str) :
  (Geo.selection_mask gdf fips abbr = None
   <-> (Geo.has_statefp gdf = false \/ fips = [])
       /\ (Geo.has_stusps gdf = false \/ abbr = []))
  /\ forall mask,
       Geo.selection_mask gdf fips abbr = Some mask ->
       Geo.loc mask (Geo.features gdf)
       = filter (region_selected gdf fips abbr) (Geo.features gdf).
Proof.
  split; [|intros mask; apply selection_mask_loc].
  unfold Geo.selection_mask.
  destruct (Geo.has_statefp gdf), (Geo.has_stusps gdf), fips as [|x fips],
           abbr as [|y abbr]; simpl; split;
    try discriminate; try tauto;
    intros [[H|H] [H'|H']]; discriminate.
Qed.

(** ** A branch the facts builder never takes *)

Lemma codes_reader_raises (has_header : bool) (f : csv_file) (e : exn) :
  Facts._read_state_codes has_header f = Raise e -> exists msg, e = ValueError msg.
Proof.
  unfold Facts._read_state_codes, Codes.finish.
  destruct (if has_header then _ else _) as [[|x fips] [|y abbr]]; intros H;
    inversion H. eexists; reflexivity.
Qed.

Lemma footprints_reader_raises float_of_str (f : csv_file) (e : exn) :
  Facts._read_raster_footprints_from_facts float_of_str f = Raise e ->
  exists msg, e = ValueError msg.
Proof.
  unfold Facts._read_raster_footprints_from_facts.
  destruct (Csv.DictReader f) as [names rows].
  destruct (Csv.no_fieldnames names).
  - intros H. inversion H. eexists; reflexivity.
  - destruct (Py.values _); intros H; inversion H. eexists; reflexivity.
Qed.

Lemma missing_nil_In (requested known : list str) (x : str) :
  Facts.missing requested known = [] -> In x requested -> In x known.
Proof.
  intros Hm Hx. destruct (Py.mem x known) eqn:E; [apply mem_In; exact E|].
  exfalso. assert (Hin : In x (Facts.missing requested known)).
  { apply missing_In. split; [exact Hx|]. rewrite <- mem_In, E. discriminate. }
  rewrite Hm in Hin. exact Hin.
Qed.

(** When every requested code of a kind is in its column, and at least one
    kind applies, some feature is selected. *)
Lemma all_known_selects (G : Geo.engine) (gdf : Geo.geodataframe G)
    (fips abbr : list str) (mask : list bool) :
  (Geo.has_statefp gdf && Py.nonempty fips = true ->
   Facts.missing fips (Geo.fips_column gdf) = []) ->
  (Geo.has_stusps gdf && Py.nonempty abbr = true ->
   Facts.missing abbr (Geo.abbr_column gdf) = []) ->
  Geo.selection_mask gdf fips abbr = Some mask ->
  Geo.loc mask (Geo.features gdf) <> [].
Proof.
  intros Hf Ha Hm. rewrite (selection_mask_loc _ _ _ Hm).
  assert (Hex : exists r, In r (Geo.features gdf)
                          /\ region_selected gdf fips abbr r = true).
  { unfold Geo.selection_mask in Hm.
    destruct (Geo.has_statefp gdf && Py.nonempty fips) eqn:E1.
    - specialize (Hf eq_refl). apply andb_true_iff in E1 as [Es En].
      destruct fips as [|x fips]; [discriminate En|].
      assert (Hx : In x (Geo.fips_column gdf))
        by (apply (missing_nil_In _ _ x Hf); left; reflexivity).
      unfold Geo.fips_column in Hx. apply in_map_iff in Hx as [r [Er Hr]].
      exists r. split; [exact Hr|]. unfold region_selected.
      rewrite Es, Er. simpl. rewrite eqb_refl. reflexivity.
    - destruct (Geo.has_stusps gdf && Py.nonempty abbr) eqn:E2; [|discriminate Hm].
      specialize (Ha eq_refl). apply andb_true_iff in E2 as [Es En].
      destruct abbr as [|x abbr]; [discriminate En|].
      assert (Hx : In x (Geo.abbr_column gdf))
        by (apply (missing_nil_In _ _ x Ha); left; reflexivity).
      unfold Geo.abbr_column in Hx. apply in_map_iff in Hx as [r [Er Hr]].
      exists r. split; [exact Hr|]. unfold region_selected.
      rewrite Es, Er. simpl. rewrite eqb_refl. apply orb_true_r. }
  destruct Hex as (r & Hr & Hsel). intros E.
  assert (Hin : In r (filter (region_selected gdf fips abbr) (Geo.features gdf)))
    by (apply filter_In; auto).
  rewrite E in Hin. exact Hin.
Qed.

(** X9: the facts-derived builder never fails with "no states matched
    states.of.interest.csv": its check of the requested codes against the
    columns comes first, and once that check passes some feature is
    selected. *)
Theorem facts_never_no_states_matched float_of_str (G : Geo.engine)
    has_header states_csv state_shapefile (gdf : Geo.geodataframe G)
    raster_facts_csv output_csv touch_buffer_m :
  fst (Facts.build_tiles_of_interest float_of_str has_header states_csv
         state_shapefile gdf raster_facts_csv output_csv touch_buffer_m)
  <> Raise (RuntimeError (lit "no states matched states.of.interest.csv")).
Proof.
  pose proof (run_facts float_of_str has_header states_csv state_shapefile gdf
                raster_facts_csv output_csv touch_buffer_m) as Hrun.
  destruct (Facts.joined_rows float_of_str has_header states_csv state_shapefile
              gdf raster_facts_csv touch_buffer_m) as [joined|e] eqn:Ej.
  - rewrite (run_of_output Hrun). discriminate.
  - rewrite (run_of_raise Hrun). cbn [fst]. intros Habs. inversion Habs. subst e.
    clear Hrun Habs. revert Ej. unfold Facts.joined_rows.
    destruct (Facts._read_state_codes has_header states_csv)
      as [[fips abbr]|e] eqn:Ec.
    2:{ intros H. inversion H. subst e.
        apply codes_reader_raises in Ec as [msg Ec]. discriminate Ec. }
    destruct (Facts._read_raster_footprints_from_facts float_of_str raster_facts_csv)
      as [fps|e] eqn:Ef.
    2:{ intros H. inversion H. subst e.
        apply footprints_reader_raises in Ef as [msg Ef]. discriminate Ef. }
    destruct (negb (Py.nonempty (Geo.features gdf)));
      [intros H; vm_compute in H; discriminate H|].
    destruct (negb (Geo.has_statefp gdf) && negb (Geo.has_stusps gdf));
      [intros H; vm_compute in H; discriminate H|].
    cbv zeta.
    set (mf := if Geo.has_statefp gdf && Py.nonempty fips
               then Facts.missing fips (Geo.fips_column gdf) else []).
    set (ma := if Geo.has_stusps gdf && Py.nonempty abbr
               then Facts.missing abbr (Geo.abbr_column gdf) else []).
    destruct (Py.nonempty mf || Py.nonempty ma) eqn:Em.
    { intros H; inversion H as [Hmsg]; vm_compute in Hmsg; discriminate Hmsg. }
    apply orb_false_iff in Em as [Emf Ema].
    apply nonempty_false in Emf, Ema.
    destruct (Geo.selection_mask gdf fips abbr) as [mask|] eqn:Emask;
      [|intros H; vm_compute in H; discriminate H].
    assert (Hsel : Geo.loc mask (Geo.features gdf) <> []).
    { apply (all_known_selects gdf fips abbr); [| |exact Emask].
      - intros E. unfold mf in Emf. rewrite E in Emf. exact Emf.
      - intros E. unfold ma in Ema. rewrite E in Ema. exact Ema. }
    apply nonempty_true in Hsel. rewrite Hsel. simpl negb. cbv iota.
    destruct (Geo.crs gdf) as [src|]; [|intros H; vm_compute in H; discriminate H].
    destruct (fold_left _ (Facts.group_by_crs fps) []) as [|p1 [|p2 parts]];
      [intros H; vm_compute in H; discriminate H | discriminate | discriminate].
Qed.

(** ** Grouping the footprints by CRS *)

Lemma group_add_get (k k' : str) (fp : Facts.footprint)
    (d : Py.dict (list Facts.footprint)) :
  Py.dict_get k' (Facts.group_add k fp d)
  = if Py.eqb k' k
    then Some (match Py.dict_get k d with Some l => l ++ [fp] | None => [fp] end)
    else Py.dict_get k' d.
Proof.
  induction d as [|[k0 l0] d IH]; simpl.
  - destruct (Py.eqb k' k) eqn:E; [reflexivity|].
    reflexivity.
  - destruct (Py.eqb k k0) eqn:E0; simpl.
    + apply eqb_eq in E0. subst k0. destruct (Py.eqb k' k); reflexivity.
    + destruct (Py.eqb k' k0) eqn:E1.
      * apply eqb_eq in E1. subst k0.
        destruct (Py.eqb k' k) eqn:E2; [|reflexivity].
        apply eqb_eq in E2. subst. rewrite eqb_refl in E0. discriminate.
      * exact IH.
Qed.

Lemma group_add_keys (k : str) (fp : Facts.footprint)
    (d : Py.dict (list Facts.footprint)) :
  map fst (Facts.group_add k fp d)
  = if Py.mem k (map fst d) then map fst d else map fst d ++ [k].
Proof.
  induction d as [|[k0 l0] d IH]; simpl; [reflexivity|].
  destruct (Py.eqb k k0) eqn:E; simpl; [reflexivity|].
  rewrite IH. unfold Py.mem. destruct (existsb (Py.eqb k) (map fst d)); reflexivity.
Qed.

Lemma group_by_crs_snoc (fps : list Facts.footprint) (fp : Facts.footprint) :
  Facts.group_by_crs (fps ++ [fp])
  = Facts.group_add (Facts.fp_crs fp) fp (Facts.group_by_crs fps).
Proof. unfold Facts.group_by_crs. rewrite fold_left_app. reflexivity. Qed.

Lemma group_by_crs_get (fps : list Facts.footprint) (k : str) :
  Py.dict_get k (Facts.group_by_crs fps)
  = match filter (in_crs k) fps with [] => None | l => Some l end.
Proof.
  induction fps as [|fp fps IH] using rev_ind; [reflexivity|].
  rewrite group_by_crs_snoc, group_add_get, filter_app. simpl.
  unfold in_crs at 2. destruct (Py.eqb k (Facts.fp_crs fp)) eqn:E.
  - apply eqb_eq in E. subst k. rewrite eqb_refl, IH.
    destruct (filter (in_crs (Facts.fp_crs fp)) fps); reflexivity.
  - assert (E' : Py.eqb (Facts.fp_crs fp) k = false).
    { apply eqb_neq. apply eqb_neq in E. congruence. }
    rewrite E', app_nil_r. exact IH.
Qed.

Lemma group_by_crs_nodup (fps : list Facts.footprint) :
  NoDup (map fst (Facts.group_by_crs fps)).
Proof.
  induction fps as [|fp fps IH] using rev_ind; [constructor|].
  rewrite group_by_crs_snoc, group_add_keys.
  destruct (Py.mem (Facts.fp_crs fp) (map fst (Facts.group_by_crs fps))) eqn:E;
    [exact IH|].
  apply Permutation_NoDup with (l := Facts.fp_crs fp :: map fst (Facts.group_by_crs fps)).
  - apply Permutation_cons_append.
  - constructor; [|exact IH]. rewrite <- mem_In, E. discriminate.
Qed.

(** X10: the footprints are split by CRS string without loss: the keys of
    the groups are pairwise different, and a group stands under a key
    exactly when it is the non-empty list of all footprints of that CRS, in
    their order in the reader's result. *)
Theorem groups_partition_footprints (fps : list Facts.footprint) :
  NoDup (map fst (Facts.group_by_crs fps))
  /\ forall k group,
       In (k, group) (Facts.group_by_crs fps)
       <-> group <> []
           /\ group = filter (fun fp => Py.eqb (Facts.fp_crs fp) k) fps.
Proof.
  split; [apply group_by_crs_nodup|]. intros k group.
  rewrite <- (@dict_get_In _ k group _ (group_by_crs_nodup fps)),
          group_by_crs_get.
  change (filter (fun fp => Py.eqb (Facts.fp_crs fp) k) fps)
    with (filter (in_crs k) fps).
  destruct (filter (in_crs k) fps) as [|fp l]; split.
  - discriminate.
  - intros [Hne ->]. elim Hne. reflexivity.
  - intros H. inversion H. split; [discriminate | reflexivity].
  - intros [_ ->]. reflexivity.
Qed.

(** ** Nothing matched is lost, and the order of the join does not matter *)

Section OutputMore.

Variables (J : Type) (normalize : J -> IO.out_row).

Lemma dedup_complete (joined : list J) (j : J) :
  In j joined -> IO.tile_id (normalize j) <> [] ->
  exists r, In r (Output.dedup normalize joined)
            /\ Output.key r = Output.key (normalize j).
Proof.
  intros Hj Hne.
  pose proof (inv_all (dedup_fold_inv normalize joined) j Hj Hne) as H.
  apply in_map_iff in H as [r [Hk Hr]]. exists r. split; assumption.
Qed.

Lemma dedup_step_length acc (j : J) :
  length (snd (Output.dedup_step normalize acc j)) <= S (length (snd acc)).
Proof.
  destruct acc as [seen rows]. unfold Output.dedup_step.
  destruct (IO.tile_id (normalize j)); simpl; [lia|].
  destruct (existsb _ seen); simpl; [lia|]. rewrite length_app. simpl. lia.
Qed.

Lemma dedup_length (joined : list J) :
  length (Output.dedup normalize joined) <= length joined.
Proof.
  unfold Output.dedup.
  assert (H : forall acc,
            length (snd (fold_left (Output.dedup_step normalize) joined acc))
            <= length (snd acc) + length joined).
  { induction joined as [|j joined IH]; intros acc; simpl; [lia|].
    specialize (IH (Output.dedup_step normalize acc j)).
    pose proof (dedup_step_length acc j). lia. }
  apply (H ([], [])).
Qed.

(** Without two records of one key, the loop keeps every record that has a
    tile id. *)
Lemma dedup_step_eq (seen : list (str * str)) (rows : list IO.out_row) (j : J) :
  Output.dedup_step normalize (seen, rows) j
  = match IO.tile_id (normalize j) with
    | [] => (seen, rows)
    | _ =>
        if existsb (Output.key_eqb (Output.key (normalize j))) seen
        then (seen, rows)
        else (seen ++ [Output.key (normalize j)], rows ++ [normalize j])
    end.
Proof. reflexivity. Qed.

Lemma dedup_fold_distinct (joined : list J) (rows : list IO.out_row) :
  NoDup (map Output.key (rows ++ filter has_tile (map normalize joined))) ->
  snd (fold_left (Output.dedup_step normalize) joined (map Output.key rows, rows))
  = rows ++ filter has_tile (map normalize joined).
Proof.
  revert rows. induction joined as [|j joined IH]; intros rows Hnd;
    cbn [fold_left map filter] in *.
  - rewrite app_nil_r. reflexivity.
  - rewrite dedup_step_eq.
    assert (Eh : has_tile (normalize j) = Py.nonempty (IO.tile_id (normalize j)))
      by reflexivity.
    rewrite Eh in Hnd |- *. clear Eh.
    destruct (IO.tile_id (normalize j)) as [|c t] eqn:Et;
      cbn [Py.nonempty] in Hnd |- *.
    + apply IH. exact Hnd.
    + destruct (existsb (Output.key_eqb (Output.key (normalize j)))
                        (map Output.key rows)) eqn:Es.
      * exfalso. apply seen_In in Es.
        rewrite map_app in Hnd. cbn [map] in Hnd.
        apply NoDup_remove_2 in Hnd. apply Hnd.
        apply in_or_app. left. exact Es.
      * replace (map Output.key rows ++ [Output.key (normalize j)])
          with (map Output.key (rows ++ [normalize j]))
          by (rewrite map_app; reflexivity).
        rewrite IH; rewrite <- app_assoc; [reflexivity | exact Hnd].
Qed.

Lemma dedup_distinct (joined : list J) :
  NoDup (map Output.key (filter has_tile (map normalize joined))) ->
  Output.dedup normalize joined = filter has_tile (map normalize joined).
Proof.
  intros H. unfold Output.dedup. apply (dedup_fold_distinct joined []). exact H.
Qed.

End OutputMore.

Lemma Permutation_filter_keep (A : Type) (p : A -> bool) (l l' : list A) :
  Permutation l l' -> Permutation (filter p l) (filter p l').
Proof.
  induction 1 as [|x l l' _ IH|x y l|l l' l'' _ IH1 _ IH2]; simpl.
  - constructor.
  - destruct (p x); [constructor|]; exact IH.
  - destruct (p x), (p y); try reflexivity. apply perm_swap.
  - etransitivity; eassumption.
Qed.

Lemma tuple_leb_antisym (a b : str * str) :
  Output.tuple_leb a b = true -> Output.tuple_leb b a = true -> a = b.
Proof.
  unfold Output.tuple_leb. destruct a as [a1 a2], b as [b1 b2]. cbn [fst snd].
  destruct (Py.eqb a1 b1) eqn:E.
  - apply eqb_eq in E. subst b1. rewrite eqb_refl. intros H1 H2.
    f_equal. apply leb_antisym; assumption.
  - assert (E' : Py.eqb b1 a1 = false).
    { apply eqb_neq. apply eqb_neq in E. congruence. }
    rewrite E'. intros H1 H2. apply eqb_neq in E. elim E.
    apply leb_antisym; assumption.
Qed.

(** Two sorted lists with the same elements are one list, when the order
    separates the elements. *)
Lemma sorted_perm_eq (A : Type) (le : A -> A -> Prop) (l1 l2 : list A) :
  StronglySorted le l1 -> StronglySorted le l2 -> Permutation l1 l2 ->
  (forall a b, In a l1 -> In b l1 -> le a b -> le b a -> a = b) ->
  NoDup l1 ->
  l1 = l2.
Proof.
  intros H1. revert l2. induction H1 as [|a l1 Hs IH Ha]; intros l2 H2 Hp Hanti Hnd.
  - apply Permutation_nil in Hp. subst. reflexivity.
  - destruct l2 as [|b l2].
    + apply Permutation_sym, Permutation_nil in Hp. discriminate.
    + inversion H2 as [|? ? Hs2 Hb]; subst.
      assert (Hab : a = b).
      { assert (Hin_a : In a (b :: l2))
          by (apply (Permutation_in _ Hp); left; reflexivity).
        assert (Hin_b : In b (a :: l1))
          by (apply (Permutation_in _ (Permutation_sym Hp)); left; reflexivity).
        destruct Hin_a as [->|Hal2]; [reflexivity|].
        destruct Hin_b as [->|Hbl1]; [reflexivity|].
        rewrite Forall_forall in Ha, Hb.
        apply Hanti; [left; reflexivity | right; assumption | auto | auto]. }
      subst b. f_equal. apply IH.
      * exact Hs2.
      * apply Permutation_cons_inv in Hp. exact Hp.
      * intros x y Hx Hy. apply Hanti; right; assumption.
      * inversion Hnd. assumption.
Qed.

Lemma NoDup_map_eq (A B : Type) (f : A -> B) (l : list A) (a b : A) :
  NoDup (map f l) -> In a l -> In b l -> f a = f b -> a = b.
Proof.
  induction l as [|x l IH]; simpl; intros Hnd Ha Hb E; [contradiction|].
  inversion Hnd as [|? ? Hx Hnd']; subst.
  destruct Ha as [->|Ha], Hb as [->|Hb].
  - reflexivity.
  - elim Hx. rewrite E. apply in_map. exact Hb.
  - elim Hx. rewrite <- E. apply in_map. exact Ha.
  - apply IH; assumption.
Qed.

(** X11: no match is lost and none is invented: for every joined row with
    a tile id, a row with its key is written, and the table has at most as
    many rows as the join result. *)
Theorem output_rows_complete m p (H : Type)
    (n : Geo.attrs * Geo.tile H -> IO.out_row)
    (joined : list (Geo.attrs * Geo.tile H)) :
  run_of m p n (Ok joined) ->
  exists rows,
    m = (Ok (length rows), [IO.MkdirParent p; IO.WriteCsv p Output.fieldnames rows])
    /\ (forall j, In j joined -> IO.tile_id (n j) <> [] ->
          exists r, In r rows /\ Output.key r = Output.key (n j))
    /\ length rows <= length joined.
Proof.
  intros Hrun. exists (Output.sort_rows (Output.dedup n joined)).
  split; [apply run_of_output, Hrun|].
  pose proof (sort_perm Output.row_leb (Output.dedup n joined)) as Hp.
  split.
  - intros j Hj Hne. destruct (dedup_complete n joined j Hj Hne) as (r & Hr & Hk).
    exists r. split; [apply (Permutation_in _ Hp); exact Hr | exact Hk].
  - unfold Output.sort_rows. rewrite <- (Permutation_length Hp). apply dedup_length.
Qed.

Lemma output_rows_complete_witness :
  exists rows,
    Samples.run_06
    = (Ok (length rows),
       [IO.MkdirParent (lit "out/tiles.csv");
        IO.WriteCsv (lit "out/tiles.csv") Output.fieldnames rows])
    /\ (forall j, In j Samples.joined_06 -> IO.tile_id (Facts.normalize j) <> [] ->
          exists r, In r rows /\ Output.key r = Output.key (Facts.normalize j))
    /\ length rows <= length Samples.joined_06.
Proof. exact (output_rows_complete sample_run_06). Defined.

(** X12: when no two joined rows with a tile id have the same key, the
    output stage gives the same result, table and count, on every
    reordering of the join result. *)
Theorem output_ignores_join_order m p (H : Type)
    (n : Geo.attrs * Geo.tile H -> IO.out_row)
    (joined joined' : list (Geo.attrs * Geo.tile H)) :
  run_of m p n (Ok joined) ->
  Permutation joined joined' ->
  NoDup (map Output.key (filter has_tile (map n joined))) ->
  Output.write n joined' p = m.
Proof.
  intros Hrun Hp Hnd. rewrite (run_of_output Hrun).
  pose proof (run_of_statefp Hrun) as Hfp.
  set (rows := filter has_tile (map n joined)) in *.
  set (rows' := filter has_tile (map n joined')).
  assert (Hpr : Permutation rows rows')
    by (apply Permutation_filter_keep, Permutation_map, Hp).
  assert (Hnd' : NoDup (map Output.key rows'))
    by (eapply Permutation_NoDup; [apply Permutation_map, Hpr | exact Hnd]).
  assert (Hkey : forall r, In r rows -> Output.key r = Output.sort_key r).
  { intros r Hr. apply filter_In in Hr as [Hr _].
    apply in_map_iff in Hr as [j [<- _]]. unfold Output.key, Output.sort_key.
    pose proof (zfill_length 2 (Py.or_empty (Geo.STATEFP (fst j)))) as Hl.
    rewrite <- Hfp in Hl.
    destruct (IO.statefp (n j)); [cbn [length] in Hl; lia | reflexivity]. }
  assert (E : Output.sort_rows rows' = Output.sort_rows rows).
  { symmetry. apply (@sorted_perm_eq _ row_le).
    - apply sort_rows_sorted.
    - apply sort_rows_sorted.
    - etransitivity; [symmetry; apply sort_perm|].
      etransitivity; [exact Hpr | apply sort_perm].
    - intros a b Ha Hb Hab Hba.
      assert (Ha' : In a rows)
        by (apply (Permutation_in _ (Permutation_sym (sort_perm Output.row_leb rows))); exact Ha).
      assert (Hb' : In b rows)
        by (apply (Permutation_in _ (Permutation_sym (sort_perm Output.row_leb rows))); exact Hb).
      apply (NoDup_map_eq Output.key rows a b Hnd Ha' Hb').
      rewrite (Hkey a Ha'), (Hkey b Hb').
      apply tuple_leb_antisym; assumption.
    - apply (Permutation_NoDup (sort_perm Output.row_leb rows)).
      apply (NoDup_map_inv Output.key). exact Hnd. }
  unfold Output.write.
  rewrite (dedup_distinct n joined' Hnd'), (dedup_distinct n joined Hnd).
  fold rows rows'. rewrite E. reflexivity.
Qed.

Lemma output_ignores_join_order_witness :
  Output.write Facts.normalize (rev Samples.joined_06) (lit "out/tiles.csv")
  = Samples.run_06.
Proof.
  apply (output_ignores_join_order sample_run_06).
  - apply Permutation_rev.
  - vm_compute. repeat constructor; simpl; intuition discriminate.
Defined.

(* ================================================================== *)
(** * The command-line layer                                            *)
(* ================================================================== *)

Lemma find_first (A : Type) (p : A -> bool) (l : list A) (x : A) :
  find p l = Some x ->
  p x = true
  /\ exists pre post, l = pre ++ x :: post /\ forall y, In y pre -> p y = false.
Proof.
  induction l as [|a l IH]; simpl; [discriminate|].
  destruct (p a) eqn:E.
  - intros H. inversion H. subst a. split; [exact E|].
    exists [], l. split; [reflexivity | intros y []].
  - intros H. destruct (IH H) as (Hx & pre & post & -> & Hpre).
    split; [exact Hx|]. exists (a :: pre), post. split; [reflexivity|].
    intros y [<-|Hy]; auto.
Qed.

Lemma find_None (A : Type) (p : A -> bool) (l : list A) :
  find p l = None <-> forall y, In y l -> p y = false.
Proof.
  split; [apply find_none|].
  induction l as [|a l IH]; simpl; [reflexivity|]. intros H.
  rewrite (H a) by (left; reflexivity). apply IH. intros y Hy. apply H. right. exact Hy.
Qed.

Lemma national_state_named (p : str) :
  Cli.national p = true -> Cli.state_named p = true.
Proof.
  unfold Cli.national, Cli.state_named. intros H.
  apply andb_true_iff in H as [H _]. exact H.
Qed.

(** X13: among the shapefiles found, [_find_state_shp] returns the first
    one whose lower-cased name holds both "state" and "_us_", even when a
    file that only holds "state" comes before it; without such a file it
    returns the first one whose name holds "state"; it raises
    [FileNotFoundError] exactly when no name holds "state". *)
Theorem find_state_shp_prefers_national (candidates : list str) (extract_dir : str) :
  (forall p,
     Cli._find_state_shp candidates extract_dir = Ok p ->
     Cli.state_named p = true
     /\ exists pre post,
          candidates = pre ++ p :: post
          /\ (forall q, In q pre -> Cli.national q = false)
          /\ (Cli.national p = false ->
              (forall q, In q candidates -> Cli.national q = false)
              /\ forall q, In q pre -> Cli.state_named q = false))
  /\ ((exists e, Cli._find_state_shp candidates extract_dir = Raise e)
      <-> forall q, In q candidates -> Cli.state_named q = false)
  /\ forall e, Cli._find_state_shp candidates extract_dir = Raise e ->
               e = FileNotFoundError
                     (lit "could not find state shapefile under " ++ extract_dir).
Proof.
  unfold Cli._find_state_shp. split; [|split].
  - intros p. destruct (find Cli.national candidates) as [q|] eqn:En.
    + intros H. inversion H. subst q.
      destruct (find_first _ _ En) as (Hp & pre & post & E & Hpre).
      split; [apply national_state_named, Hp|].
      exists pre, post. split; [exact E|]. split; [exact Hpre|].
      intros Hn. congruence.
    + destruct (find Cli.state_named candidates) as [q|] eqn:Es; [|discriminate].
      intros H. inversion H. subst q.
      destruct (find_first _ _ Es) as (Hp & pre & post & E & Hpre).
      split; [exact Hp|]. exists pre, post. split; [exact E|].
      pose proof (proj1 (find_None _ _) En) as Hnone.
      split; [|intros _; split; [exact Hnone | exact Hpre]].
      intros q Hq. apply Hnone. rewrite E. apply in_or_app. left. exact Hq.
  - destruct (find Cli.national candidates) as [q|] eqn:En.
    + split; [intros [e H]; discriminate H|]. intros H. exfalso.
      destruct (find_first _ _ En) as (Hp & pre & post & E & _).
      apply national_state_named in Hp.
      rewrite (H q) in Hp; [discriminate Hp|].
      rewrite E. apply in_or_app. right. left. reflexivity.
    + destruct (find Cli.state_named candidates) as [q|] eqn:Es.
      * split; [intros [e H]; discriminate H|]. intros H. exfalso.
        destruct (find_first _ _ Es) as (Hp & pre & post & E & _).
        rewrite (H q) in Hp; [discriminate Hp|].
        rewrite E. apply in_or_app. right. left. reflexivity.
      * split; [intros _; apply find_None, Es | intros _; eexists; reflexivity].
  - intros e. destruct (find Cli.national candidates); [discriminate|].
    destruct (find Cli.state_named candidates); [discriminate|].
    intros H. inversion H. reflexivity.
Qed.

Example find_state_shp_example :
  Cli._find_state_shp
    [lit "/d/a/estates.shp"; lit "/d/b/tl_2020_US_State.shp"; lit "/d/c/roads.shp"]
    (lit "/d")
  = Ok (lit "/d/b/tl_2020_US_State.shp").
Proof. reflexivity. Qed.

(** ** The two [main]s *)

Lemma build_outcome m p (H : Type) (n : Geo.attrs * Geo.tile H -> IO.out_row) jr :
  run_of m p n jr ->
  (exists e, m = (Raise e, []))
  \/ exists rows,
       m = (Ok (length rows), [IO.MkdirParent p; IO.WriteCsv p Output.fieldnames rows]).
Proof.
  intros Hrun. destruct jr as [joined|e].
  - right. eexists. apply (run_of_output Hrun).
  - left. exists e. apply (run_of_raise Hrun).
Qed.

Lemma then_zero (m : IO.M nat) (p : str) :
  (exists e, m = (Raise e, []))
  \/ (exists rows,
        m = (Ok (length rows), [IO.MkdirParent p; IO.WriteCsv p Output.fieldnames rows])) ->
  (exists e, (m ;;; IO.ret 0%Z) = (Raise e, []))
  \/ exists rows,
       (m ;;; IO.ret 0%Z)
       = (Ok 0%Z, [IO.MkdirParent p; IO.WriteCsv p Output.fieldnames rows]).
Proof.
  intros [[e ->]|[rows ->]].
  - left. exists e. reflexivity.
  - right. exists rows. reflexivity.
Qed.

(** X14: each [main] either returns 0, having created the directory of the
    resolved output path and written one table there, or raises, and then
    it has written nothing. *)
Theorem main_writes_all_or_nothing (G : Geo.engine) (w : Cli.files G)
    (a : Cli.args) float_of_str raster_facts_csv touch_buffer_m :
  let out := Cli.resolve w (Cli.a_output_csv a) in
  let outcome (m : IO.M Z) :=
    (exists e, m = (Raise e, []))
    \/ exists rows,
         m = (Ok 0%Z, [IO.MkdirParent out; IO.WriteCsv out Output.fieldnames rows]) in
  outcome (Cli.grid_main w a)
  /\ outcome (Cli.facts_main w float_of_str a raster_facts_csv touch_buffer_m).
Proof.
  cbv zeta. split.
  - unfold Cli.grid_main.
    destruct (negb (Cli.exists_ w (Cli.resolve w (Cli.a_states_csv a))));
      [left; eexists; reflexivity|].
    destruct (Cli.state_shapefile w a) as [shp|e];
      [|left; exists e; reflexivity].
    cbn [IO.lift IO.bind app].
    match goal with
    | |- context [Grid.build_tiles_of_interest ?c ?s ?g ?o] =>
        pose proof (build_outcome (run_grid c s g o)) as Hb
    end.
    apply then_zero in Hb.
    destruct Hb as [[e Hb]|[rows Hb]]; [left; exists e | right; exists rows];
      unfold IO.bind in Hb |- *;
      destruct (Grid.build_tiles_of_interest _ _ _ _) as [[n|e'] evs];
      cbn in Hb |- *; inversion Hb; subst; reflexivity.
  - unfold Cli.facts_main.
    destruct (negb (Cli.exists_ w (Cli.resolve w (Cli.a_states_csv a))));
      [left; eexists; reflexivity|].
    destruct (negb (Cli.exists_ w (Cli.resolve w raster_facts_csv)));
      [left; eexists; reflexivity|].
    destruct (Cli.state_shapefile w a) as [shp|e];
      [|left; exists e; reflexivity].
    cbn [IO.lift IO.bind app].
    match goal with
    | |- context [Facts.build_tiles_of_interest ?f ?h ?c ?s ?g ?r ?o ?t] =>
        pose proof (build_outcome (run_facts f h c s g r o t)) as Hb
    end.
    apply then_zero in Hb.
    destruct Hb as [[e Hb]|[rows Hb]]; [left; exists e | right; exists rows];
      unfold IO.bind in Hb |- *;
      destruct (Facts.build_tiles_of_interest _ _ _ _ _ _ _ _) as [[n|e'] evs];
      cbn in Hb |- *; inversion Hb; subst; reflexivity.
Qed.

(** X15: when [--state-shp] is given and not blank, neither [main] looks
    at [--extract-dir] nor searches for shapefiles: another directory and
    other shapefiles give the same run. *)
Theorem explicit_shapefile_wins (G : Geo.engine) (w : Cli.files G)
    (a : Cli.args) (dir : str) (listing : str -> list str)
    float_of_str raster_facts_csv touch_buffer_m :
  Py.strip (Cli.a_state_shp a) <> [] ->
  Cli.grid_main (with_shapefiles w listing) (with_extract_dir a dir)
  = Cli.grid_main w a
  /\ Cli.facts_main (with_shapefiles w listing) float_of_str
       (with_extract_dir a dir) raster_facts_csv touch_buffer_m
     = Cli.facts_main w float_of_str a raster_facts_csv touch_buffer_m.
Proof.
  intros Hshp.
  assert (E : Cli.state_shapefile (with_shapefiles w listing) (with_extract_dir a dir)
              = Cli.state_shapefile w a).
  { unfold Cli.state_shapefile. cbn [with_extract_dir with_shapefiles
      Cli.a_state_shp Cli.a_extract_dir Cli.resolve Cli.exists_ Cli.shapefiles].
    destruct (Py.strip (Cli.a_state_shp a)); [elim Hshp; reflexivity | reflexivity]. }
  unfold Cli.grid_main, Cli.facts_main. rewrite E. split; reflexivity.
Qed.

Lemma explicit_shapefile_wins_witness :
  Cli.grid_main
    (with_shapefiles CliSamples.files (fun _ => [lit "/elsewhere/state.shp"]))
    (with_extract_dir CliSamples.args (lit "/elsewhere"))
  = Cli.grid_main CliSamples.files CliSamples.args.
Proof.
  refine (proj1 (@explicit_shapefile_wins Boxes.engine CliSamples.files CliSamples.args
                   (lit "/elsewhere") (fun _ => [lit "/elsewhere/state.shp"])
                   Boxes.float_of_str [] 1%float _)).
  vm_compute. discriminate.
Defined.

(* ================================================================== *)
(** * The readers of the tiles table                                    *)
(* ================================================================== *)

Lemma tile_of_normal (s : str) :
  Py.lower (Py.strip s) <> [] -> normal (Py.lower (Py.strip s)).
Proof.
  intros H. split; [exact H|]. split.
  - apply lower_idem.
  - rewrite strip_lower, strip_idem. reflexivity.
Qed.

Lemma tiles_fold (rows done : list Csv.row) (acc : list str * list str) :
  (forall t, In t (fst acc) <-> In t (snd acc)) ->
  NoDup (snd acc) ->
  (forall t, In t (snd acc)
             <-> t <> [] /\ exists row, In row done /\ Tiles.tile_of row = t) ->
  NoDup (snd (fold_left Tiles.step rows acc))
  /\ forall t, In t (snd (fold_left Tiles.step rows acc))
               <-> t <> [] /\ exists row, In row (done ++ rows) /\ Tiles.tile_of row = t.
Proof.
  revert done acc. induction rows as [|row rows IH]; intros done acc Hs Hn Hf.
  - rewrite app_nil_r. split; assumption.
  - cbn [fold_left].
    replace (done ++ row :: rows) with ((done ++ [row]) ++ rows)
      by (rewrite <- app_assoc; reflexivity).
    destruct acc as [seen ordered]. cbn [fst snd] in Hs, Hn, Hf.
    unfold Tiles.step.
    destruct (Py.nonempty (Tiles.tile_of row)) eqn:En; cbn [negb orb].
    + destruct (Py.mem (Tiles.tile_of row) seen) eqn:Em.
      * apply mem_In in Em. apply Hs in Em.
        apply IH; cbn [fst snd]; try assumption.
        intros t. rewrite Hf. split.
        -- intros (Ht & r & Hr & E). split; [exact Ht|]. exists r.
           split; [apply in_or_app; left|]; assumption.
        -- intros (Ht & r & Hr & E). apply in_app_or in Hr as [Hr|[<-|[]]].
           ++ split; [exact Ht|]. exists r. split; assumption.
           ++ subst t. apply Hf. exact Em.
      * assert (Hnot : ~ In (Tiles.tile_of row) ordered).
        { intros Hin. apply Hs in Hin. apply mem_In in Hin. congruence. }
        apply IH; cbn [fst snd].
        -- intros t. rewrite set_add_In, in_app_iff, Hs. simpl. intuition.
        -- apply NoDup_app; [assumption | repeat constructor; intros [] | ].
           intros x Hx [<-|[]]. exact (Hnot Hx).
        -- intros t. rewrite in_app_iff, Hf. split.
           ++ intros [(Ht & r & Hr & E)|[<-|[]]].
              ** split; [exact Ht|]. exists r.
                 split; [apply in_or_app; left|]; assumption.
              ** split; [apply nonempty_true; exact En|]. exists row.
                 split; [apply in_or_app; right; left|]; reflexivity.
           ++ intros (Ht & r & Hr & E). apply in_app_or in Hr as [Hr|[<-|[]]].
              ** left. split; [exact Ht|]. exists r. split; assumption.
              ** right. left. exact E.
    + apply IH; cbn [fst snd]; try assumption.
      intros t. rewrite Hf. split.
      * intros (Ht & r & Hr & E). split; [exact Ht|]. exists r.
        split; [apply in_or_app; left|]; assumption.
      * intros (Ht & r & Hr & E). apply in_app_or in Hr as [Hr|[<-|[]]].
        -- split; [exact Ht|]. exists r. split; assumption.
        -- exfalso. subst t. destruct (Tiles.tile_of row); [apply Ht; reflexivity|].
           discriminate En.
Qed.

Lemma collect_spec (rows : list Csv.row) :
  NoDup (Tiles.collect rows)
  /\ forall t, In t (Tiles.collect rows)
               <-> t <> [] /\ exists row, In row rows /\ Tiles.tile_of row = t.
Proof.
  unfold Tiles.collect.
  apply (@tiles_fold rows [] ([], [])); cbn [fst snd].
  - tauto.
  - constructor.
  - intros t. split; [intros [] | intros (_ & r & [] & _)].
Qed.

Lemma collect_normal (rows : list Csv.row) : Forall normal (Tiles.collect rows).
Proof.
  apply Forall_forall. intros t Ht.
  apply collect_spec in Ht as (Hne & r & _ & <-).
  apply tile_of_normal. exact Hne.
Qed.

(** The two copies of the reader differ in their messages only. *)
Lemma readers_agree (path : str) (e : bool) (f : csv_file) (tiles : list str) :
  Polygons._read_tiles_of_interest path e f = Ok tiles
  <-> Keys._read_tiles_of_interest path e f = Ok tiles.
Proof.
  unfold Polygons._read_tiles_of_interest, Keys._read_tiles_of_interest.
  destruct e; cbn [negb]; [|split; discriminate].
  destruct (Csv.DictReader f) as [names rows].
  destruct (Csv.no_fieldnames names); cbn [orb]; [split; discriminate|].
  destruct (Tiles.has_column (lit "tile_id") names); cbn [negb];
    [|split; discriminate].
  destruct (Tiles.collect rows); [split; discriminate | tauto].
Qed.

Lemma reader_Ok_collect (path : str) (e : bool) (f : csv_file) (tiles : list str) :
  Polygons._read_tiles_of_interest path e f = Ok tiles ->
  e = true
  /\ Tiles.has_column (lit "tile_id") (fst (Csv.DictReader f)) = true
  /\ tiles = Tiles.collect (snd (Csv.DictReader f))
  /\ tiles <> [].
Proof.
  unfold Polygons._read_tiles_of_interest.
  destruct e; cbn [negb]; [|discriminate].
  destruct (Csv.DictReader f) as [names rows]. cbn [fst snd].
  destruct (Csv.no_fieldnames names); cbn [orb]; [discriminate|].
  destruct (Tiles.has_column (lit "tile_id") names); cbn [negb]; [|discriminate].
  destruct (Tiles.collect rows) eqn:E; [discriminate|].
  intros H. inversion H. subst. repeat split; try reflexivity. discriminate.
Qed.

(** X16: what both copies of [_read_tiles_of_interest] return: they succeed
    on the same inputs with the same list, which is never empty, names no
    tile id twice, and holds exactly the non-empty values of the [tile_id]
    cells, stripped and in lower case. *)
Theorem tiles_read_once (path : str) (e : bool) (f : csv_file) (tiles : list str) :
  Polygons._read_tiles_of_interest path e f = Ok tiles
  \/ Keys._read_tiles_of_interest path e f = Ok tiles ->
  Polygons._read_tiles_of_interest path e f = Ok tiles
  /\ Keys._read_tiles_of_interest path e f = Ok tiles
  /\ tiles <> []
  /\ NoDup tiles
  /\ Forall normal tiles
  /\ forall t, In t tiles
               <-> t <> [] /\ exists row, In row (snd (Csv.DictReader f))
                                          /\ Tiles.tile_of row = t.
Proof.
  intros H.
  assert (Hp : Polygons._read_tiles_of_interest path e f = Ok tiles).
  { destruct H as [H|H]; [exact H | apply readers_agree; exact H]. }
  split; [exact Hp|]. split; [apply readers_agree; exact Hp|].
  apply reader_Ok_collect in Hp as (_ & _ & -> & Hne).
  split; [exact Hne|]. split; [apply collect_spec|].
  split; [apply collect_normal | apply collect_spec].
Qed.

Lemma tiles_read_once_witness :
  Polygons._read_tiles_of_interest (lit "tiles.csv") true TileSamples.tiles_csv
    = Ok [lit "h08v05"; lit "h09v05"]
  /\ Keys._read_tiles_of_interest (lit "tiles.csv") true TileSamples.tiles_csv
    = Ok [lit "h08v05"; lit "h09v05"]
  /\ [lit "h08v05"; lit "h09v05"] <> []
  /\ NoDup [lit "h08v05"; lit "h09v05"]
  /\ Forall normal [lit "h08v05"; lit "h09v05"]
  /\ forall t, In t [lit "h08v05"; lit "h09v05"]
               <-> t <> [] /\ exists row,
                     In row (snd (Csv.DictReader TileSamples.tiles_csv))
                     /\ Tiles.tile_of row = t.
Proof.
  apply (@tiles_read_once (lit "tiles.csv") true TileSamples.tiles_csv).
  left. vm_compute. reflexivity.
Defined.

(** ** Reading back what the output stage wrote *)

Lemma tile_of_record (r : IO.out_row) :
  Tiles.tile_of (Csv.zip_row Output.fieldnames (Table.record r) [])
  = Py.lower (Py.strip (IO.tile_id r)).
Proof. reflexivity. Qed.

Lemma records_rows (rows : list IO.out_row) :
  Csv.DictReader (Table.records Output.fieldnames rows)
  = (Some Output.fieldnames,
     map (fun r => Csv.zip_row Output.fieldnames (Table.record r) []) rows).
Proof.
  unfold Table.records, Csv.DictReader.
  assert (E : filter (@Py.nonempty str) (map Table.record rows)
              = map Table.record rows).
  { induction rows as [|r rows IH]; simpl; [reflexivity|]. rewrite IH. reflexivity. }
  rewrite E, map_map. reflexivity.
Qed.

Lemma read_ids_In (rows : list IO.out_row) (t : str) :
  In t (read_ids rows)
  <-> t <> [] /\ exists row,
        In row (map (fun r => Csv.zip_row Output.fieldnames (Table.record r) []) rows)
        /\ Tiles.tile_of row = t.
Proof.
  unfold read_ids. rewrite filter_In, in_map_iff, nonempty_true. split.
  - intros [(r & E & Hr) Ht]. split; [exact Ht|].
    exists (Csv.zip_row Output.fieldnames (Table.record r) []).
    split; [apply in_map_iff; exists r; split; [reflexivity | exact Hr]|].
    rewrite tile_of_record. exact E.
  - intros (Ht & row & Hrow & E). apply in_map_iff in Hrow as (r & <- & Hr).
    rewrite tile_of_record in E. split; [|exact Ht]. exists r. split; assumption.
Qed.

Lemma collect_records (rows : list IO.out_row) :
  NoDup (Tiles.collect (snd (Csv.DictReader (Table.records Output.fieldnames rows))))
  /\ forall t,
       In t (Tiles.collect (snd (Csv.DictReader (Table.records Output.fieldnames rows))))
       <-> In t (read_ids rows).
Proof.
  rewrite records_rows. cbn [snd]. split; [apply collect_spec|].
  intros t. rewrite read_ids_In. apply collect_spec.
Qed.

Lemma nil_iff_no_member (A : Type) (l l' : list A) :
  (forall x, In x l <-> In x l') -> (l = [] <-> l' = []).
Proof.
  intros H. split; intros ->.
  - destruct l' as [|x l']; [reflexivity|]. destruct (proj2 (H x) (or_introl eq_refl)).
  - destruct l as [|x l]; [reflexivity|]. destruct (proj1 (H x) (or_introl eq_refl)).
Qed.

Lemma read_back (rows : list IO.out_row) (path : str) :
  read_ids rows <> [] ->
  exists tiles,
    Polygons._read_tiles_of_interest path true
      (Table.records Output.fieldnames rows) = Ok tiles
    /\ Keys._read_tiles_of_interest path true
         (Table.records Output.fieldnames rows) = Ok tiles
    /\ NoDup tiles
    /\ forall t, In t tiles <-> In t (read_ids rows).
Proof.
  intros Hne. destruct (collect_records rows) as [Hnd Hin].
  assert (Hc : Tiles.collect
                 (snd (Csv.DictReader (Table.records Output.fieldnames rows))) <> []).
  { intros E. apply Hne. apply (@nil_iff_no_member _ _ _ Hin). exact E. }
  exists (Tiles.collect (snd (Csv.DictReader (Table.records Output.fieldnames rows)))).
  assert (Hp : Polygons._read_tiles_of_interest path true
                 (Table.records Output.fieldnames rows)
               = Ok (Tiles.collect
                       (snd (Csv.DictReader (Table.records Output.fieldnames rows))))).
  { unfold Polygons._read_tiles_of_interest. cbn [negb].
    rewrite records_rows in *. cbn [snd] in *.
    change (Csv.no_fieldnames (Some Output.fieldnames)) with false.
    change (Tiles.has_column (lit "tile_id") (Some Output.fieldnames)) with true.
    cbn [orb negb].
    destruct (Tiles.collect _); [congruence | reflexivity]. }
  split; [exact Hp|]. split; [apply readers_agree; exact Hp|].
  split; assumption.
Qed.

(** X17: reading back a table the output stage wrote.  Whatever its rows,
    the header passes the column check of both readers; they return, each
    once, the non-empty tile ids of the rows, stripped and in lower case,
    and raise their own [ValueError] exactly when there is none. *)
Theorem written_table_read_back (rows : list IO.out_row) (path : str) :
  let f := Table.records Output.fieldnames rows in
  (read_ids rows = [] ->
   Polygons._read_tiles_of_interest path true f
     = Raise (ValueError (lit "no tile_id rows found in tiles.of.interest.csv"))
   /\ Keys._read_tiles_of_interest path true f
     = Raise (ValueError
                (lit "tiles.of.interest.csv did not contain any tile_id values")))
  /\ (read_ids rows <> [] ->
      exists tiles,
        Polygons._read_tiles_of_interest path true f = Ok tiles
        /\ Keys._read_tiles_of_interest path true f = Ok tiles
        /\ NoDup tiles
        /\ forall t, In t tiles <-> In t (read_ids rows)).
Proof.
  cbv zeta. split; [|apply read_back].
  intros He. destruct (collect_records rows) as [_ Hin].
  apply nil_iff_no_member in Hin. apply Hin in He.
  unfold Polygons._read_tiles_of_interest, Keys._read_tiles_of_interest.
  cbn [negb]. rewrite records_rows in *. cbn [snd] in He.
  change (Csv.no_fieldnames (Some Output.fieldnames)) with false.
  change (Tiles.has_column (lit "tile_id") (Some Output.fieldnames)) with true.
  cbn [orb negb]. rewrite He. split; reflexivity.
Qed.

(** ** The tile ids the builders write *)

Lemma iter_modis_tiles_bounds (h v : nat) (b : float * float * float * float) :
  In (h, v, b) Grid._iter_modis_tiles -> h < 100 /\ v < 100.
Proof.
  unfold Grid._iter_modis_tiles. intros H.
  apply in_flat_map in H as (h' & Hh & H).
  apply in_map_iff in H as (v' & E & Hv).
  assert (Eh : h' = h) by congruence. assert (Ev : v' = v) by congruence.
  subst h' v'. apply in_seq in Hh, Hv.
  unfold Grid.MODIS_H_MAX in Hh. unfold Grid.MODIS_V_MAX in Hv. lia.
Qed.

Lemma format_tile_id_normal (h v : nat) :
  h < 100 -> v < 100 -> normal (Grid.format_tile_id h v).
Proof.
  intros Hh Hv.
  assert (Hc : Checks.grid_id_reads_back h v = true).
  { refine (forallb_In _ _ v (forallb_In _ _ h grid_ids_read_back _) _);
      apply in_seq; lia. }
  unfold Checks.grid_id_reads_back in Hc.
  apply andb_true_iff in Hc as [Hc _]. apply eqb_eq in Hc.
  destruct (normalize_tile_id_normal (Grid.format_tile_id h v)) as [Hl Hs].
  rewrite Hc in Hl, Hs. split; [|split; assumption].
  unfold Grid.format_tile_id. change (lit "h") with ["h"%char].
  cbn [app]. discriminate.
Qed.

Lemma grid_tiles_normal (G : Geo.engine) (t : Geo.tile Z) :
  In t (map fst (Grid.tiles G)) -> normal (Geo.t_tile_id t).
Proof.
  unfold Grid.tiles. rewrite map_map. intros H.
  apply in_map_iff in H as ([[h v] [[[minx miny] maxx] maxy]] & E & Hin).
  cbn [fst] in E. subst t. cbn [Geo.t_tile_id].
  apply iter_modis_tiles_bounds in Hin as [Hh Hv].
  apply format_tile_id_normal; assumption.
Qed.

Lemma group_members (fps : list Facts.footprint) (k : str)
    (g : list Facts.footprint) (fp : Facts.footprint) :
  In (k, g) (Facts.group_by_crs fps) -> In fp g -> In fp fps.
Proof.
  intros Hg Hfp.
  apply (dict_get_In _ _ _ (group_by_crs_nodup fps)) in Hg.
  rewrite group_by_crs_get in Hg.
  destruct (filter (in_crs k) fps) as [|x l] eqn:E; [discriminate|].
  inversion Hg; subst g. rewrite <- E in Hfp. apply filter_In in Hfp. tauto.
Qed.

Lemma reader_well_formed (float_of_str : str -> option float) (f : csv_file)
    (fps : list Facts.footprint) (fp : Facts.footprint) :
  Facts._read_raster_footprints_from_facts float_of_str f = Ok fps ->
  In fp fps -> well_formed fp.
Proof.
  intros H Hfp. apply reader_Ok in H. subst fps.
  apply by_tile_values in Hfp as (pre & row & post & _ & Hc & _).
  exact (candidate_well_formed _ _ Hc).
Qed.

Lemma well_formed_normal (fp : Facts.footprint) :
  well_formed fp -> normal (Facts.fp_tile_id fp).
Proof. intros (H1 & H2 & H3 & _). repeat split; assumption. Qed.

Section FromFootprints.

Variable G : Geo.engine.
Hypothesis honest : join_from_inputs G.

Lemma join_group_from (gdf : Geo.geodataframe G) (touch_buffer_m : float)
    (src_crs : str) (selected : list (Geo.attrs * option (Geo.geom G)))
    (fps : list Facts.footprint) parts (group : str * list Facts.footprint) :
  (forall fp, In fp (snd group) -> In fp fps) ->
  parts_from fps parts ->
  parts_from fps (Facts.join_group gdf touch_buffer_m src_crs selected parts group).
Proof.
  intros Hg Hp. unfold Facts.join_group.
  destruct (Facts.sjoin_inputs gdf touch_buffer_m src_crs (fst group) (snd group)
              selected) as [[regions tdf]|] eqn:Ei; [|exact Hp].
  assert (Et : tdf = Facts.tile_rows G (snd group)).
  { unfold Facts.sjoin_inputs in Ei.
    destruct (negb (Py.nonempty (Facts.repaired G src_crs (fst group) selected)));
      [discriminate|].
    inversion Ei. reflexivity. }
  destruct (Py.nonempty (Geo.sjoin G regions tdf)) eqn:En; [|exact Hp].
  intros part Hpart. apply in_app_or in Hpart as [Hpart|[<-|[]]]; [exact (Hp _ Hpart)|].
  split; [apply nonempty_true; exact En|].
  intros [l t] Hj. apply honest in Hj. subst tdf. unfold Facts.tile_rows in Hj.
  rewrite map_map in Hj. apply in_map_iff in Hj as (fp & E & Hfp).
  exists fp. split; [apply Hg; exact Hfp|]. cbn [snd fst] in *. subst t. reflexivity.
Qed.

Lemma join_groups_from (gdf : Geo.geodataframe G) (touch_buffer_m : float)
    (src_crs : str) (selected : list (Geo.attrs * option (Geo.geom G)))
    (fps : list Facts.footprint) (groups : list (str * list Facts.footprint)) parts :
  (forall group fp, In group groups -> In fp (snd group) -> In fp fps) ->
  parts_from fps parts ->
  parts_from fps
    (fold_left (Facts.join_group gdf touch_buffer_m src_crs selected) groups parts).
Proof.
  revert parts. induction groups as [|group groups IH]; intros parts Hg Hp;
    cbn [fold_left]; [exact Hp|].
  apply IH.
  - intros g fp Hin. apply Hg. right. exact Hin.
  - apply join_group_from; [|exact Hp]. intros fp. apply Hg. left. reflexivity.
Qed.

End FromFootprints.

Lemma grid_joined_normal (G : Geo.engine) states_csv state_shapefile
    (gdf : Geo.geodataframe G) joined :
  join_from_inputs G ->
  Grid.joined_rows states_csv state_shapefile gdf = Ok joined ->
  joined <> []
  /\ forall j, In j joined -> normal (IO.tile_id (Grid.normalize j)).
Proof.
  intros honest H. unfold Grid.joined_rows in H.
  destruct (Grid._read_state_codes states_csv) as [[fips abbr]|]; [|discriminate].
  destruct (negb (Py.nonempty (Geo.features gdf))); [discriminate|].
  destruct (negb (Geo.has_statefp gdf) && negb (Geo.has_stusps gdf)); [discriminate|].
  destruct (Geo.selection_mask gdf fips abbr) as [mask|]; [|discriminate].
  destruct (negb (Py.nonempty (Geo.loc mask (Geo.features gdf)))); [discriminate|].
  destruct (Geo.crs gdf) as [src_crs|]; [|discriminate].
  cbv zeta in H.
  match type of H with
  | (if negb (Py.nonempty ?l) then _ else _) = _ =>
      destruct (Py.nonempty l) eqn:En; [|discriminate]
  end.
  cbn [negb] in H. inversion H; subst joined. split; [apply nonempty_true; exact En|].
  intros [l t] Hj. apply honest in Hj. cbn [Grid.normalize IO.tile_id snd].
  eapply grid_tiles_normal. exact Hj.
Qed.

Lemma facts_joined_normal float_of_str (G : Geo.engine) has_header states_csv
    state_shapefile (gdf : Geo.geodataframe G) raster_facts_csv touch_buffer_m
    joined :
  join_from_inputs G ->
  Facts.joined_rows float_of_str has_header states_csv state_shapefile gdf
    raster_facts_csv touch_buffer_m = Ok joined ->
  joined <> []
  /\ forall j, In j joined -> normal (IO.tile_id (Facts.normalize j)).
Proof.
  intros honest H. unfold Facts.joined_rows in H.
  destruct (Facts._read_state_codes has_header states_csv) as [[fips abbr]|];
    [|discriminate].
  destruct (Facts._read_raster_footprints_from_facts float_of_str raster_facts_csv)
    as [fps|] eqn:Er; [|discriminate].
  destruct (negb (Py.nonempty (Geo.features gdf))); [discriminate|].
  destruct (negb (Geo.has_statefp gdf) && negb (Geo.has_stusps gdf)); [discriminate|].
  cbv zeta in H.
  match type of H with
  | (if ?c then _ else _) = _ => destruct c; [discriminate|]
  end.
  destruct (Geo.selection_mask gdf fips abbr) as [mask|]; [|discriminate].
  destruct (negb (Py.nonempty (Geo.loc mask (Geo.features gdf)))); [discriminate|].
  destruct (Geo.crs gdf) as [src_crs|]; [|discriminate].
  assert (Hp : parts_from fps
                 (fold_left
                    (Facts.join_group gdf touch_buffer_m src_crs
                       (Geo.loc mask (Geo.features gdf)))
                    (Facts.group_by_crs fps) [])).
  { apply join_groups_from; [exact honest | | intros part []].
    intros [k g] fp Hg Hfp. exact (group_members _ _ _ _ Hg Hfp). }
  assert (Hn : forall j, (exists fp, In fp fps
                          /\ Geo.t_tile_id (snd j) = Facts.fp_tile_id fp) ->
                         normal (IO.tile_id (Facts.normalize j))).
  { intros j (fp & Hfp & E). cbn [Facts.normalize IO.tile_id]. rewrite E.
    pose proof (well_formed_normal (@reader_well_formed _ _ _ fp Er Hfp)) as Hw.
    destruct Hw as (H1 & H2 & H3). rewrite H2. repeat split; assumption. }
  destruct (fold_left _ (Facts.group_by_crs fps) []) as [|only [|second rest]];
    [discriminate| |]; inversion H; subst joined.
  - destruct (Hp only (or_introl eq_refl)) as [Hne Hfrom].
    split; [exact Hne|]. intros j Hj. apply Hn. apply Hfrom. exact Hj.
  - split.
    + destruct (Hp only (or_introl eq_refl)) as [Hne _].
      destruct only; [congruence | discriminate].
    + intros j Hj.
      change (In j (concat (only :: second :: rest))) in Hj.
      apply in_concat in Hj as (part & Hpart & Hj).
      apply Hn. apply (proj2 (Hp part Hpart)). exact Hj.
Qed.

Lemma read_ids_normal (rows : list IO.out_row) :
  (forall r, In r rows -> normal (IO.tile_id r)) ->
  read_ids rows = map IO.tile_id rows.
Proof.
  unfold read_ids. induction rows as [|r rows IH]; intros H; [reflexivity|].
  cbn [map filter].
  destruct (H r (or_introl eq_refl)) as (H1 & H2 & H3). rewrite H3, H2.
  destruct (IO.tile_id r) eqn:E; [congruence|]. cbn [Py.nonempty].
  rewrite <- E. f_equal. apply IH. intros r' Hr'. apply H. right. exact Hr'.
Qed.

Lemma rows_feed (J : Type) (n : J -> IO.out_row) (joined : list J) (p : str) :
  joined <> [] ->
  (forall j, In j joined -> normal (IO.tile_id (n j))) ->
  feeds (Output.write n joined p) p.
Proof.
  intros Hne Hn.
  assert (Hrows : forall r, In r (Output.sort_rows (Output.dedup n joined)) ->
                            normal (IO.tile_id r)).
  { intros r Hr. unfold Output.sort_rows in Hr.
    apply (Permutation_in _ (Permutation_sym (sort_perm Output.row_leb _))) in Hr.
    apply dedup_from_joined in Hr as (j & Hj & <-). apply Hn. exact Hj. }
  assert (Hsome : Output.sort_rows (Output.dedup n joined) <> []).
  { destruct joined as [|j joined]; [congruence|].
    destruct (dedup_complete n (j :: joined) j (or_introl eq_refl)) as (r & Hr & _).
    - apply (Hn j). left. reflexivity.
    - unfold Output.sort_rows.
      apply (Permutation_in _ (sort_perm Output.row_leb _)) in Hr.
      intros E. rewrite E in Hr. destruct Hr. }
  destruct (@read_back (Output.sort_rows (Output.dedup n joined)) p)
    as (tiles & Hp & Hk & Hnd & Hin).
  { rewrite (read_ids_normal _ Hrows). intros E. apply map_eq_nil in E. contradiction. }
  exists (Output.sort_rows (Output.dedup n joined)), tiles.
  split; [reflexivity|]. split; [exact Hp|]. split; [exact Hk|].
  split; [exact Hnd|]. rewrite (read_ids_normal _ Hrows) in Hin. exact Hin.
Qed.

Lemma boxes_join_from_inputs : join_from_inputs Boxes.engine.
Proof.
  intros L R left right l r H. cbn [Geo.sjoin Boxes.engine] in H.
  unfold Boxes.join in H. apply in_flat_map in H as (x & _ & H).
  destruct (snd x) as [g|]; [|destruct H].
  apply in_map_iff in H as (y & E & Hy). apply filter_In in Hy as [Hy _].
  apply in_map_iff. exists y. split; [exact (f_equal snd E) | exact Hy].
Qed.

(** X18: over an engine whose join pairs rows of its inputs, a run of
    either builder that returns has written one table from which both
    readers return the same list: every tile id of the table, each once. *)
Theorem builder_output_feeds_readers (G : Geo.engine)
    (float_of_str : str -> option float) :
  join_from_inputs G ->
  (forall states_csv state_shapefile (gdf : Geo.geodataframe G) output_csv k,
     fst (Grid.build_tiles_of_interest states_csv state_shapefile gdf output_csv)
       = Ok k ->
     feeds (Grid.build_tiles_of_interest states_csv state_shapefile gdf output_csv)
           output_csv)
  /\ (forall has_header states_csv state_shapefile (gdf : Geo.geodataframe G)
             raster_facts_csv output_csv touch_buffer_m k,
        fst (Facts.build_tiles_of_interest float_of_str has_header states_csv
               state_shapefile gdf raster_facts_csv output_csv touch_buffer_m)
          = Ok k ->
        feeds (Facts.build_tiles_of_interest float_of_str has_header states_csv
                 state_shapefile gdf raster_facts_csv output_csv touch_buffer_m)
              output_csv).
Proof.
  intros honest. split.
  - intros states_csv state_shapefile gdf output_csv k H.
    unfold Grid.build_tiles_of_interest in *.
    destruct (Grid.joined_rows states_csv state_shapefile gdf) as [joined|e] eqn:Ej;
      [|discriminate H].
    destruct (grid_joined_normal _ _ _ honest Ej) as [Hne Hn].
    exact (rows_feed Grid.normalize output_csv Hne Hn).
  - intros has_header states_csv state_shapefile gdf raster_facts_csv output_csv
           touch_buffer_m k H.
    unfold Facts.build_tiles_of_interest in *.
    destruct (Facts.joined_rows float_of_str has_header states_csv state_shapefile
                gdf raster_facts_csv touch_buffer_m) as [joined|e] eqn:Ej;
      [|discriminate H].
    destruct (facts_joined_normal _ _ _ _ _ _ _ honest Ej) as [Hne Hn].
    exact (rows_feed Facts.normalize output_csv Hne Hn).
Qed.

Lemma builder_output_feeds_readers_witness :
  feeds Samples.run_06 (lit "out/tiles.csv").
Proof.
  refine (proj2 (builder_output_feeds_readers Boxes.float_of_str
                   boxes_join_from_inputs)
            false Samples.codes_06 (lit "s.shp") Samples.gdf Samples.facts
            (lit "out/tiles.csv") Facts.touch_buffer_m_default 2 _).
  vm_compute. reflexivity.
Defined.

(* ================================================================== *)
(** * The field rasters of a tile                                       *)
(* ================================================================== *)

Lemma mem_app (x : str) (l1 l2 : list str) :
  Py.mem x (l1 ++ l2) = Py.mem x l1 || Py.mem x l2.
Proof. unfold Py.mem. apply existsb_app. Qed.

Lemma filter_map_fst (A B : Type) (c1 c2 : A * B -> bool) (q : A -> bool)
    (l : list (A * B)) :
  (forall e, c2 e = c1 e && q (fst e)) ->
  filter q (map fst (filter c1 l)) = map fst (filter c2 l).
Proof.
  intros H. induction l as [|e l IH]; [reflexivity|].
  cbn [filter]. rewrite (H e).
  destruct (c1 e); cbn [andb map filter]; [|exact IH].
  destruct (q (fst e)); cbn [map]; rewrite IH; reflexivity.
Qed.

Lemma candidate_keys (e : str * bool) :
  Fields.candidate Keys._IGNORED_SUFFIXES e
  = Fields.candidate Polygons._IGNORED_SUFFIXES e
    && negb (Py.mem (Py.lower (Pathlib.suffix (fst e))) shapefile_suffixes).
Proof.
  destruct e as [p is_file]. unfold Fields.candidate. cbn [fst].
  change Keys._IGNORED_SUFFIXES
    with (Polygons._IGNORED_SUFFIXES ++ shapefile_suffixes).
  rewrite mem_app, negb_orb, !andb_assoc. reflexivity.
Qed.

(** X19: the rasters of a tile.  The key builder's candidates are the
    polygon builder's without those that end in a shapefile suffix, in the
    same order; a path is a candidate of the polygon builder exactly when
    the directory exists, the path is a regular file under it, its
    lower-cased name contains [field_segments], does not end in
    [_ancillary_data], and its lower-cased suffix is not an ignored one. *)
Theorem keys_candidates_among_polygon_candidates (t : Fields.tree) (tile_dir : str) :
  Fields._candidate_rasters Keys._IGNORED_SUFFIXES t tile_dir
  = filter (fun p => negb (Py.mem (Py.lower (Pathlib.suffix p)) shapefile_suffixes))
           (Fields._candidate_rasters Polygons._IGNORED_SUFFIXES t tile_dir)
  /\ forall p,
       In p (Fields._candidate_rasters Polygons._IGNORED_SUFFIXES t tile_dir)
       <-> Fields.is_dir t tile_dir = true
           /\ In (p, true) (Fields.rglob t tile_dir)
           /\ Text.contains (lit "field_segments") (Py.lower (Path.name p)) = true
           /\ Text.ends_with (lit "_ancillary_data") (Py.lower (Path.name p)) = false
           /\ ~ In (Py.lower (Pathlib.suffix p)) Polygons._IGNORED_SUFFIXES.
Proof.
  unfold Fields._candidate_rasters. split.
  - destruct (Fields.is_dir t tile_dir); cbn [negb]; [|reflexivity].
    symmetry. apply filter_map_fst. exact candidate_keys.
  - intros p. destruct (Fields.is_dir t tile_dir); cbn [negb].
    + rewrite in_map_iff. split.
      * intros ([p' is_file] & E & Hin). cbn [fst] in E. subst p'.
        apply filter_In in Hin as [Hin Hc]. unfold Fields.candidate in Hc.
        apply andb_true_iff in Hc as [Hc H4]. apply andb_true_iff in Hc as [Hc H3].
        apply andb_true_iff in Hc as [H1 H2]. subst is_file.
        apply negb_true_iff in H3, H4.
        repeat split; try assumption.
        intros Hm. apply mem_In in Hm. congruence.
      * intros (_ & Hin & H2 & H3 & H4). exists (p, true).
        split; [reflexivity|]. apply filter_In. split; [exact Hin|].
        unfold Fields.candidate. rewrite H2, H3. cbn [andb negb].
        apply negb_true_iff. destruct (Py.mem _ _) eqn:Em; [|reflexivity].
        apply mem_In in Em. contradiction.
    + split; [intros [] | intros (H & _); discriminate].
Qed.

(* ================================================================== *)
(** * Field polygons                                                    *)
(* ================================================================== *)

Section PolygonsFacts.

Variable P : Type.
Variable w : Polygons.world P.

Lemma feature_rows_ok (tile_id raster_path : str) rows f :
  Polygons._feature_rows_for_raster w tile_id raster_path = Ok rows ->
  In f rows ->
  (0 < Polygons.field_id f)%Z
  /\ Polygons.primary_key f
     = Polygons.f_tile_id f ++ lit "_" ++ Py.str_of_Z (Polygons.field_id f)
  /\ Polygons.f_tile_id f = tile_id.
Proof.
  unfold Polygons._feature_rows_for_raster.
  destruct (negb (Polygons.has_rasterio w)); [discriminate|].
  destruct (Polygons.shapes w raster_path) as [found|]; [|discriminate].
  intros H Hf. inversion H; subst rows.
  apply in_map_iff in Hf as (shape & <- & Hs). apply filter_In in Hs as [_ Hs].
  apply negb_true_iff, Z.leb_gt in Hs.
  cbn [Polygons.make_feature Polygons.field_id Polygons.primary_key
       Polygons.f_tile_id]. auto.
Qed.

Lemma polygons_step_inv (fields_dir : str) (done : list str)
    (st : Polygons.state P) (tile_id : str) :
  polygons_inv done st -> ~ In tile_id done ->
  polygons_inv (done ++ [tile_id]) (Polygons.step w fields_dir st tile_id).
Proof.
  intros [H1 H2 H3 H4 H5 H6] Hnew. unfold Polygons.step.
  assert (Hl : length (done ++ [tile_id]) = length done + 1)
    by (rewrite length_app; reflexivity).
  assert (Hin : forall t, In t done -> In t (done ++ [tile_id]))
    by (intros t Ht; apply in_or_app; left; exact Ht).
  destruct (Fields._candidate_rasters _ _ _) as [|raster_path rest].
  - constructor; cbn; try assumption; try lia.
    + intros f Hf. destruct (H4 f Hf) as (A & B & C). auto.
    + intros e He. auto.
  - destruct (Polygons._feature_rows_for_raster w tile_id raster_path)
      as [rows|exc] eqn:Er.
    + constructor; cbn; try assumption; try lia.
      * rewrite length_app. lia.
      * intros f Hf. apply in_app_or in Hf as [Hf|Hf].
        -- destruct (H4 f Hf) as (A & B & C). auto.
        -- destruct (@feature_rows_ok _ _ _ f Er Hf) as (A & B & C).
           split; [exact A|]. split; [exact B|]. rewrite C.
           apply in_or_app. right. left. reflexivity.
      * intros e He. auto.
    + constructor; cbn; try assumption; try lia.
      * rewrite length_app. cbn. lia.
      * intros f Hf. destruct (H4 f Hf) as (A & B & C). auto.
      * intros e He. apply in_app_or in He as [He|[<-|[]]]; [auto|].
        cbn. apply in_or_app. right. left. reflexivity.
      * rewrite map_app. cbn. apply NoDup_app; [assumption | repeat constructor; intros [] |].
        intros x Hx [<-|[]]. apply in_map_iff in Hx as (e & E & He).
        apply Hnew. rewrite <- E. apply H5. exact He.
Qed.

Lemma polygons_fold_inv (fields_dir : str) (tiles done : list str)
    (st : Polygons.state P) :
  polygons_inv done st -> NoDup (done ++ tiles) ->
  polygons_inv (done ++ tiles) (fold_left (Polygons.step w fields_dir) tiles st).
Proof.
  revert done st. induction tiles as [|t tiles IH]; intros done st Hi Hn.
  - rewrite app_nil_r. exact Hi.
  - cbn [fold_left].
    replace (done ++ t :: tiles) with ((done ++ [t]) ++ tiles) in *
      by (rewrite <- app_assoc; reflexivity).
    apply IH; [|exact Hn]. apply polygons_step_inv; [exact Hi|].
    intros Hin. rewrite <- app_assoc in Hn. cbn in Hn.
    apply NoDup_remove_2 in Hn. apply Hn. apply in_or_app. left. exact Hin.
Qed.

Lemma polygons_init_inv : polygons_inv [] (Polygons.init P).
Proof.
  constructor; cbn; try reflexivity; try (intros ? []). constructor.
Qed.

End PolygonsFacts.

(** X20: once the fields directory exists and the tiles are read, the
    polygon builder returns whatever the rasters do: it writes the lines
    and then the summary of the counts it returns.  Every requested tile
    is counted once, as done, as without raster or as failed; the feature
    count is the number of lines written; there is one error entry per
    failed tile; and every line has a positive field id, the primary key
    [<tile_id>_<field_id>] and the id of a requested tile. *)
Theorem polygon_counts_add_up (P : Type) (w : Polygons.world P)
    (tiles_csv fields_dir output_ndjson summary_json : str) (tiles : list str) :
  Fields.is_dir (Polygons.tree w) fields_dir = true ->
  Polygons._read_tiles_of_interest tiles_csv (Polygons.exists_ w tiles_csv)
    (Polygons.read_csv w tiles_csv) = Ok tiles ->
  exists c lines errors,
    Polygons.build_field_polygons_ndjson w tiles_csv fields_dir output_ndjson
      summary_json
    = (Ok c,
       [Polygons.MkdirParent P output_ndjson;
        Polygons.WriteNdjson output_ndjson lines;
        Polygons.MkdirParent P summary_json;
        Polygons.WriteSummary P summary_json
          {| Polygons.s_counts := c;
             Polygons.s_output_ndjson := Polygons.resolve w output_ndjson;
             Polygons.s_errors := errors |}])
    /\ Polygons.tiles_requested c = length tiles
    /\ Polygons.tiles_requested c
       = Polygons.tiles_ok c + Polygons.tiles_missing_raster c
         + Polygons.tiles_failed c
    /\ Polygons.feature_count c = length lines
    /\ Polygons.tiles_failed c = length errors
    /\ NoDup (map Polygons.e_tile_id errors)
    /\ (forall e, In e errors -> In (Polygons.e_tile_id e) tiles)
    /\ (forall f, In f lines ->
          (0 < Polygons.field_id f)%Z
          /\ Polygons.primary_key f
             = Polygons.f_tile_id f ++ lit "_" ++ Py.str_of_Z (Polygons.field_id f)
          /\ In (Polygons.f_tile_id f) tiles).
Proof.
  intros Hd Hr. unfold Polygons.build_field_polygons_ndjson.
  rewrite Hd, Hr. cbn [negb].
  assert (Hn : NoDup tiles).
  { apply reader_Ok_collect in Hr as (_ & _ & -> & _). apply collect_spec. }
  destruct (@polygons_fold_inv P w fields_dir tiles [] (Polygons.init P)
              (polygons_init_inv P) Hn) as [H1 H2 H3 H4 H5 H6].
  cbn [app] in *.
  eexists. eexists. eexists. split; [reflexivity|].
  cbn [Polygons.tiles_requested Polygons.tiles_ok Polygons.tiles_missing_raster
       Polygons.tiles_failed Polygons.feature_count].
  repeat split; try assumption; try lia.
  - apply H4. assumption.
  - apply H4. assumption.
  - apply H4. assumption.
Qed.

Lemma polygon_counts_add_up_witness :
  exists c lines errors,
    Polygons.build_field_polygons_ndjson RasterSamples.polygons
      (lit "tiles.csv") (lit "/fields") (lit "out/fields.ndjson")
      (lit "out/summary.json")
    = (Ok c,
       [Polygons.MkdirParent nat (lit "out/fields.ndjson");
        Polygons.WriteNdjson (lit "out/fields.ndjson") lines;
        Polygons.MkdirParent nat (lit "out/summary.json");
        Polygons.WriteSummary nat (lit "out/summary.json")
          {| Polygons.s_counts := c;
             Polygons.s_output_ndjson := lit "out/fields.ndjson";
             Polygons.s_errors := errors |}])
    /\ Polygons.tiles_requested c = 2
    /\ Polygons.tiles_requested c
       = Polygons.tiles_ok c + Polygons.tiles_missing_raster c
         + Polygons.tiles_failed c
    /\ Polygons.feature_count c = length lines
    /\ Polygons.tiles_failed c = length errors
    /\ NoDup (map Polygons.e_tile_id errors)
    /\ (forall e, In e errors -> In (Polygons.e_tile_id e) [lit "h08v05"; lit "h09v05"])
    /\ (forall f, In f lines ->
          (0 < Polygons.field_id f)%Z
          /\ Polygons.primary_key f
             = Polygons.f_tile_id f ++ lit "_" ++ Py.str_of_Z (Polygons.field_id f)
          /\ In (Polygons.f_tile_id f) [lit "h08v05"; lit "h09v05"]).
Proof.
  apply (@polygon_counts_add_up nat RasterSamples.polygons (lit "tiles.csv")
           (lit "/fields") (lit "out/fields.ndjson") (lit "out/summary.json")
           [lit "h08v05"; lit "h09v05"]).
  - reflexivity.
  - vm_compute. reflexivity.
Defined.

(* ================================================================== *)
(** * Field keys                                                        *)
(* ================================================================== *)

Lemma counter_get_add (k k' n : Z) (c : Keys.counter) :
  Keys.counter_get k (Keys.counter_add k' n c)
  = (if (k =? k')%Z then Keys.counter_get k c + n else Keys.counter_get k c)%Z.
Proof.
  induction c as [|[k0 n0] c IH]; cbn [Keys.counter_add Keys.counter_get].
  - destruct (Z.eqb_spec k k'); lia.
  - destruct (Z.eqb_spec k' k0) as [->|Hk]; cbn [Keys.counter_get].
    + destruct (Z.eqb_spec k k0); reflexivity.
    + destruct (Z.eqb_spec k k0) as [->|Hk0].
      * destruct (Z.eqb_spec k0 k'); [congruence | reflexivity].
      * exact IH.
Qed.

Lemma counter_add_keys (k n x : Z) (c : Keys.counter) :
  In x (map fst (Keys.counter_add k n c)) <-> x = k \/ In x (map fst c).
Proof.
  induction c as [|[k0 n0] c IH]; cbn [Keys.counter_add map fst In].
  - intuition.
  - destruct (Z.eqb_spec k k0) as [->|Hk]; cbn [map fst In].
    + intuition.
    + rewrite IH. intuition.
Qed.

Lemma counter_add_nodup (k n : Z) (c : Keys.counter) :
  NoDup (map fst c) -> NoDup (map fst (Keys.counter_add k n c)).
Proof.
  induction c as [|[k0 n0] c IH]; cbn [Keys.counter_add map fst]; intros H.
  - repeat constructor. intros [].
  - destruct (Z.eqb_spec k k0) as [->|Hk]; cbn [map fst]; [exact H|].
    inversion H as [|? ? Hx Hc]; subst. constructor; [|apply IH; exact Hc].
    rewrite counter_add_keys. intros [E|E]; [congruence | contradiction].
Qed.

Lemma existsb_Z (k : Z) (l : list Z) : existsb (Z.eqb k) l = true <-> In k l.
Proof.
  rewrite existsb_exists. split.
  - intros (x & Hx & E). apply Z.eqb_eq in E. subst. exact Hx.
  - intros H. exists k. split; [exact H | apply Z.eqb_refl].
Qed.

(** Adding each value of a duplicate-free list once. *)
Lemma add_each_get (f : Z -> Z) (l : list Z) (c : Keys.counter) (k : Z) :
  NoDup l ->
  Keys.counter_get k
    (fold_left (fun c vf => Keys.counter_add (fst vf) (snd vf) c)
               (map (fun x => (x, f x)) l) c)
  = (Keys.counter_get k c + if existsb (Z.eqb k) l then f k else 0)%Z.
Proof.
  revert c. induction l as [|x l IH]; intros c Hn; cbn [map fold_left existsb].
  - lia.
  - inversion Hn as [|? ? Hx Hl]; subst. rewrite (IH _ Hl). cbn [fst snd].
    rewrite counter_get_add. destruct (Z.eqb_spec k x) as [->|Hk]; cbn [orb].
    + destruct (existsb (Z.eqb x) l) eqn:E; [|lia].
      apply existsb_Z in E. contradiction.
    + reflexivity.
Qed.

Lemma add_each_keys (f : Z -> Z) (l : list Z) (c : Keys.counter) (k : Z) :
  In k (map fst (fold_left (fun c vf => Keys.counter_add (fst vf) (snd vf) c)
                           (map (fun x => (x, f x)) l) c))
  <-> In k (map fst c) \/ In k l.
Proof.
  revert c. induction l as [|x l IH]; intros c; cbn [map fold_left In].
  - tauto.
  - rewrite IH. cbn [fst snd]. rewrite counter_add_keys. intuition.
Qed.

Lemma add_each_nodup (f : Z -> Z) (l : list Z) (c : Keys.counter) :
  NoDup (map fst c) ->
  NoDup (map fst (fold_left (fun c vf => Keys.counter_add (fst vf) (snd vf) c)
                            (map (fun x => (x, f x)) l) c)).
Proof.
  revert c. induction l as [|x l IH]; intros c H; cbn [map fold_left]; [exact H|].
  apply IH. apply counter_add_nodup. exact H.
Qed.

Lemma unique_values (flat : list Z) (k : Z) :
  In k (nodup Z.eq_dec (Py.sort Z.leb flat)) <-> In k flat.
Proof.
  rewrite nodup_In. split; intros H.
  - exact (Permutation_in _ (Permutation_sym (sort_perm Z.leb flat)) H).
  - exact (Permutation_in _ (sort_perm Z.leb flat) H).
Qed.

Lemma add_window_eq (nodata : option Z) (counts : Keys.counter) (arr : list Z) :
  Keys.add_window nodata counts arr
  = fold_left (fun c vf => Keys.counter_add (fst vf) (snd vf) c)
              (Keys.unique (Keys.kept nodata arr)) counts.
Proof.
  unfold Keys.add_window. destruct (Keys.kept nodata arr); reflexivity.
Qed.

Lemma add_window_get (nodata : option Z) (counts : Keys.counter) (arr : list Z)
    (k : Z) :
  Keys.counter_get k (Keys.add_window nodata counts arr)
  = (Keys.counter_get k counts
     + Z.of_nat (count_occ Z.eq_dec (Keys.kept nodata arr) k))%Z.
Proof.
  rewrite add_window_eq. unfold Keys.unique.
  rewrite (add_each_get (fun x => Z.of_nat (count_occ Z.eq_dec (Keys.kept nodata arr) x)));
    [|apply NoDup_nodup].
  destruct (existsb _ _) eqn:E; [reflexivity|].
  assert (Hn : ~ In k (Keys.kept nodata arr)).
  { intros Hin. apply unique_values, existsb_Z in Hin. congruence. }
  apply (count_occ_not_In Z.eq_dec) in Hn. rewrite Hn. reflexivity.
Qed.

Lemma add_window_keys (nodata : option Z) (counts : Keys.counter) (arr : list Z)
    (k : Z) :
  In k (map fst (Keys.add_window nodata counts arr))
  <-> In k (map fst counts) \/ In k (Keys.kept nodata arr).
Proof.
  rewrite add_window_eq. unfold Keys.unique.
  rewrite add_each_keys, unique_values. reflexivity.
Qed.

Lemma add_window_nodup (nodata : option Z) (counts : Keys.counter) (arr : list Z) :
  NoDup (map fst counts) -> NoDup (map fst (Keys.add_window nodata counts arr)).
Proof. rewrite add_window_eq. apply add_each_nodup. Qed.

Lemma windows_fold (nodata : option Z) (windows : list (list Z))
    (counts : Keys.counter) :
  NoDup (map fst counts) ->
  NoDup (map fst (fold_left (Keys.add_window nodata) windows counts))
  /\ (forall k,
        In k (map fst (fold_left (Keys.add_window nodata) windows counts))
        <-> In k (map fst counts)
            \/ In k (concat (map (Keys.kept nodata) windows)))
  /\ (forall k,
        Keys.counter_get k (fold_left (Keys.add_window nodata) windows counts)
        = (Keys.counter_get k counts
           + Z.of_nat (count_occ Z.eq_dec
                         (concat (map (Keys.kept nodata) windows)) k))%Z).
Proof.
  revert counts. induction windows as [|arr windows IH]; intros counts Hn;
    cbn [fold_left map concat].
  - split; [exact Hn|]. split; intros k; [cbn; tauto | cbn; lia].
  - destruct (IH _ (@add_window_nodup nodata counts arr Hn)) as (H1 & H2 & H3).
    split; [exact H1|]. split; intros k.
    + rewrite H2, add_window_keys, in_app_iff. tauto.
    + rewrite H3, add_window_get, count_occ_app. lia.
Qed.

Lemma kept_In (nodata : option Z) (arr : list Z) (k : Z) :
  In k (Keys.kept nodata arr)
  <-> In k arr /\ (0 < k)%Z /\ nodata <> Some k.
Proof.
  unfold Keys.kept. rewrite filter_In, Z.ltb_lt. destruct nodata as [nd|].
  - rewrite filter_In, negb_true_iff, Z.eqb_neq. split.
    + intros [[H1 H2] H3]. repeat split; try assumption. congruence.
    + intros (H1 & H2 & H3). repeat split; try assumption. congruence.
  - split; [intros [H1 H2] | intros (H1 & H2 & _)]; repeat split;
      try assumption. discriminate.
Qed.

Lemma count_occ_filter (p : Z -> bool) (l : list Z) (k : Z) :
  count_occ Z.eq_dec (filter p l) k
  = if p k then count_occ Z.eq_dec l k else 0.
Proof.
  induction l as [|x l IH]; cbn [filter count_occ].
  - destruct (p k); reflexivity.
  - destruct (Z.eq_dec x k) as [->|Hx].
    + destruct (p k) eqn:E; cbn [count_occ].
      * destruct (Z.eq_dec k k); [|congruence]. rewrite IH. reflexivity.
      * exact IH.
    + destruct (p x); cbn [count_occ]; [|exact IH].
      destruct (Z.eq_dec x k); [congruence | exact IH].
Qed.

Lemma count_occ_kept (nodata : option Z) (arr : list Z) (k : Z) :
  (0 < k)%Z -> nodata <> Some k ->
  count_occ Z.eq_dec (Keys.kept nodata arr) k = count_occ Z.eq_dec arr k.
Proof.
  intros Hk Hn. unfold Keys.kept. rewrite count_occ_filter.
  apply Z.ltb_lt in Hk. rewrite Hk. destruct nodata as [nd|]; [|reflexivity].
  rewrite count_occ_filter. destruct (Z.eqb_spec k nd); [congruence | reflexivity].
Qed.

Lemma count_occ_concat_kept (nodata : option Z) (windows : list (list Z)) (k : Z) :
  (0 < k)%Z -> nodata <> Some k ->
  count_occ Z.eq_dec (concat (map (Keys.kept nodata) windows)) k
  = count_occ Z.eq_dec (concat windows) k.
Proof.
  intros Hk Hn. induction windows as [|arr windows IH]; cbn [map concat];
    [reflexivity|].
  rewrite !count_occ_app, IH, (count_occ_kept _ Hk Hn). reflexivity.
Qed.

Lemma concat_kept_In (nodata : option Z) (windows : list (list Z)) (k : Z) :
  In k (concat (map (Keys.kept nodata) windows))
  <-> (0 < k)%Z /\ nodata <> Some k /\ exists arr, In arr windows /\ In k arr.
Proof.
  rewrite in_concat. split.
  - intros (l & Hl & Hk). apply in_map_iff in Hl as (arr & <- & Harr).
    apply kept_In in Hk as (H1 & H2 & H3). repeat split; try assumption.
    exists arr. split; assumption.
  - intros (H1 & H2 & arr & Harr & Hk). exists (Keys.kept nodata arr).
    split; [apply in_map; exact Harr | apply kept_In; tauto].
Qed.

Lemma extract_Ok (w : Keys.world) (raster_path : str) (counts : Keys.counter) :
  Keys._extract_field_counts w raster_path = Ok counts ->
  exists nodata windows,
    Keys.blocks w raster_path = Ok (nodata, windows)
    /\ counts = fold_left (Keys.add_window nodata) windows [].
Proof.
  unfold Keys._extract_field_counts.
  destruct (negb (Keys.has_rasterio w)); [discriminate|].
  destruct (Keys.blocks w raster_path) as [[nodata windows]|]; [|discriminate].
  intros H. inversion H. exists nodata, windows. split; reflexivity.
Qed.

(** X21: the counter [_extract_field_counts] returns.  Its keys are the
    values that occur in some window, are positive and are not the nodata
    value, each once; and the count of a key is the number of pixels with
    that value over all windows. *)
Theorem field_counts_count_pixels (w : Keys.world) (raster_path : str)
    (counts : Keys.counter) :
  Keys._extract_field_counts w raster_path = Ok counts ->
  exists nodata windows,
    Keys.blocks w raster_path = Ok (nodata, windows)
    /\ NoDup (map fst counts)
    /\ (forall k, In k (map fst counts)
                  <-> (0 < k)%Z /\ nodata <> Some k
                      /\ exists arr, In arr windows /\ In k arr)
    /\ (forall k, In k (map fst counts) ->
                  Keys.counter_get k counts
                  = Z.of_nat (count_occ Z.eq_dec (concat windows) k))
    /\ (forall k, ~ In k (map fst counts) -> Keys.counter_get k counts = 0%Z).
Proof.
  intros H. apply extract_Ok in H as (nodata & windows & Hb & ->).
  exists nodata, windows. split; [exact Hb|].
  destruct (@windows_fold nodata windows [] (NoDup_nil _)) as (H1 & H2 & H3).
  assert (Hk : forall k, In k (map fst (fold_left (Keys.add_window nodata) windows []))
                         <-> (0 < k)%Z /\ nodata <> Some k
                             /\ exists arr, In arr windows /\ In k arr).
  { intros k. rewrite H2, <- concat_kept_In. cbn. tauto. }
  split; [exact H1|]. split; [exact Hk|]. split.
  - intros k Hin. apply Hk in Hin as (Hp & Hn & _).
    rewrite H3, (count_occ_concat_kept _ Hp Hn). cbn. reflexivity.
  - intros k Hnot. rewrite H3. cbn [Keys.counter_get].
    assert (Hc : ~ In k (concat (map (Keys.kept nodata) windows))).
    { intros Hin. apply Hnot. apply H2. right. exact Hin. }
    apply (count_occ_not_In Z.eq_dec) in Hc. rewrite Hc. reflexivity.
Qed.

Lemma field_counts_count_pixels_witness :
  exists nodata windows,
    Keys.blocks RasterSamples.keys (lit "x_field_segments.tif") = Ok (nodata, windows)
    /\ NoDup (map fst [(7, 3); (9, 1)]%Z)
    /\ (forall k, In k (map fst [(7, 3); (9, 1)]%Z)
                  <-> (0 < k)%Z /\ nodata <> Some k
                      /\ exists arr, In arr windows /\ In k arr)
    /\ (forall k, In k (map fst [(7, 3); (9, 1)]%Z) ->
                  Keys.counter_get k [(7, 3); (9, 1)]%Z
                  = Z.of_nat (count_occ Z.eq_dec (concat windows) k))
    /\ (forall k, ~ In k (map fst [(7, 3); (9, 1)]%Z) ->
                  Keys.counter_get k [(7, 3); (9, 1)]%Z = 0%Z).
Proof.
  apply (@field_counts_count_pixels RasterSamples.keys (lit "x_field_segments.tif")).
  vm_compute. reflexivity.
Defined.

(** ** Primary keys *)

Lemma to_int_proper (z : Z) :
  Z.to_int z <> Decimal.Pos Decimal.Nil /\ Z.to_int z <> Decimal.Neg Decimal.Nil.
Proof.
  destruct z as [|p|p]; cbn [Z.to_int]; split; try discriminate;
    intros E; inversion E as [E']; exact (DecimalPos.Unsigned.to_uint_nonnil _ E').
Qed.

Lemma str_of_Z_inj (a b : Z) : Py.str_of_Z a = Py.str_of_Z b -> a = b.
Proof.
  unfold Py.str_of_Z. intros E.
  apply (f_equal string_of_list_ascii) in E.
  rewrite !string_of_list_ascii_of_string in E.
  apply (f_equal NilZero.int_of_string) in E.
  destruct (to_int_proper a) as [A1 A2]. destruct (to_int_proper b) as [B1 B2].
  rewrite (NilZero.isi _ A1 A2), (NilZero.isi _ B1 B2) in E.
  inversion E as [E']. apply (f_equal Z.of_int) in E'.
  rewrite !DecimalZ.of_to in E'. exact E'.
Qed.

Lemma uint_no_underscore (d : Decimal.uint) :
  ~ In "_"%char (list_ascii_of_string (NilEmpty.string_of_uint d)).
Proof.
  induction d; cbn [NilEmpty.string_of_uint list_ascii_of_string In];
    try (intros [E|E]; [discriminate E | exact (IHd E)]).
  intros [].
Qed.

Lemma str_of_Z_no_underscore (z : Z) : ~ In "_"%char (Py.str_of_Z z).
Proof.
  unfold Py.str_of_Z.
  assert (H : forall d, ~ In "_"%char (list_ascii_of_string (NilZero.string_of_uint d))).
  { intros d. unfold NilZero.string_of_uint.
    destruct d; try apply uint_no_underscore.
    cbn. intros [E|[]]. discriminate E. }
  destruct (Z.to_int z) as [d|d]; cbn [NilZero.string_of_int list_ascii_of_string In].
  - apply H.
  - intros [E|E]; [discriminate E | exact (H d E)].
Qed.

Lemma split_last_underscore (t1 t2 d1 d2 : str) :
  ~ In "_"%char d1 -> ~ In "_"%char d2 ->
  t1 ++ "_"%char :: d1 = t2 ++ "_"%char :: d2 -> t1 = t2 /\ d1 = d2.
Proof.
  intros H1 H2. revert t2. induction t1 as [|c t1 IH]; intros [|c' t2] E;
    cbn [app] in E.
  - inversion E. split; reflexivity.
  - inversion E as [[Ec Ed]]. exfalso. apply H1. rewrite Ed.
    apply in_or_app. right. left. reflexivity.
  - inversion E as [[Ec Ed]]. exfalso. apply H2. rewrite <- Ed.
    apply in_or_app. right. left. reflexivity.
  - inversion E as [[Ec Ed]]. destruct (IH _ Ed) as [-> ->]. split; reflexivity.
Qed.

Lemma primary_key_inj (t1 t2 : str) (a b : Z) :
  t1 ++ lit "_" ++ Py.str_of_Z a = t2 ++ lit "_" ++ Py.str_of_Z b ->
  t1 = t2 /\ a = b.
Proof.
  intros E. change (lit "_") with ["_"%char] in E. cbn [app] in E.
  apply split_last_underscore in E as [-> E]; try apply str_of_Z_no_underscore.
  split; [reflexivity | exact (str_of_Z_inj _ _ E)].
Qed.

(** ** The loop of [_build_rows] *)

Lemma StronglySorted_app (A : Type) (R : A -> A -> Prop) (l1 l2 : list A) :
  StronglySorted R l1 -> StronglySorted R l2 ->
  (forall a b, In a l1 -> In b l2 -> R a b) ->
  StronglySorted R (l1 ++ l2).
Proof.
  intros H1 H2 H. induction H1 as [|a l1 Hs IH Hf]; [exact H2|].
  cbn [app]. constructor.
  - apply IH. intros x y Hx Hy. apply H; [right; exact Hx | exact Hy].
  - apply Forall_app. split; [exact Hf|].
    apply Forall_forall. intros y Hy. apply H; [left; reflexivity | exact Hy].
Qed.

Lemma StronglySorted_map (A B : Type) (R : A -> A -> Prop) (S : B -> B -> Prop)
    (f : A -> B) (l : list A) :
  (forall a b, R a b -> S (f a) (f b)) ->
  StronglySorted R l -> StronglySorted S (map f l).
Proof.
  intros H Hs. induction Hs as [|a l Hs IH Hf]; cbn [map]; constructor.
  - exact IH.
  - apply Forall_map. revert Hf. apply Forall_impl. intros b. apply H.
Qed.

Lemma Zleb_total (a b : Z) : (a <=? b)%Z = false -> (b <=? a)%Z = true.
Proof. intros H. apply Z.leb_gt in H. apply Z.leb_le. lia. Qed.

Lemma sorted_ids_increase (l : list Z) :
  NoDup l -> StronglySorted Z.lt (Py.sort Z.leb l).
Proof.
  intros Hn.
  assert (Hs : StronglySorted (fun a b => (a <=? b)%Z = true) (Py.sort Z.leb l)).
  { apply Sorted_StronglySorted.
    - intros a b c Hab Hbc. apply Z.leb_le in Hab, Hbc. apply Z.leb_le. lia.
    - apply sort_sorted. exact Zleb_total. }
  assert (Hd : NoDup (Py.sort Z.leb l))
    by exact (Permutation_NoDup (sort_perm Z.leb l) Hn).
  induction Hs as [|a s Hs IH Hf]; constructor.
  - apply IH. inversion Hd. assumption.
  - inversion Hd as [|? ? Ha Hd']; subst. apply Forall_forall. intros b Hb.
    pose proof (proj1 (Forall_forall _ _) Hf b Hb) as Hab. apply Z.leb_le in Hab.
    assert (a <> b) by (intros ->; contradiction). lia.
Qed.

Lemma extract_counter_ok (w : Keys.world) (raster_path : str)
    (counts : Keys.counter) :
  Keys._extract_field_counts w raster_path = Ok counts -> counter_ok counts.
Proof.
  intros H. apply extract_Ok in H as (nodata & windows & _ & ->).
  destruct (@windows_fold nodata windows [] (NoDup_nil _)) as (H1 & H2 & H3).
  split; [exact H1|]. intros k Hk. apply H2 in Hk as [[]|Hk].
  split; [apply concat_kept_In in Hk; tauto|].
  rewrite H3. cbn [Keys.counter_get]. apply (count_occ_In Z.eq_dec) in Hk. lia.
Qed.

Section KeysFacts.

Variable w : Keys.world.

Lemma block_rows (done : list str) (tile_id rel : str) (counts : Keys.counter) :
  counter_ok counts ->
  Forall (key_row_ok (done ++ [tile_id]))
         (map (Keys.make_key_row tile_id rel counts)
              (Py.sort Z.leb (map fst counts)))
  /\ StronglySorted key_order
       (map (Keys.make_key_row tile_id rel counts)
            (Py.sort Z.leb (map fst counts)))
  /\ forall r, In r (map (Keys.make_key_row tile_id rel counts)
                         (Py.sort Z.leb (map fst counts))) ->
               Keys.k_tile_id r = tile_id.
Proof.
  intros [Hn Hpos]. split; [|split].
  - apply Forall_map, Forall_forall. intros k Hk.
    apply (Permutation_in _ (Permutation_sym (sort_perm Z.leb _))) in Hk.
    destruct (Hpos k Hk) as [H1 H2].
    unfold key_row_ok. cbn [Keys.make_key_row Keys.k_tile_id Keys.primary_key
                            Keys.field_id Keys.pixel_count].
    repeat split; try assumption. apply in_or_app. right. left. reflexivity.
  - apply StronglySorted_map with (R := Z.lt); [|apply sorted_ids_increase; exact Hn].
    intros a b Hab _. exact Hab.
  - intros r Hr. apply in_map_iff in Hr as (k & <- & _). reflexivity.
Qed.

Lemma key_row_ok_more (done : list str) (t : str) (r : Keys.key_row) :
  key_row_ok done r -> key_row_ok (done ++ [t]) r.
Proof.
  intros (H1 & H2 & H3 & H4). repeat split; try assumption.
  apply in_or_app. left. exact H1.
Qed.

Lemma build_rows_from_inv (fields_dir : str) (tiles done : list str)
    key_rows tile_rows key_rows' tile_rows' :
  keys_inv done key_rows tile_rows ->
  NoDup (done ++ tiles) ->
  Keys.build_rows_from w fields_dir tiles key_rows tile_rows
    = Ok (key_rows', tile_rows') ->
  keys_inv (done ++ tiles) key_rows' tile_rows'.
Proof.
  revert done key_rows tile_rows.
  induction tiles as [|t tiles IH]; intros done key_rows tile_rows Hi Hn H.
  - cbn in H. inversion H; subst. rewrite app_nil_r. exact Hi.
  - cbn [Keys.build_rows_from] in H.
    replace (done ++ t :: tiles) with ((done ++ [t]) ++ tiles) in *
      by (rewrite <- app_assoc; reflexivity).
    assert (Hnew : ~ In t done).
    { intros Hin. rewrite <- app_assoc in Hn. cbn in Hn.
      apply NoDup_remove_2 in Hn. apply Hn. apply in_or_app. left. exact Hin. }
    destruct Hi as [H1 H2 H3 H4 H5].
    destruct (Fields._candidate_rasters _ _ _) as [|raster_path rest].
    + refine (IH (done ++ [t]) _ _ _ Hn H).
      constructor.
      * rewrite map_app, H1. reflexivity.
      * rewrite map_app, list_sum_app, H2. cbn. lia.
      * apply Forall_app. split; [exact H3|]. repeat constructor.
      * revert H4. apply Forall_impl. intros r. apply key_row_ok_more.
      * exact H5.
    + destruct (Keys._extract_field_counts w raster_path) as [counts|] eqn:Ec;
        [|discriminate].
      destruct (Keys.relative_to w raster_path fields_dir) as [rel|]; [|discriminate].
      cbv zeta in H.
      destruct (@block_rows done t rel counts (extract_counter_ok _ _ Ec))
        as (B1 & B2 & B3).
      refine (IH (done ++ [t]) _ _ _ Hn H).
      constructor.
      * rewrite map_app, H1. reflexivity.
      * rewrite map_app, list_sum_app, length_app, H2, length_map. cbn. lia.
      * apply Forall_app. split; [exact H3|]. repeat constructor.
        -- cbn. rewrite <- (Permutation_length (sort_perm Z.leb _)), length_map.
           reflexivity.
        -- discriminate.
        -- discriminate.
      * apply Forall_app. split; [|exact B1].
        revert H4. apply Forall_impl. intros r. apply key_row_ok_more.
      * apply StronglySorted_app; [exact H5 | exact B2 |].
        intros a b Ha Hb E. exfalso. apply Hnew.
        rewrite <- (B3 b Hb), <- E.
        exact (proj1 (proj1 (Forall_forall _ _) H4 a Ha)).
Qed.

Lemma build_rows_inv (fields_dir : str) (tiles : list str) key_rows tile_rows :
  NoDup tiles ->
  Keys._build_rows w tiles fields_dir = Ok (key_rows, tile_rows) ->
  keys_inv tiles key_rows tile_rows.
Proof.
  intros Hn H. apply (@build_rows_from_inv fields_dir tiles [] [] []); try assumption.
  constructor; cbn; try reflexivity; constructor.
Qed.

Lemma keys_build_Ok (tiles_csv fields_dir output_csv summary_json : str)
    (n : nat) evs :
  Keys.build_google_maps_field_keys w tiles_csv fields_dir output_csv summary_json
    = (Ok n, evs) ->
  exists tiles key_rows tile_rows,
    Keys._read_tiles_of_interest tiles_csv (Keys.exists_ w tiles_csv)
      (Keys.read_csv w tiles_csv) = Ok tiles
    /\ Keys._build_rows w tiles fields_dir = Ok (key_rows, tile_rows)
    /\ n = length key_rows
    /\ evs = [Keys.MkdirParent output_csv;
              Keys.WriteCsv output_csv Keys.fieldnames key_rows;
              Keys.MkdirParent summary_json;
              Keys.WriteSummary summary_json
                {| Keys.tiles_requested := length tiles;
                   Keys.tiles_ok := length (filter Keys.is_ok tile_rows);
                   Keys.tiles_missing_raster :=
                     length (filter Keys.is_missing tile_rows);
                   Keys.keys_total := length key_rows;
                   Keys.tiles := tile_rows;
                   Keys.s_output_csv := Keys.resolve w output_csv |}].
Proof.
  unfold Keys.build_google_maps_field_keys.
  destruct (Keys._read_tiles_of_interest _ _ _) as [tiles|] eqn:Er; [|discriminate].
  destruct (negb (Fields.is_dir (Keys.tree w) fields_dir)); [discriminate|].
  destruct (Keys._build_rows w tiles fields_dir) as [[key_rows tile_rows]|] eqn:Eb;
    [|discriminate].
  intros H. inversion H. exists tiles, key_rows, tile_rows.
  repeat split; try reflexivity; assumption.
Qed.

Lemma status_split (tile_rows : list Keys.tile_row) :
  length tile_rows
  = length (filter Keys.is_ok tile_rows) + length (filter Keys.is_missing tile_rows).
Proof.
  induction tile_rows as [|r l IH]; [reflexivity|].
  cbn [filter].
  assert (E : Keys.is_ok r = negb (Keys.is_missing r))
    by (unfold Keys.is_ok, Keys.is_missing; destruct (Keys.t_status r); reflexivity).
  rewrite E. destruct (Keys.is_missing r); cbn [negb length]; lia.
Qed.

End KeysFacts.

(** X22: a run of the key builder that returns has written the key table
    and then a summary that agrees with it: one tile row per requested
    tile, in the order read; every tile is counted as done or as without
    raster; the number returned, [keys_total], the number of key rows and
    the sum of the [key_count]s are the same; and in each tile row
    [field_count] equals [key_count], which is zero for a tile without
    raster. *)
Theorem keys_summary_consistent (w : Keys.world)
    (tiles_csv fields_dir output_csv summary_json : str) (n : nat)
    (evs : list Keys.event) :
  Keys.build_google_maps_field_keys w tiles_csv fields_dir output_csv summary_json
    = (Ok n, evs) ->
  exists tiles key_rows s,
    Keys._read_tiles_of_interest tiles_csv (Keys.exists_ w tiles_csv)
      (Keys.read_csv w tiles_csv) = Ok tiles
    /\ evs = [Keys.MkdirParent output_csv;
              Keys.WriteCsv output_csv Keys.fieldnames key_rows;
              Keys.MkdirParent summary_json;
              Keys.WriteSummary summary_json s]
    /\ map Keys.t_tile_id (Keys.tiles s) = tiles
    /\ Keys.tiles_requested s = length tiles
    /\ Keys.tiles_requested s = Keys.tiles_ok s + Keys.tiles_missing_raster s
    /\ n = length key_rows
    /\ Keys.keys_total s = n
    /\ Keys.keys_total s = list_sum (map Keys.t_key_count (Keys.tiles s))
    /\ Forall tile_row_ok (Keys.tiles s).
Proof.
  intros H. apply keys_build_Ok in H as (tiles & key_rows & tile_rows & Hr & Hb & -> & ->).
  assert (Hn : NoDup tiles).
  { apply readers_agree, reader_Ok_collect in Hr as (_ & _ & -> & _).
    apply collect_spec. }
  destruct (build_rows_inv _ _ Hn Hb) as [H1 H2 H3 H4 H5].
  eexists tiles, key_rows, _. split; [exact Hr|]. split; [reflexivity|].
  cbn [Keys.tiles Keys.tiles_requested Keys.tiles_ok Keys.tiles_missing_raster
       Keys.keys_total].
  repeat split; try assumption; try reflexivity.
  rewrite <- status_split, <- H1, length_map. reflexivity.
Qed.

Lemma keys_summary_consistent_witness :
  exists tiles key_rows s,
    Keys._read_tiles_of_interest (lit "tiles.csv")
      (Keys.exists_ RasterSamples.keys (lit "tiles.csv"))
      (Keys.read_csv RasterSamples.keys (lit "tiles.csv")) = Ok tiles
    /\ snd (Keys.build_google_maps_field_keys RasterSamples.keys (lit "tiles.csv")
              (lit "/fields") (lit "out/keys.csv") (lit "out/summary.json"))
       = [Keys.MkdirParent (lit "out/keys.csv");
          Keys.WriteCsv (lit "out/keys.csv") Keys.fieldnames key_rows;
          Keys.MkdirParent (lit "out/summary.json");
          Keys.WriteSummary (lit "out/summary.json") s]
    /\ map Keys.t_tile_id (Keys.tiles s) = tiles
    /\ Keys.tiles_requested s = length tiles
    /\ Keys.tiles_requested s = Keys.tiles_ok s + Keys.tiles_missing_raster s
    /\ 2 = length key_rows
    /\ Keys.keys_total s = 2
    /\ Keys.keys_total s = list_sum (map Keys.t_key_count (Keys.tiles s))
    /\ Forall tile_row_ok (Keys.tiles s).
Proof.
  refine (@keys_summary_consistent RasterSamples.keys (lit "tiles.csv")
            (lit "/fields") (lit "out/keys.csv") (lit "out/summary.json") 2 _ _).
  vm_compute. reflexivity.
Defined.

(** X23: in the key table of a run that returns, the primary keys are
    pairwise different.  Each key row has the primary key
    [<tile_id>_<field_id>], a positive field id and a positive pixel count,
    and of two rows of one tile the earlier has the smaller field id. *)
Theorem primary_keys_unique (w : Keys.world)
    (tiles_csv fields_dir output_csv summary_json : str) (n : nat)
    (evs : list Keys.event) (path : str) (names : list str)
    (key_rows : list Keys.key_row) :
  Keys.build_google_maps_field_keys w tiles_csv fields_dir output_csv summary_json
    = (Ok n, evs) ->
  In (Keys.WriteCsv path names key_rows) evs ->
  NoDup (map Keys.primary_key key_rows)
  /\ StronglySorted key_order key_rows
  /\ Forall (fun r =>
               Keys.primary_key r
               = Keys.k_tile_id r ++ lit "_" ++ Py.str_of_Z (Keys.field_id r)
               /\ (0 < Keys.field_id r)%Z /\ (0 < Keys.pixel_count r)%Z)
            key_rows.
Proof.
  intros H Hev.
  apply keys_build_Ok in H as (tiles & key_rows' & tile_rows & Hr & Hb & -> & ->).
  assert (key_rows = key_rows').
  { destruct Hev as [E|[E|[E|[E|[]]]]]; try discriminate E. inversion E. reflexivity. }
  subst key_rows'. clear Hev.
  assert (Hn : NoDup tiles).
  { apply readers_agree, reader_Ok_collect in Hr as (_ & _ & -> & _).
    apply collect_spec. }
  destruct (build_rows_inv _ _ Hn Hb) as [_ _ _ H4 H5].
  split; [|split; [exact H5|]].
  - clear Hb. induction H5 as [|a l Hs IH Hf]; cbn [map]; constructor.
    + intros Hin. apply in_map_iff in Hin as (b & E & Hbl).
      inversion H4 as [|? ? Ha Hl]; subst.
      destruct Ha as (_ & Ea & _). 
      destruct (proj1 (Forall_forall _ _) Hl b Hbl) as (_ & Eb & _).
      rewrite Ea, Eb in E. apply primary_key_inj in E as [Et Ei].
      pose proof (proj1 (Forall_forall _ _) Hf b Hbl (eq_sym Et)). lia.
    + apply IH. inversion H4. assumption.
  - revert H4. apply Forall_impl. intros r (_ & H1 & H2 & H3). auto.
Qed.

Lemma primary_keys_unique_witness :
  NoDup (map Keys.primary_key
           [Keys.make_key_row (lit "h08v05") (lit "h08v05/sub/x_field_segments.tif")
              [(7, 3); (9, 1)]%Z 7;
            Keys.make_key_row (lit "h08v05") (lit "h08v05/sub/x_field_segments.tif")
              [(7, 3); (9, 1)]%Z 9])
  /\ StronglySorted key_order
       [Keys.make_key_row (lit "h08v05") (lit "h08v05/sub/x_field_segments.tif")
          [(7, 3); (9, 1)]%Z 7;
        Keys.make_key_row (lit "h08v05") (lit "h08v05/sub/x_field_segments.tif")
          [(7, 3); (9, 1)]%Z 9]
  /\ Forall (fun r =>
               Keys.primary_key r
               = Keys.k_tile_id r ++ lit "_" ++ Py.str_of_Z (Keys.field_id r)
               /\ (0 < Keys.field_id r)%Z /\ (0 < Keys.pixel_count r)%Z)
       [Keys.make_key_row (lit "h08v05") (lit "h08v05/sub/x_field_segments.tif")
          [(7, 3); (9, 1)]%Z 7;
        Keys.make_key_row (lit "h08v05") (lit "h08v05/sub/x_field_segments.tif")
          [(7, 3); (9, 1)]%Z 9].
Proof.
  refine (@primary_keys_unique RasterSamples.keys (lit "tiles.csv")
            (lit "/fields") (lit "out/keys.csv") (lit "out/summary.json") 2 _
            (lit "out/keys.csv") Keys.fieldnames _ _ _).
  - vm_compute. reflexivity.
  - right. left. vm_compute. reflexivity.
Defined.

Lemma build_rows_from_app (w : Keys.world) (fields_dir : str)
    (l1 l2 : list str) key_rows tile_rows :
  Keys.build_rows_from w fields_dir (l1 ++ l2) key_rows tile_rows
  = match Keys.build_rows_from w fields_dir l1 key_rows tile_rows with
    | Ok (key_rows', tile_rows') =>
        Keys.build_rows_from w fields_dir l2 key_rows' tile_rows'
    | Raise e => Raise e
    end.
Proof.
  revert key_rows tile_rows. induction l1 as [|t l1 IH]; intros key_rows tile_rows;
    [reflexivity|].
  cbn [app Keys.build_rows_from].
  destruct (Fields._candidate_rasters _ _ _) as [|raster_path rest]; [apply IH|].
  destruct (Keys._extract_field_counts w raster_path); [|reflexivity].
  destruct (Keys.relative_to w raster_path fields_dir); [apply IH | reflexivity].
Qed.

(** X24: the key builder does not survive a raster it cannot read.  When
    the tiles before [tile_id] are dealt with and reading the first
    candidate of [tile_id] raises, the run raises that exception and has
    written nothing, whatever the tiles after it. *)
Theorem keys_abort_on_raster_error (w : Keys.world)
    (tiles_csv fields_dir output_csv summary_json : str)
    (before after : list str) (tile_id raster_path : str) (rest : list str)
    (done : list Keys.key_row * list Keys.tile_row) (e : exn) :
  Keys._read_tiles_of_interest tiles_csv (Keys.exists_ w tiles_csv)
    (Keys.read_csv w tiles_csv) = Ok (before ++ tile_id :: after) ->
  Fields.is_dir (Keys.tree w) fields_dir = true ->
  Keys._build_rows w before fields_dir = Ok done ->
  Fields._candidate_rasters Keys._IGNORED_SUFFIXES (Keys.tree w)
    (Keys.resolve w (Keys.child w fields_dir tile_id)) = raster_path :: rest ->
  Keys._extract_field_counts w raster_path = Raise e ->
  Keys.build_google_maps_field_keys w tiles_csv fields_dir output_csv summary_json
  = (Raise e, []).
Proof.
  intros Hr Hd Hb Hc He. unfold Keys.build_google_maps_field_keys.
  rewrite Hr, Hd. cbn [negb]. unfold Keys._build_rows in *.
  rewrite build_rows_from_app, Hb. destruct done as [key_rows tile_rows].
  cbn [Keys.build_rows_from]. rewrite Hc, He. reflexivity.
Qed.

Lemma keys_abort_on_raster_error_witness :
  Keys.build_google_maps_field_keys RasterSamples.keys_unreadable
    (lit "tiles.csv") (lit "/fields") (lit "out/keys.csv") (lit "out/summary.json")
  = (Raise (RuntimeError (lit "not recognized as a supported file format")), []).
Proof.
  apply (@keys_abort_on_raster_error RasterSamples.keys_unreadable
           (lit "tiles.csv") (lit "/fields") (lit "out/keys.csv")
           (lit "out/summary.json") [] [lit "h09v05"] (lit "h08v05")
           (lit "/fields/h08v05/sub/x_field_segments.tif")
           [] ([], [])).
  - vm_compute. reflexivity.
  - reflexivity.
  - reflexivity.
  - vm_compute. reflexivity.
  - vm_compute. reflexivity.
Defined.
